(** * Structural time-series components: a shallow embedding

    This development embeds the component algebra of
    [pymc_extras/statespace/models/structural.py] and proves properties of
    it.  Python objects that the code shares and mutates (name lists,
    metadata dictionaries, placeholder registries, component-info tables)
    live in an explicit object store; attributes of a component are
    references into that store, so that aliasing and in-place updates are
    visible.  Exceptions are results of a small state-and-error monad. *)

From Stdlib Require Import ZArith QArith Qround Lia Ascii.
From stdpp Require Import gmap strings list fin_maps pretty.

Local Open Scope Z_scope.
Local Open Scope string_scope.
Local Open Scope list_scope.

(** ** Exceptions *)

Inductive Exn : Type :=
| ValueError (msg : string)
| NotImplementedError (msg : string)
| IndexError
| KeyError (key : string)
| ZeroDivisionError
| TypeError
| AttributeError
| DanglingReference.

Inductive Res (A : Type) : Type :=
| Ok (a : A)
| Raise (e : Exn).
Arguments Ok {A} a.
Arguments Raise {A} e.

Definition is_Ok {A} (r : Res A) : bool :=
  match r with Ok _ => true | Raise _ => false end.

(** ** Symbolic tensors

    [pytensor] builds an expression graph; the constructors below are the
    graph nodes that the modelled code creates.  Numeric constants that the
    code writes (0, 1, -1 and the entries of [np.eye]) are integers. *)

Inductive Index : Type :=
| IAll                       (* [:] *)
| IInt (i : Z)               (* a single position *)
| ISlice (start stop step : Z)
| IArr (positions : list Z)  (* integer-array indexing *)
| IMask (mask : list bool).  (* boolean-array indexing *)

#[warning="-register-all"]
Inductive Tensor : Type :=
| TZeros (shape : list Z)                                  (* pt.zeros(shape) *)
| TScalar (c : Z)                                          (* a Python number *)
| TArray1 (v : list Z)                                     (* 1-d numpy array *)
| TArray2 (m : list (list Z))                              (* 2-d numpy array *)
| TTensor (name : string) (shape : list (option Z)) (dtype : string) (* pt.tensor *)
| TSet (base : Tensor) (idx : list Index) (v : Tensor)     (* x[idx] = v *)
| TGet (base : Tensor) (idx : list Index)                  (* x[idx] *)
| TConcatenate (a b : Tensor) (axis : Z)
| TConformL (a b : Tensor)      (* first result of conform_time_varying_... *)
| TConformR (a b : Tensor)      (* second result *)
| TBlockDiag (xs : list Tensor)
| TAdd (a b : Tensor)
| TMul (a b : Tensor)
| TSqr (a : Tensor)                                        (* x ** 2 *)
| TEye (n : Z)                                             (* pt.eye(n) *)
| TFrequencyBlock (s : Z) (j : Z)         (* _frequency_transition_block *)
| TNamed (name : option string) (t : Tensor).              (* x.name = name *)

Definition tensor_name (t : Tensor) : option string :=
  match t with
  | TNamed n _ => n
  | TTensor n _ _ => Some n
  | _ => None
  end.

Definition floatX : string := "float64".

(** ** Values held by dictionaries *)

(** The inner dictionary of [param_info] / [data_info]:
    [{"shape": ..., "constraints": ..., "dims": ...}]. *)
Record Info : Type := mkInfo {
  info_shape : list (option Z);
  info_constraints : option string;
  info_dims : option (list string);
}.

Inductive Val : Type :=
| VDims (dims : list string)       (* a tuple of dimension names *)
| VCoord (labels : list string)    (* a coordinate sequence *)
| VInfo (i : Info)
| VVar (t : Tensor).               (* a registered placeholder *)

(** An entry of [_component_info]. *)
Record ComponentInfo : Type := mkComponentInfo {
  ci_k_states : Z;
  ci_k_enodg : Z;
  ci_k_posdef : Z;
  ci_combine_hidden_states : bool;
  ci_obs_state_idx : option (list Z);
}.

(** ** The object store *)

Abbreviation loc := nat.

Inductive Obj : Type :=
| OList (l : list string)                       (* list[str] *)
| ODict (d : gmap string Val)                   (* dict keyed by name *)
| OTable (t : list (string * ComponentInfo)).   (* insertion-ordered dict *)

Abbreviation Heap := (list Obj).

(** ** The monad: state passing with exceptions *)

Definition M (A : Type) : Type := Heap → Res A * Heap.

Definition ret {A} (a : A) : M A := fun h => (Ok a, h).
Definition raise {A} (e : Exn) : M A := fun h => (Raise e, h).
Definition bind {A B} (m : M A) (f : A → M B) : M B :=
  fun h => match m h with
           | (Ok a, h') => f a h'
           | (Raise e, h') => (Raise e, h')
           end.

Notation "'do' x <- m ; k" := (bind m (fun x => k))
  (at level 10, x name, m at level 100, k at level 200).
Notation "'do' ' p <- m ; k" := (bind m (fun x => match x with p => k end))
  (at level 10, p pattern, m at level 100, k at level 200).
Notation "m ;;; k" := (bind m (fun _ => k))
  (at level 100, k at level 200, right associativity).

Definition alloc (o : Obj) : M loc :=
  fun h => (Ok (length h), h ++ [o]).

Definition deref (l : loc) : M Obj :=
  fun h => match h !! l with
           | Some o => (Ok o, h)
           | None => (Raise DanglingReference, h)
           end.

Definition store (l : loc) (o : Obj) : M unit :=
  fun h => match h !! l with
           | Some _ => (Ok tt, <[l := o]> h)
           | None => (Raise DanglingReference, h)
           end.

Definition deref_list (l : loc) : M (list string) :=
  do o <- deref l;
  match o with OList x => ret x | _ => raise TypeError end.

Definition deref_dict (l : loc) : M (gmap string Val) :=
  do o <- deref l;
  match o with ODict d => ret d | _ => raise TypeError end.

Definition deref_table (l : loc) : M (list (string * ComponentInfo)) :=
  do o <- deref l;
  match o with OTable t => ret t | _ => raise TypeError end.

(** [x.copy()] for a list, a dict, or an ordered dict. *)
Definition copy (l : loc) : M loc :=
  do o <- deref l; alloc o.

(** [d[k] = v] on a dict in the store. *)
Definition dict_setitem (l : loc) (k : string) (v : Val) : M unit :=
  do d <- deref_dict l; store l (ODict (<[k := v]> d)).

(** [d.update(e)]: the entries of [e] win. *)
Definition dict_update (l : loc) (e : gmap string Val) : M unit :=
  do d <- deref_dict l; store l (ODict (e ∪ d)).

(** [xs += ys] on a list object: extends it in place. *)
Definition list_iadd (l : loc) (ys : list string) : M unit :=
  do xs <- deref_list l; store l (OList (xs ++ ys)).

(** Insertion-ordered dictionaries (Python [dict]) where the order is
    observed: [_component_info]. *)
Fixpoint table_set {V} (k : string) (v : V) (t : list (string * V)) : list (string * V) :=
  match t with
  | [] => [(k, v)]
  | (k', v') :: t' => if decide (k = k') then (k, v) :: t' else (k', v') :: table_set k v t'
  end.

Definition table_keys {V} (t : list (string * V)) : list string := t.*1.

Fixpoint table_get {V} (k : string) (t : list (string * V)) : option V :=
  match t with
  | [] => None
  | (k', v') :: t' => if decide (k = k') then Some v' else table_get k t'
  end.

(** Python [repr] of a shape tuple, used in error messages. *)
Definition repr_dim (d : option Z) : string :=
  match d with Some n => pretty n | None => "None" end.

Definition repr_shape (s : list (option Z)) : string :=
  match s with
  | [] => "()"
  | [d] => "(" +:+ repr_dim d +:+ ",)"
  | _ => "(" +:+ String.concat ", " (repr_dim <$> s) +:+ ")"
  end.

(** ** The matrix container

    Modelled from the spec: [PytensorRepresentation] is declared in
    [pymc_extras.statespace.core], which is not part of the sources at hand.
    The spec's data model lists its content: the state-space dimensions and
    the nine system matrices x0, P0, c, d, T, Z, R, H, Q.  The matrix keys
    are the keyword names used by [_combine_statespace_representations];
    matrices that are not supplied start as zeros of the recorded shape.
    The recorded shapes carry the leading time axis that the code of
    [StructuralTimeSeries.__init__] writes for its dummy matrices. *)
Module PytensorRepresentation.

Record t : Type := mk {
  k_endog : Z;
  k_states : Z;
  k_posdef : Z;
  shapes : gmap string (list Z);
  initial_state : Tensor;
  initial_state_cov : Tensor;
  state_intercept : Tensor;
  obs_intercept : Tensor;
  transition : Tensor;
  design : Tensor;
  selection : Tensor;
  obs_cov : Tensor;
  state_cov : Tensor;
}.

Definition default_shapes (k_endog k_states k_posdef : Z) : gmap string (list Z) :=
  list_to_map
    [("initial_state", [k_states]);
     ("initial_state_cov", [k_states; k_states]);
     ("state_intercept", [1; k_states]);
     ("obs_intercept", [1; k_endog]);
     ("transition", [1; k_states; k_states]);
     ("design", [1; k_endog; k_states]);
     ("selection", [1; k_states; k_posdef]);
     ("obs_cov", [1; k_endog; k_endog]);
     ("state_cov", [1; k_posdef; k_posdef])].

(** A matrix passed to the constructor is kept; an omitted one is zeros. *)
Definition initial (sh : gmap string (list Z)) (name : string) (given : option Tensor) : Tensor :=
  match given with
  | Some X => X
  | None => TZeros (default [] (sh !! name))
  end.

Definition __init__ (k_endog k_states k_posdef : Z)
    (initial_state initial_state_cov state_intercept obs_intercept transition
     design selection obs_cov state_cov : option Tensor) : t :=
  let sh := default_shapes k_endog k_states k_posdef in
  {| k_endog := k_endog; k_states := k_states; k_posdef := k_posdef; shapes := sh;
     initial_state := initial sh "initial_state" initial_state;
     initial_state_cov := initial sh "initial_state_cov" initial_state_cov;
     state_intercept := initial sh "state_intercept" state_intercept;
     obs_intercept := initial sh "obs_intercept" obs_intercept;
     transition := initial sh "transition" transition;
     design := initial sh "design" design;
     selection := initial sh "selection" selection;
     obs_cov := initial sh "obs_cov" obs_cov;
     state_cov := initial sh "state_cov" state_cov |}.

Definition matrix (self : t) (name : string) : option Tensor :=
  if decide (name = "initial_state") then Some (initial_state self)
  else if decide (name = "initial_state_cov") then Some (initial_state_cov self)
  else if decide (name = "state_intercept") then Some (state_intercept self)
  else if decide (name = "obs_intercept") then Some (obs_intercept self)
  else if decide (name = "transition") then Some (transition self)
  else if decide (name = "design") then Some (design self)
  else if decide (name = "selection") then Some (selection self)
  else if decide (name = "obs_cov") then Some (obs_cov self)
  else if decide (name = "state_cov") then Some (state_cov self)
  else None.

Definition set_matrix (self : t) (name : string) (X : Tensor) : option t :=
  if decide (name = "initial_state") then
    Some {| k_endog := k_endog self; k_states := k_states self; k_posdef := k_posdef self;
           shapes := shapes self; initial_state := X; initial_state_cov :=
           initial_state_cov self; state_intercept := state_intercept self;
           obs_intercept := obs_intercept self; transition := transition self;
           design := design self; selection := selection self; obs_cov := obs_cov
           self; state_cov := state_cov self |}
  else if decide (name = "initial_state_cov") then
    Some {| k_endog := k_endog self; k_states := k_states self; k_posdef := k_posdef self;
           shapes := shapes self; initial_state := initial_state self;
           initial_state_cov := X; state_intercept := state_intercept self;
           obs_intercept := obs_intercept self; transition := transition self;
           design := design self; selection := selection self; obs_cov := obs_cov
           self; state_cov := state_cov self |}
  else if decide (name = "state_intercept") then
    Some {| k_endog := k_endog self; k_states := k_states self; k_posdef := k_posdef self;
           shapes := shapes self; initial_state := initial_state self;
           initial_state_cov := initial_state_cov self; state_intercept := X;
           obs_intercept := obs_intercept self; transition := transition self;
           design := design self; selection := selection self; obs_cov := obs_cov
           self; state_cov := state_cov self |}
  else if decide (name = "obs_intercept") then
    Some {| k_endog := k_endog self; k_states := k_states self; k_posdef := k_posdef self;
           shapes := shapes self; initial_state := initial_state self;
           initial_state_cov := initial_state_cov self; state_intercept :=
           state_intercept self; obs_intercept := X; transition := transition self;
           design := design self; selection := selection self; obs_cov := obs_cov
           self; state_cov := state_cov self |}
  else if decide (name = "transition") then
    Some {| k_endog := k_endog self; k_states := k_states self; k_posdef := k_posdef self;
           shapes := shapes self; initial_state := initial_state self;
           initial_state_cov := initial_state_cov self; state_intercept :=
           state_intercept self; obs_intercept := obs_intercept self; transition :=
           X; design := design self; selection := selection self; obs_cov := obs_cov
           self; state_cov := state_cov self |}
  else if decide (name = "design") then
    Some {| k_endog := k_endog self; k_states := k_states self; k_posdef := k_posdef self;
           shapes := shapes self; initial_state := initial_state self;
           initial_state_cov := initial_state_cov self; state_intercept :=
           state_intercept self; obs_intercept := obs_intercept self; transition :=
           transition self; design := X; selection := selection self; obs_cov :=
           obs_cov self; state_cov := state_cov self |}
  else if decide (name = "selection") then
    Some {| k_endog := k_endog self; k_states := k_states self; k_posdef := k_posdef self;
           shapes := shapes self; initial_state := initial_state self;
           initial_state_cov := initial_state_cov self; state_intercept :=
           state_intercept self; obs_intercept := obs_intercept self; transition :=
           transition self; design := design self; selection := X; obs_cov :=
           obs_cov self; state_cov := state_cov self |}
  else if decide (name = "obs_cov") then
    Some {| k_endog := k_endog self; k_states := k_states self; k_posdef := k_posdef self;
           shapes := shapes self; initial_state := initial_state self;
           initial_state_cov := initial_state_cov self; state_intercept :=
           state_intercept self; obs_intercept := obs_intercept self; transition :=
           transition self; design := design self; selection := selection self;
           obs_cov := X; state_cov := state_cov self |}
  else if decide (name = "state_cov") then
    Some {| k_endog := k_endog self; k_states := k_states self; k_posdef := k_posdef self;
           shapes := shapes self; initial_state := initial_state self;
           initial_state_cov := initial_state_cov self; state_intercept :=
           state_intercept self; obs_intercept := obs_intercept self; transition :=
           transition self; design := design self; selection := selection self;
           obs_cov := obs_cov self; state_cov := X |}
  else None.

(** [ssm[name]] and [ssm[name, idx...]] *)
Definition __getitem__ (self : t) (name : string) (idx : list Index) : Res Tensor :=
  match matrix self name with
  | None => Raise (KeyError name)
  | Some X => Ok (match idx with [] => X | _ => TGet X idx end)
  end.

(** [ssm[name] = X] and [ssm[name, idx...] = X] *)
Definition __setitem__ (self : t) (name : string) (idx : list Index) (X : Tensor) : Res t :=
  match matrix self name with
  | None => Raise (KeyError name)
  | Some old =>
      match set_matrix self name (match idx with [] => X | _ => TSet old idx X end) with
      | Some r => Ok r
      | None => Raise (KeyError name)
      end
  end.

Definition set_k_posdef (v : Z) (self : t) : t :=
  {| k_endog := k_endog self; k_states := k_states self; k_posdef := v; shapes :=
         shapes self; initial_state := initial_state self; initial_state_cov :=
         initial_state_cov self; state_intercept := state_intercept self;
         obs_intercept := obs_intercept self; transition := transition self;
         design := design self; selection := selection self; obs_cov := obs_cov
         self; state_cov := state_cov self |}.

Definition set_shape (name : string) (v : list Z) (self : t) : t :=
  {| k_endog := k_endog self; k_states := k_states self; k_posdef := k_posdef self;
         shapes := <[name := v]> (shapes self); initial_state := initial_state
         self; initial_state_cov := initial_state_cov self; state_intercept :=
         state_intercept self; obs_intercept := obs_intercept self; transition :=
         transition self; design := design self; selection := selection self;
         obs_cov := obs_cov self; state_cov := state_cov self |}.

End PytensorRepresentation.

(** [LONG_MATRIX_NAMES], in the order x0, P0, c, d, T, Z, R, H, Q in which
    [_combine_statespace_representations] unpacks it. *)
Definition LONG_MATRIX_NAMES : list string :=
  ["initial_state"; "initial_state_cov"; "state_intercept"; "obs_intercept";
   "transition"; "design"; "selection"; "obs_cov"; "state_cov"].

(** Lifting a pure result into the monad. *)
Definition lift {A} (r : Res A) : M A := fun h => (r, h).

Definition is_int_index (i : Index) : bool :=
  match i with IInt _ => true | _ => false end.

(** Number of axes of a tensor expression ([x.ndim]). *)
Fixpoint ndim (x : Tensor) : nat :=
  match x with
  | TZeros s => length s
  | TScalar _ => 0
  | TArray1 _ => 1
  | TArray2 _ => 2
  | TTensor _ s _ => length s
  | TSet b _ _ => ndim b
  | TGet b idx => ndim b - length (List.filter is_int_index idx)
  | TConcatenate a _ _ => ndim a
  | TConformL a b | TConformR a b => ndim a `max` ndim b
  | TBlockDiag xs => foldr Nat.max 2%nat (ndim <$> xs)
  | TAdd a b | TMul a b => ndim a `max` ndim b
  | TSqr a => ndim a
  | TEye _ => 2
  | TFrequencyBlock _ _ => 2
  | TNamed _ t => ndim t
  end.

(** ** Components *)
Module Component.

Record t : Type := mk {
  name : string;
  k_endog : Z;
  k_states : Z;
  k_posdef : Z;
  measurement_error : bool;
  state_names : loc;
  data_names : loc;
  shock_names : loc;
  param_names : loc;
  exog_names : loc;
  needs_exog_data : bool;
  coords : loc;
  param_dims : loc;
  param_info : loc;
  data_info : loc;
  param_counts : loc;
  ssm : PytensorRepresentation.t;
  _name_to_variable : loc;
  _name_to_data : loc;
  _component_info : option loc;
}.

(** [setattr(self, field, value)]: attributes are rebound functionally. *)
Definition set_name (v : string) (self : t) : t :=
  {| name := v; k_endog := k_endog self; k_states := k_states self; k_posdef :=
     k_posdef self; measurement_error := measurement_error self; state_names :=
     state_names self; data_names := data_names self; shock_names := shock_names
     self; param_names := param_names self; exog_names := exog_names self;
     needs_exog_data := needs_exog_data self; coords := coords self; param_dims :=
     param_dims self; param_info := param_info self; data_info := data_info self;
     param_counts := param_counts self; ssm := ssm self; _name_to_variable :=
     _name_to_variable self; _name_to_data := _name_to_data self; _component_info :=
     _component_info self |}.
Definition set_state_names (v : loc) (self : t) : t :=
  {| name := name self; k_endog := k_endog self; k_states := k_states self; k_posdef
     := k_posdef self; measurement_error := measurement_error self; state_names :=
     v; data_names := data_names self; shock_names := shock_names self; param_names
     := param_names self; exog_names := exog_names self; needs_exog_data :=
     needs_exog_data self; coords := coords self; param_dims := param_dims self;
     param_info := param_info self; data_info := data_info self; param_counts :=
     param_counts self; ssm := ssm self; _name_to_variable := _name_to_variable
     self; _name_to_data := _name_to_data self; _component_info := _component_info
     self |}.
Definition set_data_names (v : loc) (self : t) : t :=
  {| name := name self; k_endog := k_endog self; k_states := k_states self; k_posdef
     := k_posdef self; measurement_error := measurement_error self; state_names :=
     state_names self; data_names := v; shock_names := shock_names self; param_names
     := param_names self; exog_names := exog_names self; needs_exog_data :=
     needs_exog_data self; coords := coords self; param_dims := param_dims self;
     param_info := param_info self; data_info := data_info self; param_counts :=
     param_counts self; ssm := ssm self; _name_to_variable := _name_to_variable
     self; _name_to_data := _name_to_data self; _component_info := _component_info
     self |}.
Definition set_shock_names (v : loc) (self : t) : t :=
  {| name := name self; k_endog := k_endog self; k_states := k_states self; k_posdef
     := k_posdef self; measurement_error := measurement_error self; state_names :=
     state_names self; data_names := data_names self; shock_names := v; param_names
     := param_names self; exog_names := exog_names self; needs_exog_data :=
     needs_exog_data self; coords := coords self; param_dims := param_dims self;
     param_info := param_info self; data_info := data_info self; param_counts :=
     param_counts self; ssm := ssm self; _name_to_variable := _name_to_variable
     self; _name_to_data := _name_to_data self; _component_info := _component_info
     self |}.
Definition set_param_names (v : loc) (self : t) : t :=
  {| name := name self; k_endog := k_endog self; k_states := k_states self; k_posdef
     := k_posdef self; measurement_error := measurement_error self; state_names :=
     state_names self; data_names := data_names self; shock_names := shock_names
     self; param_names := v; exog_names := exog_names self; needs_exog_data :=
     needs_exog_data self; coords := coords self; param_dims := param_dims self;
     param_info := param_info self; data_info := data_info self; param_counts :=
     param_counts self; ssm := ssm self; _name_to_variable := _name_to_variable
     self; _name_to_data := _name_to_data self; _component_info := _component_info
     self |}.
Definition set_exog_names (v : loc) (self : t) : t :=
  {| name := name self; k_endog := k_endog self; k_states := k_states self; k_posdef
     := k_posdef self; measurement_error := measurement_error self; state_names :=
     state_names self; data_names := data_names self; shock_names := shock_names
     self; param_names := param_names self; exog_names := v; needs_exog_data :=
     needs_exog_data self; coords := coords self; param_dims := param_dims self;
     param_info := param_info self; data_info := data_info self; param_counts :=
     param_counts self; ssm := ssm self; _name_to_variable := _name_to_variable
     self; _name_to_data := _name_to_data self; _component_info := _component_info
     self |}.
Definition set_coords (v : loc) (self : t) : t :=
  {| name := name self; k_endog := k_endog self; k_states := k_states self; k_posdef
     := k_posdef self; measurement_error := measurement_error self; state_names :=
     state_names self; data_names := data_names self; shock_names := shock_names
     self; param_names := param_names self; exog_names := exog_names self;
     needs_exog_data := needs_exog_data self; coords := v; param_dims := param_dims
     self; param_info := param_info self; data_info := data_info self; param_counts
     := param_counts self; ssm := ssm self; _name_to_variable := _name_to_variable
     self; _name_to_data := _name_to_data self; _component_info := _component_info
     self |}.
Definition set_param_dims (v : loc) (self : t) : t :=
  {| name := name self; k_endog := k_endog self; k_states := k_states self; k_posdef
     := k_posdef self; measurement_error := measurement_error self; state_names :=
     state_names self; data_names := data_names self; shock_names := shock_names
     self; param_names := param_names self; exog_names := exog_names self;
     needs_exog_data := needs_exog_data self; coords := coords self; param_dims :=
     v; param_info := param_info self; data_info := data_info self; param_counts :=
     param_counts self; ssm := ssm self; _name_to_variable := _name_to_variable
     self; _name_to_data := _name_to_data self; _component_info := _component_info
     self |}.
Definition set_param_info (v : loc) (self : t) : t :=
  {| name := name self; k_endog := k_endog self; k_states := k_states self; k_posdef
     := k_posdef self; measurement_error := measurement_error self; state_names :=
     state_names self; data_names := data_names self; shock_names := shock_names
     self; param_names := param_names self; exog_names := exog_names self;
     needs_exog_data := needs_exog_data self; coords := coords self; param_dims :=
     param_dims self; param_info := v; data_info := data_info self; param_counts :=
     param_counts self; ssm := ssm self; _name_to_variable := _name_to_variable
     self; _name_to_data := _name_to_data self; _component_info := _component_info
     self |}.
Definition set_data_info (v : loc) (self : t) : t :=
  {| name := name self; k_endog := k_endog self; k_states := k_states self; k_posdef
     := k_posdef self; measurement_error := measurement_error self; state_names :=
     state_names self; data_names := data_names self; shock_names := shock_names
     self; param_names := param_names self; exog_names := exog_names self;
     needs_exog_data := needs_exog_data self; coords := coords self; param_dims :=
     param_dims self; param_info := param_info self; data_info := v; param_counts :=
     param_counts self; ssm := ssm self; _name_to_variable := _name_to_variable
     self; _name_to_data := _name_to_data self; _component_info := _component_info
     self |}.
Definition set_ssm (v : PytensorRepresentation.t) (self : t) : t :=
  {| name := name self; k_endog := k_endog self; k_states := k_states self; k_posdef
     := k_posdef self; measurement_error := measurement_error self; state_names :=
     state_names self; data_names := data_names self; shock_names := shock_names
     self; param_names := param_names self; exog_names := exog_names self;
     needs_exog_data := needs_exog_data self; coords := coords self; param_dims :=
     param_dims self; param_info := param_info self; data_info := data_info self;
     param_counts := param_counts self; ssm := v; _name_to_variable :=
     _name_to_variable self; _name_to_data := _name_to_data self; _component_info :=
     _component_info self |}.
Definition set_name_to_variable (v : loc) (self : t) : t :=
  {| name := name self; k_endog := k_endog self; k_states := k_states self; k_posdef
     := k_posdef self; measurement_error := measurement_error self; state_names :=
     state_names self; data_names := data_names self; shock_names := shock_names
     self; param_names := param_names self; exog_names := exog_names self;
     needs_exog_data := needs_exog_data self; coords := coords self; param_dims :=
     param_dims self; param_info := param_info self; data_info := data_info self;
     param_counts := param_counts self; ssm := ssm self; _name_to_variable := v;
     _name_to_data := _name_to_data self; _component_info := _component_info self |}.
Definition set_name_to_data (v : loc) (self : t) : t :=
  {| name := name self; k_endog := k_endog self; k_states := k_states self; k_posdef
     := k_posdef self; measurement_error := measurement_error self; state_names :=
     state_names self; data_names := data_names self; shock_names := shock_names
     self; param_names := param_names self; exog_names := exog_names self;
     needs_exog_data := needs_exog_data self; coords := coords self; param_dims :=
     param_dims self; param_info := param_info self; data_info := data_info self;
     param_counts := param_counts self; ssm := ssm self; _name_to_variable :=
     _name_to_variable self; _name_to_data := v; _component_info := _component_info
     self |}.
Definition set_component_info (v : option loc) (self : t) : t :=
  {| name := name self; k_endog := k_endog self; k_states := k_states self; k_posdef
     := k_posdef self; measurement_error := measurement_error self; state_names :=
     state_names self; data_names := data_names self; shock_names := shock_names
     self; param_names := param_names self; exog_names := exog_names self;
     needs_exog_data := needs_exog_data self; coords := coords self; param_dims :=
     param_dims self; param_info := param_info self; data_info := data_info self;
     param_counts := param_counts self; ssm := ssm self; _name_to_variable :=
     _name_to_variable self; _name_to_data := _name_to_data self; _component_info :=
     v |}.

Definition default_list (x : option loc) : M loc :=
  match x with
  | Some l => ret l
  | None => alloc (OList [])
  end.

(** The base class's [populate_component_properties] and
    [make_symbolic_graph]. *)
Definition populate_component_properties (self : t) : M t :=
  raise (NotImplementedError "").

Definition make_symbolic_graph (self : t) : M t :=
  raise (NotImplementedError "").

(** [Component.__init__].  The two methods that subclasses override are
    passed as arguments; attributes that a subclass sets before calling
    [super().__init__] are captured by those arguments. *)
Definition __init__ (name : string) (k_endog k_states k_posdef : Z)
    (state_names data_names shock_names param_names exog_names : option loc)
    (representation : option PytensorRepresentation.t)
    (measurement_error combine_hidden_states component_from_sum : bool)
    (obs_state_idxs : option (list Z))
    (populate_component_properties make_symbolic_graph : t → M t) : M t :=
  do state_names <- default_list state_names;
  do data_names <- default_list data_names;
  do shock_names <- default_list shock_names;
  do param_names <- default_list param_names;
  do exog_names <- default_list exog_names;
  do exog <- deref_list exog_names;
  let needs_exog_data := bool_decide (0 < length exog)%nat in
  do coords <- alloc (ODict ∅);
  do param_dims <- alloc (ODict ∅);
  do param_info <- alloc (ODict ∅);
  do data_info <- alloc (ODict ∅);
  do param_counts <- alloc (ODict ∅);
  let ssm := match representation with
             | None => PytensorRepresentation.__init__ k_endog k_states k_posdef
                         None None None None None None None None None
             | Some r => r
             end in
  do _name_to_variable <- alloc (ODict ∅);
  do _name_to_data <- alloc (ODict ∅);
  let self := mk name k_endog k_states k_posdef measurement_error
                 state_names data_names shock_names param_names exog_names
                 needs_exog_data coords param_dims param_info data_info param_counts
                 ssm _name_to_variable _name_to_data None in
  do self <- (if component_from_sum then ret self
              else do self <- populate_component_properties self;
                   make_symbolic_graph self);
  do info <- alloc (OTable [(Component.name self,
                             mkComponentInfo (Component.k_states self) (Component.k_endog self)
                               (Component.k_posdef self) combine_hidden_states obs_state_idxs)]);
  ret (set_component_info (Some info) self).

Definition not_a_parameter : string :=
  " is not a model parameter. All placeholder variables should correspond to model parameters.".

(** [registry[name].type.shape], as printed in the error message. *)
Definition registered_shape (v : Val) : string :=
  match v with
  | VVar (TTensor _ shape _) => repr_shape shape
  | _ => ""
  end.

Definition make_and_register_variable (self : t) (name : string)
    (shape : list (option Z)) (dtype : string) : M Tensor :=
  do names <- deref_list (param_names self);
  if decide (name ∈ names) then
    do registry <- deref_dict (_name_to_variable self);
    match registry !! name with
    | Some registered =>
        raise (ValueError (name +:+ " is already a registered placeholder variable with shape "
                             +:+ registered_shape registered))
    | None =>
        let placeholder := TTensor name shape dtype in
        dict_setitem (_name_to_variable self) name (VVar placeholder) ;;;
        ret placeholder
    end
  else
    raise (ValueError (name +:+ not_a_parameter)).

Definition make_and_register_data (self : t) (name : string)
    (shape : list (option Z)) (dtype : string) : M Tensor :=
  do names <- deref_list (data_names self);
  if decide (name ∈ names) then
    do registry <- deref_dict (_name_to_data self);
    match registry !! name with
    | Some registered =>
        raise (ValueError (name +:+ " is already a registered placeholder variable with shape "
                             +:+ registered_shape registered))
    | None =>
        let placeholder := TTensor name shape dtype in
        dict_setitem (_name_to_data self) name (VVar placeholder) ;;;
        ret placeholder
    end
  else
    raise (ValueError (name +:+ not_a_parameter)).

Definition _get_combined_shapes (self other : t) : Res (Z * Z * Z) :=
  let k_states := k_states self + k_states other in
  let k_posdef := k_posdef self + k_posdef other in
  if decide (k_endog self ≠ k_endog other) then
    Raise (NotImplementedError
             "Merging elements with different numbers of observed states is not supported.>")
  else
    let k_endog := k_endog self in
    Ok (k_states, k_posdef, k_endog).

Definition res_bind {A B} (r : Res A) (f : A → Res B) : Res B :=
  match r with
  | Ok a => f a
  | Raise e => Raise e
  end.

Fixpoint res_mapM {A B} (f : A → Res B) (l : list A) : Res (list B) :=
  match l with
  | [] => Ok []
  | a :: l' => res_bind (f a) (fun b => res_bind (res_mapM f l') (fun bs => Ok (b :: bs)))
  end.

(** [make_slice]: the matrix name followed by one full slice per axis. *)
Definition make_slice (x o_x : Tensor) : list Index :=
  replicate (ndim x `max` ndim o_x) IAll.

(** The pieces that [conform_time_varying_and_time_invariant_matrices]
    returns are graph nodes of their own; that helper is declared in
    [models.utilities]. *)
Definition concatenate_conformed (A B : Tensor) (axis : Z) : Tensor :=
  TConcatenate (TConformL A B) (TConformR A B) axis.

Definition _combine_statespace_representations (self other : t) : Res PytensorRepresentation.t :=
  res_bind (_get_combined_shapes self other) (fun '(k_states, k_posdef, k_endog) =>
  res_bind (res_mapM (fun name => PytensorRepresentation.__getitem__ (ssm self) name [])
              LONG_MATRIX_NAMES) (fun self_matrices =>
  res_bind (res_mapM (fun name => PytensorRepresentation.__getitem__ (ssm other) name [])
              LONG_MATRIX_NAMES) (fun other_matrices =>
  let slices := zip LONG_MATRIX_NAMES (zip_with make_slice self_matrices other_matrices) in
  res_bind (res_mapM (fun '(name, sl) => PytensorRepresentation.__getitem__ (ssm self) name sl)
              slices) (fun mine =>
  res_bind (res_mapM (fun '(name, sl) => PytensorRepresentation.__getitem__ (ssm other) name sl)
              slices) (fun theirs =>
  match mine, theirs with
  | [x0; P0; c; d; T; Z; R; H; Q], [o_x0; o_P0; o_c; o_d; o_T; o_Z; o_R; o_H; o_Q] =>
      let initial_state := TNamed (tensor_name x0) (concatenate_conformed x0 o_x0 0) in
      let initial_state_cov := TNamed (tensor_name P0) (TBlockDiag [P0; o_P0]) in
      let state_intercept := TNamed (tensor_name c) (concatenate_conformed c o_c 0) in
      let obs_intercept := TNamed (tensor_name d) (TAdd d o_d) in
      let transition := TNamed (tensor_name T) (TBlockDiag [T; o_T]) in
      let design := TNamed (tensor_name Z) (concatenate_conformed Z o_Z (-1)) in
      let selection := TNamed (tensor_name R) (TBlockDiag [R; o_R]) in
      let obs_cov := TNamed (tensor_name H) (TAdd H o_H) in
      let state_cov := TNamed (tensor_name Q) (TBlockDiag [Q; o_Q]) in
      Ok (PytensorRepresentation.__init__ k_endog k_states k_posdef
            (Some initial_state) (Some initial_state_cov) (Some state_intercept)
            (Some obs_intercept) (Some transition) (Some design) (Some selection)
            (Some obs_cov) (Some state_cov))
  | _, _ => Raise (ValueError "not enough values to unpack")
  end))))).

(** [dict.update] on an insertion-ordered dictionary. *)
Definition table_update {V} (t e : list (string * V)) : list (string * V) :=
  foldl (fun acc kv => table_set kv.1 kv.2 acc) t e.

(** [_combine_property]: [getattr(self, name)] is given by the projection
    [prop].  Lists are concatenated into a new list; dictionaries are
    copied and updated.  Every object of the store is a list or a
    dictionary, so the function's fall-through case does not arise. *)
Definition _combine_property (self other : t) (prop : t → loc) : M loc :=
  do self_prop <- deref (prop self);
  match self_prop with
  | OList xs =>
      do other_prop <- deref (prop other);
      match other_prop with
      | OList ys => alloc (OList (xs ++ ys))
      | _ => raise TypeError
      end
  | ODict d =>
      do new_prop <- alloc (ODict d);
      do other_prop <- deref (prop other);
      match other_prop with
      | ODict e => store new_prop (ODict (e ∪ d)) ;;; ret new_prop
      | _ => raise TypeError
      end
  | OTable t =>
      do new_prop <- alloc (OTable t);
      do other_prop <- deref (prop other);
      match other_prop with
      | OTable e => store new_prop (OTable (table_update t e)) ;;; ret new_prop
      | _ => raise TypeError
      end
  end.

Definition component_info_items (self : t) : M (list (string * ComponentInfo)) :=
  match _component_info self with
  | Some l => deref_table l
  | None => raise AttributeError
  end.

(** One of the two loops of [_combine_component_info]. *)
Fixpoint combine_info_loop (items combined_info : list (string * ComponentInfo))
    : Res (list (string * ComponentInfo)) :=
  match items with
  | [] => Ok combined_info
  | (key, value) :: rest =>
      if String.prefix "StateSpace" key then combine_info_loop rest combined_info
      else if decide (key ∈ table_keys combined_info) then
        Raise (ValueError ("Found duplicate component named " +:+ key))
      else combine_info_loop rest (table_set key value combined_info)
  end.

(** [_combine_component_info].  The new dictionary is written back after
    each loop; when a loop raises, the partly filled dictionary is
    unreachable. *)
Definition _combine_component_info (self other : t) : M loc :=
  do combined_info <- alloc (OTable []);
  do mine <- component_info_items self;
  do combined <- lift (combine_info_loop mine []);
  store combined_info (OTable combined) ;;;
  do theirs <- component_info_items other;
  do combined <- lift (combine_info_loop theirs combined);
  store combined_info (OTable combined) ;;;
  ret combined_info.

Definition _make_combined_name (self : t) : M string :=
  do components <- component_info_items self;
  ret ("StateSpace[" +:+ String.concat ", " (table_keys components) +:+ "]").

Definition __add__ (self other : t) : M t :=
  do state_names <- _combine_property self other state_names;
  do data_names <- _combine_property self other data_names;
  do param_names <- _combine_property self other param_names;
  do shock_names <- _combine_property self other shock_names;
  do param_info <- _combine_property self other param_info;
  do data_info <- _combine_property self other data_info;
  do param_dims <- _combine_property self other param_dims;
  do coords <- _combine_property self other coords;
  do exog_names <- _combine_property self other exog_names;
  do _name_to_variable <- _combine_property self other _name_to_variable;
  do _name_to_data <- _combine_property self other _name_to_data;
  let measurement_error := measurement_error self || measurement_error other in
  do '(k_states, k_posdef, k_endog) <- lift (_get_combined_shapes self other);
  do ssm <- lift (_combine_statespace_representations self other);
  do new_comp <- __init__ "" 1 k_states k_posdef None None None None None (Some ssm)
                   measurement_error true true None
                   populate_component_properties make_symbolic_graph;
  do info <- _combine_component_info self other;
  let new_comp := set_component_info (Some info) new_comp in
  do combined_name <- _make_combined_name new_comp;
  let new_comp := set_name combined_name new_comp in
  let new_comp := set_state_names state_names new_comp in
  let new_comp := set_data_names data_names new_comp in
  let new_comp := set_param_names param_names new_comp in
  let new_comp := set_shock_names shock_names new_comp in
  let new_comp := set_param_dims param_dims new_comp in
  let new_comp := set_coords coords new_comp in
  let new_comp := set_param_dims param_dims new_comp in
  let new_comp := set_param_info param_info new_comp in
  let new_comp := set_data_info data_info new_comp in
  let new_comp := set_exog_names exog_names new_comp in
  let new_comp := set_name_to_variable _name_to_variable new_comp in
  let new_comp := set_name_to_data _name_to_data new_comp in
  ret new_comp.

End Component.

(** ** Declarations that the sources at hand do not contain

    [utils.constants] and [models.utilities] are imported by the module but
    are not among the sources.  The dimension-name constants are
    parameters of the development.  [make_default_coords] reads the model's
    state names, observed states and shock names. *)
Record Declarations : Type := mkDeclarations {
  ALL_STATE_DIM : string;
  ALL_STATE_AUX_DIM : string;
  higher_derivative_names : list string;
  make_default_coords : list string → list string → list string → gmap string Val;
}.

(** Modelled from the spec: [POSITION_DERIVATIVE_NAMES] is declared in
    [utils.constants]; the spec gives its first two labels ("level",
    "trend", the order-derived labels of a trend of order 2).  The labels
    of higher derivatives are a parameter. *)
Definition POSITION_DERIVATIVE_NAMES (D : Declarations) : list string :=
  "level" :: "trend" :: higher_derivative_names D.

(** ** The terminal model *)
Module StructuralTimeSeries.

Record t : Type := mk {
  _name : string;
  k_endog : Z;
  k_states : Z;
  k_posdef : Z;
  _state_names : loc;
  _data_names : loc;
  _shock_names : loc;
  _param_names : loc;
  _param_dims : loc;
  _coords : loc;
  _param_info : loc;
  _data_info : loc;
  measurement_error : bool;
  ssm : PytensorRepresentation.t;
  _component_info : loc;
  _name_to_variable : loc;
  _name_to_data : loc;
  _exog_names : loc;
  _needs_exog_data : bool;
}.

Definition _add_inital_state_cov_to_properties (D : Declarations)
    (param_names param_dims param_info : loc) (k_states : Z) : M (loc * loc * loc) :=
  list_iadd param_names ["P0"] ;;;
  dict_setitem param_dims "P0" (VDims [ALL_STATE_DIM D; ALL_STATE_AUX_DIM D]) ;;;
  do dims <- deref_dict param_dims;
  do P0_dims <- (match dims !! "P0" with
                 | Some (VDims ds) => ret (Some ds)
                 | Some _ => ret None
                 | None => raise (KeyError "P0")
                 end);
  dict_setitem param_info "P0"
    (VInfo (mkInfo [Some k_states; Some k_states] (Some "Positive semi-definite") P0_dims)) ;;;
  ret (param_names, param_dims, param_info).

(** Modelled from the spec: [PyMCStateSpace.make_and_register_variable] of
    the base class (declared in [statespace.core.statespace], not among the
    sources) has the contract of section 4.1: it fails if the name is not a
    declared parameter name or is already registered, and otherwise stores
    and returns a placeholder. *)
Definition make_and_register_variable (param_names registry : loc) (name : string)
    (shape : list (option Z)) (dtype : string) : M Tensor :=
  do names <- deref_list param_names;
  if decide (name ∈ names) then
    do reg <- deref_dict registry;
    match reg !! name with
    | Some registered =>
        raise (ValueError (name +:+ " is already a registered placeholder variable with shape "
                             +:+ Component.registered_shape registered))
    | None =>
        let placeholder := TTensor name shape dtype in
        dict_setitem registry name (VVar placeholder) ;;;
        ret placeholder
    end
  else
    raise (ValueError (name +:+ Component.not_a_parameter)).

(** [StructuralTimeSeries.__init__].  The arguments [verbose],
    [filter_type] and [mode] are handed to the base class unchanged and are
    left out.  Modelled from the spec: the base class's constructor stores
    the three dimensions it is given. *)
Definition __init__ (D : Declarations) (ssm : PytensorRepresentation.t)
    (state_names data_names shock_names param_names exog_names : loc)
    (param_dims coords param_info data_info component_info : loc)
    (measurement_error : bool) (name_to_variable name_to_data : loc)
    (name : option string) : M t :=
  let name := default "data" name in
  let k_states := PytensorRepresentation.k_states ssm in
  let k_posdef := PytensorRepresentation.k_posdef ssm in
  let k_endog := PytensorRepresentation.k_endog ssm in
  do '(param_names, param_dims, param_info) <-
       _add_inital_state_cov_to_properties D param_names param_dims param_info k_states;
  do _state_names <- copy state_names;
  do _data_names <- copy data_names;
  do _shock_names <- copy shock_names;
  do _param_names <- copy param_names;
  do _param_dims <- copy param_dims;
  do the_state_names <- deref_list _state_names;
  do the_shock_names <- deref_list _shock_names;
  let default_coords := make_default_coords D the_state_names [name] the_shock_names in
  dict_update coords default_coords ;;;
  let _coords := coords in
  do _param_info <- copy param_info;
  do _data_info <- copy data_info;
  let self_k_endog := k_endog in
  let self_k_states := k_states in
  let self_k_posdef := 1 `max` k_posdef in
  let self_ssm := ssm in
  let self_ssm :=
    if decide (k_posdef = 0) then
      let r := PytensorRepresentation.set_k_posdef self_k_posdef self_ssm in
      let r := PytensorRepresentation.set_shape "state_cov" [1; 1; 1] r in
      do r <- lift (PytensorRepresentation.__setitem__ r "state_cov" [] (TZeros [1; 1; 1]));
      let r := PytensorRepresentation.set_shape "selection" [1; self_k_states; 1] r in
      lift (PytensorRepresentation.__setitem__ r "selection" [] (TZeros [1; self_k_states; 1]))
    else ret self_ssm in
  do self_ssm <- self_ssm;
  do _component_info <- copy component_info;
  do _name_to_variable <- copy name_to_variable;
  do _name_to_data <- copy name_to_data;
  do _exog_names <- copy exog_names;
  do the_exog_names <- deref_list exog_names;
  let _needs_exog_data := bool_decide (0 < length the_exog_names)%nat in
  do P0 <- make_and_register_variable _param_names _name_to_variable "P0"
             [Some self_k_states; Some self_k_states] floatX;
  do self_ssm <- lift (PytensorRepresentation.__setitem__ self_ssm "initial_state_cov" [] P0);
  ret (mk name self_k_endog self_k_states self_k_posdef _state_names _data_names
         _shock_names _param_names _param_dims _coords _param_info _data_info
         measurement_error self_ssm _component_info _name_to_variable _name_to_data
         _exog_names _needs_exog_data).

End StructuralTimeSeries.

(** [Component.build] *)
Definition build (D : Declarations) (self : Component.t) (name : option string)
    : M StructuralTimeSeries.t :=
  match Component._component_info self with
  | None => raise AttributeError
  | Some component_info =>
      StructuralTimeSeries.__init__ D (Component.ssm self)
        (Component.state_names self) (Component.data_names self)
        (Component.shock_names self) (Component.param_names self)
        (Component.exog_names self) (Component.param_dims self)
        (Component.coords self) (Component.param_info self)
        (Component.data_info self) component_info
        (Component.measurement_error self)
        (Component._name_to_variable self) (Component._name_to_data self) name
  end.

(** ** numpy helpers used by the component constructors *)

(** An [int] or a sequence, for arguments typed [int | list[int]]. *)
Inductive IntOrList : Type :=
| AnInt (n : Z)
| AList (l : list Z).

Definition negative_dimensions : Exn :=
  ValueError "negative dimensions are not allowed".

(** [order_to_mask]: [np.ones(order).astype(bool)] for an int, and
    [np.array(order).astype(bool)] otherwise. *)
Definition order_to_mask (order : IntOrList) : Res (list bool) :=
  match order with
  | AnInt n => if decide (n < 0) then Raise negative_dimensions
               else Ok (replicate (Z.to_nat n) true)
  | AList l => Ok ((fun x => bool_decide (x ≠ 0)) <$> l)
  end.

(** [np.flatnonzero] on a boolean mask. *)
Definition flatnonzero (mask : list bool) : list Z :=
  omap (fun '(i, b) => if b : bool then Some (Z.of_nat i) else None) (imap pair mask).

(** [int(sum(mask))] *)
Definition count_true (mask : list bool) : Z :=
  Z.of_nat (length (List.filter id mask)).

(** [np.eye(N, k=k)]: ones where [column - row = k]. *)
Definition np_eye (N : Z) (k : Z) : Res (list (list Z)) :=
  if decide (N < 0) then Raise negative_dimensions
  else
    let n := Z.to_nat N in
    Ok ((fun i => (fun j => if decide (Z.of_nat j - Z.of_nat i = k) then 1 else 0)
                    <$> seq 0 n) <$> seq 0 n).

(** [np.triu_indices(n)]: row and column positions of the upper triangle,
    row by row. *)
Definition triu_indices (n : Z) : list Z * list Z :=
  let m := Z.to_nat n in
  let pairs := i ← seq 0 m; (fun j => (Z.of_nat i, Z.of_nat j)) <$> seq i (m - i) in
  (pairs.*1, pairs.*2).

(** [np.diag_indices(n)] *)
Definition diag_indices (n : Z) : list Z * list Z :=
  let d := Z.of_nat <$> seq 0 (Z.to_nat n) in (d, d).

(** [R[:, mask]]: the columns of [R] selected by a boolean mask, whose
    length must be the number of columns. *)
Definition select_columns (R : list (list Z)) (ncols : Z) (mask : list bool)
    : Res (list (list Z)) :=
  if decide (Z.of_nat (length mask) = ncols) then
    Ok ((fun row => omap (fun '(x, b) => if b : bool then Some x else None) (zip row mask))
          <$> R)
  else Raise IndexError.

(** [[1.0] + [0.0] * (k - 1)] *)
Definition one_then_zeros (k : Z) : list Z := 1 :: replicate (Z.to_nat (k - 1)) 0.

(** [np.r_[[1.0], np.zeros(k - 1)]] *)
Definition r_one_zeros (k : Z) : Res (list Z) :=
  if decide (k - 1 < 0) then Raise negative_dimensions
  else Ok (1 :: replicate (Z.to_nat (k - 1)) 0).

Definition set_ssm (self : Component.t) (key : string) (idx : list Index) (X : Tensor)
    : M Component.t :=
  do r <- lift (PytensorRepresentation.__setitem__ (Component.ssm self) key idx X);
  ret (Component.set_ssm r self).

(** [d[k]] for a dict in the store *)
Definition dict_getitem (l : loc) (k : string) : M Val :=
  do d <- deref_dict l;
  match d !! k with
  | Some v => ret v
  | None => raise (KeyError k)
  end.

(** ** Level and trend *)
Module LevelTrendComponent.

Record t : Type := mk {
  base : Component.t;
  _order_mask : list bool;
  innovations_order : list bool;
}.

Definition populate_component_properties (D : Declarations)
    (_order_mask innovations_order : list bool) (self : Component.t) : M Component.t :=
  let name_slice := take (Z.to_nat (Component.k_states self)) (POSITION_DERIVATIVE_NAMES D) in
  do param_names <- alloc (OList ["initial_trend"]);
  let self := Component.set_param_names param_names self in
  let the_state_names :=
    omap (fun '(name, mask) => if mask : bool then Some name else None)
         (zip name_slice _order_mask) in
  do state_names <- alloc (OList the_state_names);
  let self := Component.set_state_names state_names self in
  do param_dims <- alloc (ODict {["initial_trend" := VDims ["trend_state"]]});
  let self := Component.set_param_dims param_dims self in
  do coords <- alloc (ODict {["trend_state" := VCoord the_state_names]});
  let self := Component.set_coords coords self in
  do param_info <- alloc (ODict {["initial_trend" :=
                       VInfo (mkInfo [Some (Component.k_states self)] None None)]});
  let self := Component.set_param_info param_info self in
  do self <- (if decide (0 < Component.k_posdef self) then
                list_iadd (Component.param_names self) ["sigma_trend"] ;;;
                let the_shock_names :=
                  omap (fun '(name, mask) => if mask : bool then Some name else None)
                       (zip name_slice innovations_order) in
                do shock_names <- alloc (OList the_shock_names);
                let self := Component.set_shock_names shock_names self in
                dict_setitem (Component.param_dims self) "sigma_trend" (VDims ["trend_shock"]) ;;;
                dict_setitem (Component.coords self) "trend_shock" (VCoord the_shock_names) ;;;
                dict_setitem (Component.param_info self) "sigma_trend"
                  (VInfo (mkInfo [Some (Component.k_posdef self)] (Some "Positive") None)) ;;;
                ret self
              else ret self);
  do names <- deref_list (Component.param_names self);
  foldr (fun name rest =>
           do info <- dict_getitem (Component.param_info self) name;
           do dims <- dict_getitem (Component.param_dims self) name;
           match info, dims with
           | VInfo i, VDims ds =>
               dict_setitem (Component.param_info self) name
                 (VInfo (mkInfo (info_shape i) (info_constraints i) (Some ds)))
           | _, _ => raise TypeError
           end ;;; rest)
        (ret tt) names ;;;
  ret self.

Definition make_symbolic_graph (innovations_order : list bool) (self : Component.t)
    : M Component.t :=
  let k_states := Component.k_states self in
  let k_posdef := Component.k_posdef self in
  do initial_trend <- Component.make_and_register_variable self "initial_trend"
                        [Some k_states] floatX;
  do self <- set_ssm self "initial_state" [IAll] initial_trend;
  let triu_idx := triu_indices k_states in
  do self <- set_ssm self "transition" [IArr triu_idx.1; IArr triu_idx.2] (TScalar 1);
  do R <- lift (np_eye k_states 0);
  do R <- lift (select_columns R k_states innovations_order);
  do self <- set_ssm self "selection" [IAll; IAll] (TArray2 R);
  do self <- set_ssm self "design" [IInt 0; IAll] (TArray1 (one_then_zeros k_states));
  if decide (0 < k_posdef) then
    do sigma_trend <- Component.make_and_register_variable self "sigma_trend"
                        [Some k_posdef] floatX;
    let diag_idx := diag_indices k_posdef in
    set_ssm self "state_cov" [IArr diag_idx.1; IArr diag_idx.2] (TSqr sigma_trend)
  else ret self.

Definition __init__ (D : Declarations) (order : IntOrList)
    (innovations_order : option IntOrList) (name : string) : M t :=
  let innovations_order := default order innovations_order in
  do _order_mask <- lift (order_to_mask order);
  do max_state <- (match last (flatnonzero _order_mask) with
                   | Some i => ret (i + 1)
                   | None => raise IndexError
                   end);
  if decide (max_state < Z.of_nat (length _order_mask)) then
    raise (ValueError "order is invalid. The highest derivative should not be set to zero. If you want a lower order model, explicitly omit the zeros.")
  else
    let k_states := max_state in
    do innovations_order <-
      lift (match innovations_order with
            | AnInt n =>
                Component.res_bind (order_to_mask (AnInt k_states)) (fun mask =>
                  if decide (0 < n) then
                    Ok (take (Z.to_nat n) mask
                          ++ replicate (length mask - Z.to_nat n) false)
                  else Ok (replicate (length mask) false))
            | AList _ => order_to_mask innovations_order
            end);
    let self_innovations_order := take (Z.to_nat max_state) innovations_order in
    let k_posdef := count_true innovations_order in
    do self <- Component.__init__ name 1 k_states k_posdef None None None None None None
                 false false false (Some (one_then_zeros k_states))
                 (populate_component_properties D _order_mask self_innovations_order)
                 (make_symbolic_graph self_innovations_order);
    ret (mk self _order_mask self_innovations_order).

End LevelTrendComponent.

(** ** Measurement error *)
Module MeasurementError.

Definition populate_component_properties (self : Component.t) : M Component.t :=
  let sigma := "sigma_" +:+ Component.name self in
  do param_names <- alloc (OList [sigma]);
  let self := Component.set_param_names param_names self in
  do param_dims <- alloc (ODict ∅);
  let self := Component.set_param_dims param_dims self in
  do param_info <- alloc (ODict {[sigma := VInfo (mkInfo [] (Some "Positive") None)]});
  ret (Component.set_param_info param_info self).

Definition make_symbolic_graph (self : Component.t) : M Component.t :=
  do error_sigma <- Component.make_and_register_variable self
                      ("sigma_" +:+ Component.name self) [] floatX;
  let diag_idx := diag_indices (Component.k_endog self) in
  set_ssm self "obs_cov" [IArr diag_idx.1; IArr diag_idx.2] (TSqr error_sigma).

Definition __init__ (name : string) : M Component.t :=
  let k_endog := 1 in
  let k_states := 0 in
  let k_posdef := 0 in
  Component.__init__ name k_endog k_states k_posdef None None None None None None
    true false false None populate_component_properties make_symbolic_graph.

End MeasurementError.

(** ** Seasonality in the time domain *)

(** [T[0, :] = -1] on a 2-d array. *)
Definition set_first_row (v : Z) (T : list (list Z)) : Res (list (list Z)) :=
  match T with
  | [] => Raise IndexError
  | row :: rest => Ok (replicate (length row) v :: rest)
  end.

(** [T[-1, 0] = 1] on a 2-d array. *)
Definition set_last_row_first (v : Z) (T : list (list Z)) : Res (list (list Z)) :=
  match last T with
  | None => Raise IndexError
  | Some [] => Raise IndexError
  | Some (_ :: row) => Ok (<[pred (length T) := v :: row]> T)
  end.

Module TimeSeasonality.

Record t : Type := mk {
  base : Component.t;
  innovations : bool;
  remove_first_state : bool;
}.

(** The matrix [T] that [make_symbolic_graph] assigns to the transition. *)
Definition transition_matrix (k_states : Z) (remove_first_state : bool)
    : Res (list (list Z)) :=
  if remove_first_state then
    Component.res_bind (np_eye k_states (-1)) (set_first_row (-1))
  else
    Component.res_bind (np_eye k_states 1) (set_last_row_first 1).

Definition populate_component_properties (innovations : bool) (self : Component.t)
    : M Component.t :=
  let name := Component.name self in
  do param_names <- alloc (OList [name +:+ "_coefs"]);
  let self := Component.set_param_names param_names self in
  do param_info <- alloc (ODict {[name +:+ "_coefs" :=
                       VInfo (mkInfo [Some (Component.k_states self)] None
                                (Some [name +:+ "_state"]))]});
  let self := Component.set_param_info param_info self in
  do param_dims <- alloc (ODict {[name +:+ "_coefs" := VDims [name +:+ "_state"]]});
  let self := Component.set_param_dims param_dims self in
  do the_state_names <- deref_list (Component.state_names self);
  do coords <- alloc (ODict {[name +:+ "_state" := VCoord the_state_names]});
  let self := Component.set_coords coords self in
  if innovations then
    list_iadd (Component.param_names self) ["sigma_" +:+ name] ;;;
    dict_setitem (Component.param_info self) ("sigma_" +:+ name)
      (VInfo (mkInfo [] (Some "Positive") None)) ;;;
    do shock_names <- alloc (OList [name]);
    ret (Component.set_shock_names shock_names self)
  else ret self.

Definition make_symbolic_graph (innovations remove_first_state : bool) (self : Component.t)
    : M Component.t :=
  let name := Component.name self in
  let k_states := Component.k_states self in
  do T <- lift (transition_matrix k_states remove_first_state);
  do self <- set_ssm self "transition" [IAll; IAll] (TArray2 T);
  do self <- set_ssm self "design" [IInt 0; IInt 0] (TScalar 1);
  do initial_states <- Component.make_and_register_variable self (name +:+ "_coefs")
                         [Some k_states] floatX;
  do self <- set_ssm self "initial_state" [IArr (Z.of_nat <$> seq 0 (Z.to_nat k_states))]
               initial_states;
  if innovations then
    do self <- set_ssm self "selection" [IInt 0; IInt 0] (TScalar 1);
    do season_sigma <- Component.make_and_register_variable self ("sigma_" +:+ name)
                         [] floatX;
    let diag_idx := diag_indices 1 in
    set_ssm self "state_cov" [IArr diag_idx.1; IArr diag_idx.2] (TSqr season_sigma)
  else ret self.

Definition __init__ (season_length : Z) (innovations : bool) (name : option string)
    (state_names : option loc) (remove_first_state : bool) : M t :=
  let name := default ("Seasonal[s=" +:+ pretty season_length +:+ "]") name in
  do state_names <-
    (match state_names with
     | None =>
         alloc (OList ((fun i => name +:+ "_" +:+ pretty i) <$> seq 0 (Z.to_nat season_length)))
     | Some given =>
         do names <- deref_list given;
         if decide (Z.of_nat (length names) ≠ season_length) then
           raise (ValueError ("state_names must be a list of length season_length, got "
                                +:+ pretty (length names)))
         else copy given
     end);
  (if remove_first_state then
     do names <- deref_list state_names;
     match names with
     | [] => raise IndexError
     | _ :: rest => store state_names (OList rest)
     end
   else ret tt) ;;;
  let k_states := season_length - (if remove_first_state then 1 else 0) in
  do obs_state_idxs <- lift (r_one_zeros k_states);
  do self <- Component.__init__ name 1 k_states (if innovations then 1 else 0)
               (Some state_names) None None None None None
               false true false (Some obs_state_idxs)
               (populate_component_properties innovations)
               (make_symbolic_graph innovations remove_first_state);
  ret (mk self innovations remove_first_state).

End TimeSeasonality.

(** ** Seasonality in the frequency domain *)

(** [a / b] on Python ints.  The quotient is kept exact; Python rounds it
    to a double, which changes no comparison with [2.0] for operands below
    2^52. *)
Definition true_divide (a b : Z) : Res Q :=
  if decide (b = 0) then Raise ZeroDivisionError
  else Ok (inject_Z a / inject_Z b)%Q.

(** [np.zeros(k)] with [x[slice(0, k, 2)] = 1]: ones at the even positions. *)
Definition even_positions (k : Z) : Res (list Z) :=
  if decide (k < 0) then Raise negative_dimensions
  else Ok ((fun i => if Nat.even i then 1 else 0) <$> seq 0 (Z.to_nat k)).

(** [_frequency_transition_block(s, j)]: the angle [2 * np.pi * j / s] is
    computed on Python floats, so the division raises for [s = 0]; the
    block of sines and cosines itself is symbolic. *)
Definition _frequency_transition_block (s j : Z) : Res Tensor :=
  if decide (s = 0) then Raise ZeroDivisionError
  else Ok (TFrequencyBlock s j).

Module FrequencySeasonality.

Record t : Type := mk {
  base : Component.t;
  n : Z;
  season_length : Z;
  innovations : bool;
  last_state_not_identified : bool;
  n_coefs : Z;
}.

Definition populate_component_properties (n : Z) (innovations last_state_not_identified : bool)
    (self : Component.t) : M Component.t :=
  let name := Component.name self in
  let k_states := Component.k_states self in
  let the_state_names :=
    i ← seq 0 (Z.to_nat n); (fun f => name +:+ "_" +:+ f +:+ "_" +:+ pretty i) <$> ["Cos"; "Sin"] in
  do state_names <- alloc (OList the_state_names);
  let self := Component.set_state_names state_names self in
  do param_names <- alloc (OList [name]);
  let self := Component.set_param_names param_names self in
  do param_dims <- alloc (ODict {[name := VDims [name +:+ "_state"]]});
  let self := Component.set_param_dims param_dims self in
  do param_info <- alloc (ODict {[name :=
                       VInfo (mkInfo [Some (k_states - (if last_state_not_identified then 1 else 0))]
                                None (Some [name +:+ "_state"]))]});
  let self := Component.set_param_info param_info self in
  let init_state_idx := seq 0 (Z.to_nat k_states) in
  let init_state_idx := if last_state_not_identified
                        then take (length init_state_idx - 1) init_state_idx
                        else init_state_idx in
  do labels <- lift (Component.res_mapM
                       (fun i => match the_state_names !! i with
                                 | Some s => Ok s
                                 | None => Raise IndexError
                                 end) init_state_idx);
  do coords <- alloc (ODict {[name +:+ "_state" := VCoord labels]});
  let self := Component.set_coords coords self in
  if innovations then
    do shock_names <- copy (Component.state_names self);
    let self := Component.set_shock_names shock_names self in
    list_iadd (Component.param_names self) ["sigma_" +:+ name] ;;;
    dict_setitem (Component.param_info self) ("sigma_" +:+ name)
      (VInfo (mkInfo [] (Some "Positive") None)) ;;;
    ret self
  else ret self.

Definition make_symbolic_graph (n season_length n_coefs : Z) (innovations : bool)
    (self : Component.t) : M Component.t :=
  let name := Component.name self in
  let k_states := Component.k_states self in
  do self <- set_ssm self "design" [IInt 0; ISlice 0 k_states 2] (TScalar 1);
  do init_state <- Component.make_and_register_variable self name [Some n_coefs] floatX;
  let init_state_idx := Z.of_nat <$> seq 0 (Z.to_nat n_coefs) in
  do self <- set_ssm self "initial_state" [IArr init_state_idx] init_state;
  do T_mats <- lift (Component.res_mapM
                       (fun j => _frequency_transition_block season_length (Z.of_nat j + 1))
                       (seq 0 (Z.to_nat n)));
  do self <- set_ssm self "transition" [IAll; IAll] (TBlockDiag T_mats);
  if innovations then
    do sigma_season <- Component.make_and_register_variable self ("sigma_" +:+ name)
                         [] floatX;
    do self <- set_ssm self "state_cov" [IAll; IAll]
                 (TMul (TEye (Component.k_posdef self)) (TSqr sigma_season));
    do I <- lift (np_eye k_states 0);
    set_ssm self "selection" [IAll; IAll] (TArray2 I)
  else ret self.

Definition __init__ (season_length : Z) (n : option Z) (name : option string)
    (innovations : bool) : M t :=
  let n := default (season_length `div` 2) n in
  let name := default ("Frequency[s=" +:+ pretty season_length +:+ ", n=" +:+ pretty n +:+ "]")
                name in
  let k_states := n * 2 in
  do ratio <- lift (true_divide season_length n);
  let last_state_not_identified := Qeq_bool ratio 2 in
  let n_coefs := k_states - (if last_state_not_identified then 1 else 0) in
  do obs_state_idx <- lift (even_positions k_states);
  do self <- Component.__init__ name 1 k_states (k_states * (if innovations then 1 else 0))
               None None None None None None
               false true false (Some obs_state_idx)
               (populate_component_properties n innovations last_state_not_identified)
               (make_symbolic_graph n season_length n_coefs innovations);
  ret (mk self n season_length innovations last_state_not_identified n_coefs).

End FrequencySeasonality.

(** ** Reading the store, and well-formed components *)

Definition list_at (h : Heap) (l : loc) : option (list string) :=
  match h !! l with Some (OList xs) => Some xs | _ => None end.

Definition dict_at (h : Heap) (l : loc) : option (gmap string Val) :=
  match h !! l with Some (ODict d) => Some d | _ => None end.

Definition table_at (h : Heap) (l : loc) : option (list (string * ComponentInfo)) :=
  match h !! l with Some (OTable t) => Some t | _ => None end.

(** The content of a name list, of a dictionary and of a component-info
    table, read through a reference. *)
Definition names_of (h : Heap) (l : loc) : list string := default [] (list_at h l).
Definition entries_of (h : Heap) (l : loc) : gmap string Val := default ∅ (dict_at h l).
Definition info_of (h : Heap) (l : option loc) : list (string * ComponentInfo) :=
  default [] (l ≫= table_at h).

(** The references of a component that hold name lists, and those that
    hold dictionaries. *)
Definition list_attributes (c : Component.t) : list loc :=
  [Component.state_names c; Component.data_names c; Component.shock_names c;
   Component.param_names c; Component.exog_names c].

Definition dict_attributes (c : Component.t) : list loc :=
  [Component.coords c; Component.param_dims c; Component.param_info c;
   Component.data_info c; Component._name_to_variable c; Component._name_to_data c].

(** A component is well formed in a store when its name attributes refer to
    lists, its metadata attributes refer to pairwise distinct dictionaries
    and its component-info table is set.  Every constructor of the module
    allocates these objects itself, and so establishes this. *)
Definition valid (h : Heap) (c : Component.t) : bool :=
  forallb (fun l => bool_decide (is_Some (list_at h l))) (list_attributes c)
  && forallb (fun l => bool_decide (is_Some (dict_at h l))) (dict_attributes c)
  && bool_decide (is_Some (Component._component_info c ≫= table_at h))
  && bool_decide (NoDup (dict_attributes c)).

(** The same, as the facts about the store that proofs use. *)
Record well_formed (h : Heap) (c : Component.t) : Prop := {
  wf_state_names :
    h !! Component.state_names c = Some (OList (names_of h (Component.state_names c)));
  wf_data_names :
    h !! Component.data_names c = Some (OList (names_of h (Component.data_names c)));
  wf_shock_names :
    h !! Component.shock_names c = Some (OList (names_of h (Component.shock_names c)));
  wf_param_names :
    h !! Component.param_names c = Some (OList (names_of h (Component.param_names c)));
  wf_exog_names :
    h !! Component.exog_names c = Some (OList (names_of h (Component.exog_names c)));
  wf_coords :
    h !! Component.coords c = Some (ODict (entries_of h (Component.coords c)));
  wf_param_dims :
    h !! Component.param_dims c = Some (ODict (entries_of h (Component.param_dims c)));
  wf_param_info :
    h !! Component.param_info c = Some (ODict (entries_of h (Component.param_info c)));
  wf_data_info :
    h !! Component.data_info c = Some (ODict (entries_of h (Component.data_info c)));
  wf_name_to_variable :
    h !! Component._name_to_variable c
    = Some (ODict (entries_of h (Component._name_to_variable c)));
  wf_name_to_data :
    h !! Component._name_to_data c
    = Some (ODict (entries_of h (Component._name_to_data c)));
  wf_component_info :
    ∃ l, Component._component_info c = Some l
         ∧ h !! l = Some (OTable (info_of h (Component._component_info c)));
  wf_separate : NoDup (dict_attributes c);
}.

(** Two objects of the same kind (an in-place update keeps the kind). *)
Definition same_kind (o o' : Obj) : bool :=
  match o, o' with
  | OList _, OList _ | ODict _, ODict _ | OTable _, OTable _ => true
  | _, _ => false
  end.

(** The entries of a component-info table that composition keeps. *)
Definition kept (t : list (string * ComponentInfo)) : list (string * ComponentInfo) :=
  List.filter (fun kv => negb (String.prefix "StateSpace" kv.1)) t.

(** No component name is used twice among the (kept) entries of the two
    operands. *)
Definition distinct_component_names (h : Heap) (a b : Component.t) : bool :=
  bool_decide (NoDup (table_keys (kept (info_of h (Component._component_info a)))
                        ++ table_keys (kept (info_of h (Component._component_info b))))).

Definition from_Ok {A} (d : A) (r : Res A) : A :=
  match r with Ok a => a | Raise _ => d end.

(** ** The result of a composition, spelled out

    The objects that [a + b] allocates in a store [h] in which both operands
    are well formed, in allocation order, and the component it returns. *)
Definition sum_objects (h : Heap) (a b : Component.t) : list Obj :=
  let L f c := names_of h (f c) in
  let E f c := entries_of h (f c) in
  [OList (L Component.state_names a ++ L Component.state_names b);
   OList (L Component.data_names a ++ L Component.data_names b);
   OList (L Component.param_names a ++ L Component.param_names b);
   OList (L Component.shock_names a ++ L Component.shock_names b);
   ODict (E Component.param_info b ∪ E Component.param_info a);
   ODict (E Component.data_info b ∪ E Component.data_info a);
   ODict (E Component.param_dims b ∪ E Component.param_dims a);
   ODict (E Component.coords b ∪ E Component.coords a);
   OList (L Component.exog_names a ++ L Component.exog_names b);
   ODict (E Component._name_to_variable b ∪ E Component._name_to_variable a);
   ODict (E Component._name_to_data b ∪ E Component._name_to_data a);
   OList []; OList []; OList []; OList []; OList [];
   ODict ∅; ODict ∅; ODict ∅; ODict ∅; ODict ∅; ODict ∅; ODict ∅;
   OTable [("", mkComponentInfo (Component.k_states a + Component.k_states b) 1
                  (Component.k_posdef a + Component.k_posdef b) true None)];
   OTable (kept (info_of h (Component._component_info a))
             ++ kept (info_of h (Component._component_info b)))].

Definition sum_component (h : Heap) (a b : Component.t) (r : PytensorRepresentation.t)
    : Component.t :=
  let n := length h in
  Component.mk
    ("StateSpace[" +:+
       String.concat ", "
         (table_keys (kept (info_of h (Component._component_info a))
                        ++ kept (info_of h (Component._component_info b)))) +:+ "]")
    1 (Component.k_states a + Component.k_states b)
    (Component.k_posdef a + Component.k_posdef b)
    (Component.measurement_error a || Component.measurement_error b)
    n (1 + n) (3 + n) (2 + n) (8 + n) false
    (7 + n) (6 + n) (4 + n) (5 + n) (20 + n) r (9 + n) (10 + n) (Some (24 + n))%nat.

(** ** Frames

    [frames n m Q]: run in any store that holds at least [n] objects, the
    action [m] leaves the first [n] objects as they are, never shrinks the
    store, and a result it returns satisfies [Q]. *)
Definition frames {A} (n : nat) (m : M A) (Q : A → Prop) : Prop :=
  ∀ h : Heap, (n ≤ length h)%nat →
    take n (m h).2 = take n h
    ∧ (length h ≤ length (m h).2)%nat
    ∧ ∀ a, (m h).1 = Ok a → Q a.

(** All references of a component point at or beyond position [n]. *)
Definition fresh_from (n : nat) (c : Component.t) : Prop :=
  Forall (fun l => (n ≤ l)%nat) (list_attributes c ++ dict_attributes c)
  ∧ ∀ l, Component._component_info c = Some l → (n ≤ l)%nat.

(** All references held by a component. *)
Definition references (c : Component.t) : list loc :=
  list_attributes c ++ dict_attributes c ++ option_list (Component._component_info c).

(** ** The result of a build, spelled out *)

Definition P0_dims (D : Declarations) : list string :=
  [ALL_STATE_DIM D; ALL_STATE_AUX_DIM D].

Definition P0_info (D : Declarations) (k_states : Z) : Val :=
  VInfo (mkInfo [Some k_states; Some k_states] (Some "Positive semi-definite")
           (Some (P0_dims D))).

Definition P0_placeholder (k_states : Z) : Tensor :=
  TTensor "P0" [Some k_states; Some k_states] floatX.

(** The component's own objects after [build]: ["P0"] is appended to its
    parameter names and entered in its [param_dims] and [param_info], and
    the default coordinates are merged into its [coords]. *)
Definition built_names (D : Declarations) (h : Heap) (c : Component.t) : Heap :=
  <[Component.param_names c := OList (names_of h (Component.param_names c) ++ ["P0"])]> h.

Definition built_dims (D : Declarations) (h : Heap) (c : Component.t) : Heap :=
  <[Component.param_dims c :=
      ODict (<["P0" := VDims (P0_dims D)]> (entries_of h (Component.param_dims c)))]>
    (built_names D h c).

Definition built_info (D : Declarations) (h : Heap) (c : Component.t) : Heap :=
  <[Component.param_info c :=
      ODict (<["P0" := P0_info D (PytensorRepresentation.k_states (Component.ssm c))]>
               (entries_of h (Component.param_info c)))]>
    (built_dims D h c).

Definition built_base (D : Declarations) (h : Heap) (c : Component.t) (name : option string)
    : Heap :=
  let H := built_info D h c in
  <[Component.coords c :=
      ODict (make_default_coords D (names_of H (Component.state_names c))
               [default "data" name] (names_of H (Component.shock_names c))
             ∪ entries_of h (Component.coords c))]> H.

(** The objects that the model allocates: copies of the component's
    attributes, with the placeholder of [P0] added to the copied registry. *)
Definition built_objects (D : Declarations) (h : Heap) (c : Component.t)
    (name : option string) : list Obj :=
  let H := built_base D h c name in
  [OList (names_of H (Component.state_names c));
   OList (names_of H (Component.data_names c));
   OList (names_of H (Component.shock_names c));
   OList (names_of H (Component.param_names c));
   ODict (entries_of H (Component.param_dims c));
   ODict (entries_of H (Component.param_info c));
   ODict (entries_of H (Component.data_info c));
   OTable (info_of H (Component._component_info c));
   ODict (<["P0" := VVar (P0_placeholder (PytensorRepresentation.k_states (Component.ssm c)))]>
            (entries_of H (Component._name_to_variable c)));
   ODict (entries_of H (Component._name_to_data c));
   OList (names_of H (Component.exog_names c))].

(** The matrices of the model. *)
Definition built_ssm (r : PytensorRepresentation.t) : PytensorRepresentation.t :=
  let k_states := PytensorRepresentation.k_states r in
  let r :=
    if decide (PytensorRepresentation.k_posdef r = 0) then
      let r := PytensorRepresentation.set_k_posdef 1 r in
      let r := PytensorRepresentation.set_shape "state_cov" [1; 1; 1] r in
      let r := from_Ok r (PytensorRepresentation.__setitem__ r "state_cov" [] (TZeros [1; 1; 1])) in
      let r := PytensorRepresentation.set_shape "selection" [1; k_states; 1] r in
      from_Ok r (PytensorRepresentation.__setitem__ r "selection" [] (TZeros [1; k_states; 1]))
    else r in
  from_Ok r (PytensorRepresentation.__setitem__ r "initial_state_cov" [] (P0_placeholder k_states)).

Definition built_model (D : Declarations) (h : Heap) (c : Component.t) (name : option string)
    : StructuralTimeSeries.t :=
  let n := length h in
  let r := Component.ssm c in
  StructuralTimeSeries.mk (default "data" name)
    (PytensorRepresentation.k_endog r) (PytensorRepresentation.k_states r)
    (1 `max` PytensorRepresentation.k_posdef r)
    n (1 + n) (2 + n) (3 + n) (4 + n) (Component.coords c) (5 + n) (6 + n)
    (Component.measurement_error c) (built_ssm r) (7 + n) (8 + n) (9 + n) (10 + n)
    (bool_decide (0 < length (names_of (built_base D h c name) (Component.exog_names c))))%nat.

(** ** Sample components

    Concrete stores and components on which the statements below are
    evaluated. *)

(** Sample values for the declarations that are parameters. *)
Definition sample_declarations : Declarations :=
  mkDeclarations "state" "state_aux" ["acceleration"; "jerk"]
    (fun states observed shocks =>
       {["state" := VCoord states; "observed_state" := VCoord observed;
         "shock" := VCoord shocks]}).

Definition no_component : Component.t :=
  Component.mk "" 0 0 0 false 0 0 0 0 0 false 0 0 0 0 0
    (PytensorRepresentation.__init__ 0 0 0 None None None None None None None None None)
    0 0 None.

(** [LevelTrendComponent(order=2, innovations_order=1)] and
    [MeasurementError()], created one after the other in an empty store. *)
Definition trend_and_error : M (Component.t * Component.t) :=
  do a <- LevelTrendComponent.__init__ sample_declarations (AnInt 2) (Some (AnInt 1))
            "LevelTrend";
  do b <- MeasurementError.__init__ "MeasurementError";
  ret (LevelTrendComponent.base a, b).

Definition sample_store : Heap := Eval vm_compute in (trend_and_error []).2.
Definition sample_trend : Component.t :=
  Eval vm_compute in (from_Ok (no_component, no_component) (trend_and_error []).1).1.
Definition sample_error : Component.t :=
  Eval vm_compute in (from_Ok (no_component, no_component) (trend_and_error []).1).2.

(** Two trend components that both keep the default name. *)
Definition two_trends : M (Component.t * Component.t) :=
  do a <- LevelTrendComponent.__init__ sample_declarations (AnInt 2) None "LevelTrend";
  do b <- LevelTrendComponent.__init__ sample_declarations (AnInt 1) None "LevelTrend";
  ret (LevelTrendComponent.base a, LevelTrendComponent.base b).

Definition two_trends_store : Heap := Eval vm_compute in (two_trends []).2.
Definition first_trend : Component.t :=
  Eval vm_compute in (from_Ok (no_component, no_component) (two_trends []).1).1.
Definition second_trend : Component.t :=
  Eval vm_compute in (from_Ok (no_component, no_component) (two_trends []).1).2.

(** [LevelTrendComponent(order=2, innovations_order=0)]: a deterministic
    trend, two states and no shock. *)
Definition deterministic_trend : M Component.t :=
  do a <- LevelTrendComponent.__init__ sample_declarations (AnInt 2) (Some (AnInt 0))
            "LevelTrend";
  ret (LevelTrendComponent.base a).

Definition deterministic_store : Heap := Eval vm_compute in (deterministic_trend []).2.
Definition sample_deterministic : Component.t :=
  Eval vm_compute in from_Ok no_component (deterministic_trend []).1.

(** A component that declares the parameter ["sigma_obs"] and has not
    registered it: [Component("obs", 1, 0, 0, param_names=["sigma_obs"],
    component_from_sum=True)]. *)
Definition undeclared_yet : M Component.t :=
  do names <- alloc (OList ["sigma_obs"]);
  Component.__init__ "obs" 1 0 0 None None None (Some names) None None
    true true true None Component.populate_component_properties
    Component.make_symbolic_graph.

Definition unregistered_store : Heap := Eval vm_compute in (undeclared_yet []).2.
Definition unregistered : Component.t :=
  Eval vm_compute in from_Ok no_component (undeclared_yet []).1.

(** ** Integer matrices

    The transition matrix of a time-domain seasonal component has entries
    0, 1 and -1; products and powers of it are exact over the integers. *)

Definition sum_list (x : list Z) : Z := foldr Z.add 0 x.

Definition dot (u v : list Z) : Z := sum_list (zip_with Z.mul u v).

(** One step of the state equation with zero shocks: [x ↦ T x]. *)
Definition mat_vec (A : list (list Z)) (x : list Z) : list Z :=
  (fun row => dot row x) <$> A.

Definition vec_add (u v : list Z) : list Z := zip_with Z.add u v.
Definition vec_scale (c : Z) (v : list Z) : list Z := Z.mul c <$> v.

(** A row vector times a matrix with [n] columns. *)
Definition row_times (n : nat) (r : list Z) (B : list (list Z)) : list Z :=
  foldr vec_add (replicate n 0) (zip_with vec_scale r B).

(** The product of two [n × n] matrices. *)
Definition mat_mul (n : nat) (A B : list (list Z)) : list (list Z) :=
  (fun row => row_times n row B) <$> A.

Definition unit_vector (n p : nat) : list Z :=
  (fun j => if decide (j = p) then 1 else 0) <$> seq 0 n.

Definition identity (n : nat) : list (list Z) := unit_vector n <$> seq 0 n.

Definition mat_pow (n : nat) (A : list (list Z)) (k : nat) : list (list Z) :=
  Nat.iter k (mat_mul n A) (identity n).

Definition square (n : nat) (A : list (list Z)) : Prop :=
  length A = n ∧ Forall (fun row => length row = n) A.

(** The seasonal effects of one full period: the state followed by the
    effect that the zero-sum constraint determines. *)
Definition full_period (x : list Z) : list Z := x ++ [- sum_list x].

(** Moves the last element of a list to the front. *)
Definition shift (y : list Z) : list Z :=
  match last y with
  | Some z => z :: take (length y - 1) y
  | None => []
  end.

(** Occurrences of a character in a string (used to tell generated
    parameter names apart). *)
Fixpoint occurrences (c : Ascii.ascii) (s : string) : nat :=
  match s with
  | EmptyString => 0
  | String a s' => (if Ascii.eqb a c then 1 else 0) + occurrences c s'
  end.

(** [(LevelTrendComponent(order=2, innovations_order=1) + MeasurementError()).build()],
    the components being created, summed and built in this order. *)
Definition trend_plus_error (D : Declarations) : M StructuralTimeSeries.t :=
  do a <- LevelTrendComponent.__init__ D (AnInt 2) (Some (AnInt 1)) "LevelTrend";
  do b <- MeasurementError.__init__ "MeasurementError";
  do c <- Component.__add__ (LevelTrendComponent.base a) b;
  build D c None.

(** ** Interpretable-series extraction

    [extract_components_from_idata] and the methods it calls.  An [xarray]
    dataset is an insertion-ordered mapping from variable names to labelled
    arrays.  An array of shape [(..., n)] is held as its shape and the list
    of its vectors along the last axis, in C order; a 0-d array has the
    empty shape.  Every [numpy] operation that the code applies acts on the
    last axis only, so the columns of the result are determined first, from
    the size of that axis, and each vector is then mapped. *)

(** Bounds of [l[i:j]] for a sequence of length [n]: a negative bound counts
    from the end, and both bounds are clipped. *)
Definition slice_bound (n i : Z) : Z :=
  if decide (i < 0) then 0 `max` (i + n) else i `min` n.

(** [l[i:j]] *)
Definition py_slice {A} (i j : Z) (l : list A) : list A :=
  let n := Z.of_nat (length l) in
  let start := slice_bound n i in
  let stop := slice_bound n j in
  take (Z.to_nat (stop - start)) (drop (Z.to_nat start) l).

(** [np.cumsum] *)
Fixpoint cumsum_from (acc : Z) (l : list Z) : list Z :=
  match l with
  | [] => []
  | x :: l' => (acc + x) :: cumsum_from (acc + x) l'
  end.

Definition np_cumsum (l : list Z) : list Z := cumsum_from 0 l.

(** [itertools.pairwise] *)
Definition pairwise {A} (l : list A) : list (A * A) := zip l (tail l).

(** A column of the array that [_hidden_states_from_data] returns: the sum
    of some columns of the data, or one column of the data. *)
Inductive Column : Type :=
| CSum (cols : list nat)
| CCopy (col : nat).

Definition empty_concatenate : Exn :=
  ValueError "need at least one array to concatenate".

Definition no_latent_variable : Exn :=
  ValueError "Provided idata had no variables with all hidden states; cannot extract components.".

Definition unpack_dims (n : nat) : Exn :=
  ValueError ("not enough values to unpack (expected at least 2, got " +:+ pretty n +:+ ")").

(** The error of [coords.update] when the labels do not fit the axis; the
    message of [xarray] goes on with the two lengths. *)
Definition conflicting_sizes (dim : string) : Exn :=
  ValueError ("conflicting sizes for dimension " +:+ dim).

Section Decomposition.

Context {V : Type}.

(** [x.sum(axis=-1)] on one vector; the order in which [numpy] adds the
    entries is left open. *)
Variable np_sum : list V → V.

Record Array : Type := mkArray {
  shape : list Z;
  rows : list (list V);
}.

Record DataArray : Type := mkDataArray {
  da_dims : list string;
  da_data : Array;
  da_coords : gmap string (list string);
}.

(** A dataset: the variables by name, in insertion order. *)
Local Abbreviation Dataset := (list (string * DataArray)).

(** [_state_slices_from_info]; the copy of the table is local. *)
Definition _state_slices_from_info (self : StructuralTimeSeries.t) : M (list (Z * Z)) :=
  do info <- deref_table (StructuralTimeSeries._component_info self);
  let comp_states := np_cumsum (0 :: (ci_k_states ∘ snd <$> info)) in
  let state_slices := pairwise comp_states in
  ret state_slices.

(** [X[..., idx]] for [X] made of the columns [X] of the data: the columns
    selected by an integer array. *)
Definition fancy_index (X : list nat) (idx : list Z) : Res (list nat) :=
  Component.res_mapM (fun t => match X !! Z.to_nat t with
                               | Some col => Ok col
                               | None => Raise IndexError
                               end) idx.

(** One pass through the loop of [_hidden_states_from_data], for data whose
    last axis has [width] entries: the columns appended to [result]. *)
Definition hidden_states_step (info : list (string * ComponentInfo))
    (state_names : list string) (width : nat) (item : string * (Z * Z))
    : Res (list Column) :=
  let '(name, (i, j)) := item in
  match table_get name info with
  | None => Raise (KeyError name)
  | Some entry =>
      match ci_obs_state_idx entry with
      | None => Ok []
      | Some obs_idx =>
          let X := py_slice i j (seq 0 width) in
          if ci_combine_hidden_states entry then
            let sum_idx := flatnonzero ((fun x => bool_decide (x ≠ 0)) <$> obs_idx) in
            Component.res_bind (fancy_index X sum_idx) (fun cols => Ok [CSum cols])
          else
            let comp_names := py_slice i j state_names in
            Component.res_mapM (fun j => match X !! j with
                                         | Some col => Ok (CCopy col)
                                         | None => Raise IndexError
                                         end) (seq 0 (length comp_names))
      end
  end.

(** The list [result] when the loop ends, and [np.concatenate], which
    refuses an empty list. *)
Definition hidden_states_columns (info : list (string * ComponentInfo))
    (state_names : list string) (state_slices : list (Z * Z)) (width : nat)
    : Res (list Column) :=
  let names := table_keys info in
  Component.res_bind
    (Component.res_mapM (hidden_states_step info state_names width) (zip names state_slices))
    (fun result =>
       match concat result with
       | [] => Raise empty_concatenate
       | columns => Ok columns
       end).

Definition apply_column (row : list V) (c : Column) : list V :=
  match c with
  | CSum cols => [np_sum (omap (fun col => row !! col) cols)]
  | CCopy col => option_list (row !! col)
  end.

Definition last_axis (a : Array) : nat := Z.to_nat (default 0 (last (shape a))).

(** [_hidden_states_from_data] *)
Definition _hidden_states_from_data (self : StructuralTimeSeries.t) (data : Array) : M Array :=
  do state_slices <- _state_slices_from_info self;
  do info <- deref_table (StructuralTimeSeries._component_info self);
  do state_names <- deref_list (StructuralTimeSeries._state_names self);
  do columns <- lift (hidden_states_columns info state_names state_slices (last_axis data));
  ret (mkArray (removelast (shape data) ++ [Z.of_nat (length columns)])
         ((fun row => columns ≫= apply_column row) <$> rows data)).

(** One pass through the loop of [_get_subcomponent_names]. *)
Definition subcomponent_names_step (info : list (string * ComponentInfo))
    (state_names : list string) (item : string * (Z * Z)) : Res (list string) :=
  let '(name, (i, j)) := item in
  match table_get name info with
  | None => Raise (KeyError name)
  | Some entry =>
      if ci_combine_hidden_states entry then Ok [name]
      else
        let comp_names := py_slice i j state_names in
        Ok ((fun comp_name => name +:+ "[" +:+ comp_name +:+ "]") <$> comp_names)
  end.

(** [_get_subcomponent_names] *)
Definition _get_subcomponent_names (self : StructuralTimeSeries.t) : M (list string) :=
  do state_slices <- _state_slices_from_info self;
  do info <- deref_table (StructuralTimeSeries._component_info self);
  do state_names <- deref_list (StructuralTimeSeries._state_names self);
  let names := table_keys info in
  do result <- lift (Component.res_mapM (subcomponent_names_step info state_names)
                       (zip names state_slices));
  ret (concat result).

(** The inner function [_extract_and_transform_variable].  The two core
    dimensions are the last two of the array, so [xr.apply_ufunc] passes the
    data as it is; the result keeps the dimension names, loses the
    coordinate of the excluded dimension, and [coords.update] then labels
    that dimension, which fails unless there is one label per column. *)
Definition _extract_and_transform_variable (self : StructuralTimeSeries.t)
    (idata : DataArray) (new_state_names : list string) : M DataArray :=
  match reverse (da_dims idata) with
  | state_dim :: time_dim :: _ =>
      do new_data <- _hidden_states_from_data self (da_data idata);
      if decide (length new_state_names = last_axis new_data) then
        ret (mkDataArray (da_dims idata) new_data
               (<[state_dim := new_state_names]> (da_coords idata)))
      else raise (conflicting_sizes state_dim)
  | _ => raise (unpack_dims (length (da_dims idata)))
  end.

Fixpoint mapM {A B} (f : A → M B) (l : list A) : M (list B) :=
  match l with
  | [] => ret []
  | a :: l' => do b <- f a; do bs <- mapM f l'; ret (b :: bs)
  end.

(** [extract_components_from_idata]: the new dataset, and the names in the
    warning that is logged, if one is.  The variables of the new dataset
    are those given to the [xr.Dataset] constructor, in this order. *)
Definition extract_components_from_idata (self : StructuralTimeSeries.t) (idata : Dataset)
    : M (Dataset * option (gset string)) :=
  let var_names := table_keys idata in
  do is_latent <- lift (Component.res_mapM
                          (fun name =>
                             match table_get name idata with
                             | None => Raise (KeyError name)
                             | Some x =>
                                 match last (shape (da_data x)) with
                                 | None => Raise IndexError
                                 | Some n =>
                                     Ok (bool_decide (n = StructuralTimeSeries.k_states self))
                                 end
                             end) var_names);
  do new_state_names <- _get_subcomponent_names self;
  let latent_names := snd <$> List.filter fst (zip is_latent var_names) in
  let dropped_vars : gset string := list_to_set var_names ∖ list_to_set latent_names in
  let warning := if decide (0 < size dropped_vars)%nat then Some dropped_vars else None in
  if decide (size dropped_vars = length var_names) then raise no_latent_variable
  else
    do idata_new <- mapM (fun name =>
                            match table_get name idata with
                            | None => raise (KeyError name)
                            | Some x =>
                                do y <- _extract_and_transform_variable self x new_state_names;
                                ret (name, y)
                            end) latent_names;
    ret (idata_new, warning).

End Decomposition.

Arguments mkArray {V} _ _.
Arguments shape {V} _.
Arguments rows {V} _.
Arguments mkDataArray {V} _ _ _.
Arguments da_dims {V} _.
Arguments da_data {V} _.
Arguments da_coords {V} _.

Abbreviation Dataset := (list (string * DataArray)).

(** The model of the worked example, in the store in which it was built. *)
Definition sample_model : StructuralTimeSeries.t :=
  Eval vm_compute in
    from_Ok (built_model sample_declarations [] no_component None)
      (trend_plus_error sample_declarations []).1.
Definition sample_model_store : Heap :=
  Eval vm_compute in (trend_plus_error sample_declarations []).2.

(** A posterior with three draws of two time steps of the two hidden
    states, and a parameter with one value per draw. *)
Definition sample_states : DataArray :=
  mkDataArray ["draw"; "time"; "state"]
    (mkArray [3; 2; 2] [[1; 10]; [2; 20]; [3; 30]; [4; 40]; [5; 50]; [6; 60]]) ∅.


(** [np_sum] on integers. *)
Definition sum_Z (l : list Z) : Z := foldr Z.add 0 l.

(** The slices of the state axis, one per component. *)
Definition state_slices_of (info : list (string * ComponentInfo)) : list (Z * Z) :=
  pairwise (np_cumsum (0 :: (ci_k_states ∘ snd <$> info))).



(** ** Further sample components *)

(** A component that declares the data ["data_exog"] and has not
    registered it. *)
Definition data_declared : M Component.t :=
  do names <- alloc (OList ["data_exog"]);
  Component.__init__ "exog" 1 1 1 None (Some names) None None None None
    false false true None Component.populate_component_properties
    Component.make_symbolic_graph.

Definition data_store : Heap := Eval vm_compute in (data_declared []).2.
Definition with_data : Component.t :=
  Eval vm_compute in from_Ok no_component (data_declared []).1.

(** [r] is [d] updated with [e], as [dict.update] does: an entry of [e]
    replaces an entry of [d] under the same key. *)
Definition updated_with (d e r : gmap string Val) : Prop :=
  ∀ k, r !! k = match e !! k with Some v => Some v | None => d !! k end.

(** A component that declares a parameter named ["P0"] and registers it:
    [Component("own", 1, 1, 1, param_names=["P0"], component_from_sum=True)]
    followed by [make_and_register_variable("P0", (1, 1))]. *)
Definition registers_P0 : M Component.t :=
  do names <- alloc (OList ["P0"]);
  do c <- Component.__init__ "own" 1 1 1 None None None (Some names) None None
            false true true None Component.populate_component_properties
            Component.make_symbolic_graph;
  Component.make_and_register_variable c "P0" [Some 1; Some 1] floatX ;;;
  ret c.

Definition P0_store : Heap := Eval vm_compute in (registers_P0 []).2.
Definition with_P0 : Component.t :=
  Eval vm_compute in from_Ok no_component (registers_P0 []).1.

(** [FrequencySeasonality(season_length=4, name="P0")]: a component of the
    library whose parameter is called ["P0"], created in an empty store. *)
Definition seasonal_called_P0 : M Component.t :=
  do c <- FrequencySeasonality.__init__ 4 None (Some "P0") true;
  ret (FrequencySeasonality.base c).

Definition seasonal_P0_store : Heap := Eval vm_compute in (seasonal_called_P0 []).2.
Definition seasonal_P0 : Component.t :=
  Eval vm_compute in from_Ok no_component (seasonal_called_P0 []).1.

(** What a component holds in a store, apart from its matrices: its name
    and dimensions, the content of its five name lists and of its six
    dictionaries, and its table of components. *)
Definition contents (h : Heap) (c : Component.t)
    : string * Z * Z * Z * bool * list (list string) * list (gmap string Val)
      * list (string * ComponentInfo) :=
  (Component.name c, Component.k_endog c, Component.k_states c, Component.k_posdef c,
   Component.measurement_error c, names_of h <$> list_attributes c,
   entries_of h <$> dict_attributes c, info_of h (Component._component_info c)).

(** The name that [_make_combined_name] gives to a table of components. *)
Definition combined_name (t : list (string * ComponentInfo)) : string :=
  "StateSpace[" +:+ String.concat ", " (table_keys t) +:+ "]".

(** A trend, a seasonal pattern of four seasons and a measurement error,
    created one after the other in an empty store. *)
Definition three_components : M (Component.t * Component.t * Component.t) :=
  do a <- LevelTrendComponent.__init__ sample_declarations (AnInt 2) (Some (AnInt 1))
            "LevelTrend";
  do b <- TimeSeasonality.__init__ 4 true None None true;
  do c <- MeasurementError.__init__ "MeasurementError";
  ret (LevelTrendComponent.base a, TimeSeasonality.base b, c).

Definition three_store : Heap := Eval vm_compute in (three_components []).2.
Definition the_trend : Component.t :=
  Eval vm_compute in
    (from_Ok (no_component, no_component, no_component) (three_components []).1).1.1.
Definition the_season : Component.t :=
  Eval vm_compute in
    (from_Ok (no_component, no_component, no_component) (three_components []).1).1.2.
Definition the_error : Component.t :=
  Eval vm_compute in
    (from_Ok (no_component, no_component, no_component) (three_components []).1).2.

(** One step of a cycle: the first entry moves to the end. *)
Definition cycle (x : list Z) : list Z := drop 1 x ++ take 1 x.

(** A store that holds the caller's list of four season names. *)
Definition seasons_store : Heap := [OList ["winter"; "spring"; "summer"; "autumn"]].

(** An action that leaves the store as it found it, whatever it returns. *)
Definition reads_only {A} (m : M A) : Prop := ∀ h, (m h).2 = h.

(** A posterior that also holds a 0-d variable, such as a log-likelihood
    summed over all observations. *)
Definition sample_scalar : DataArray := mkDataArray [] (mkArray [] [[42]]) ∅.
Definition posterior_with_scalar : Dataset :=
  [("smoothed_posterior", sample_states); ("total", sample_scalar)].

(** * Properties *)

(** ** Evaluation lemmas for the monad and the store *)

Lemma bind_eq {A B} (m : M A) (f : A → M B) (h : Heap) :
  bind m f h = match m h with
               | (Ok a, h') => f a h'
               | (Raise e, h') => (Raise e, h')
               end.
Proof. reflexivity. Qed.

Lemma bind_Ok {A B} (m : M A) (f : A → M B) (h h' : Heap) (a : A) :
  m h = (Ok a, h') → bind m f h = f a h'.
Proof. intros E. rewrite bind_eq, E. reflexivity. Qed.

Lemma bind_Raise {A B} (m : M A) (f : A → M B) (h h' : Heap) (e : Exn) :
  m h = (Raise e, h') → bind m f h = (Raise e, h').
Proof. intros E. rewrite bind_eq, E. reflexivity. Qed.

Lemma deref_Some (h : Heap) (l : loc) (o : Obj) :
  h !! l = Some o → deref l h = (Ok o, h).
Proof. intros E. unfold deref. rewrite E. reflexivity. Qed.

Lemma deref_list_Some (h : Heap) (l : loc) (xs : list string) :
  h !! l = Some (OList xs) → deref_list l h = (Ok xs, h).
Proof. intros E. unfold deref_list. rewrite (bind_Ok _ _ _ _ _ (deref_Some _ _ _ E)). reflexivity. Qed.

Lemma deref_dict_Some (h : Heap) (l : loc) (d : gmap string Val) :
  h !! l = Some (ODict d) → deref_dict l h = (Ok d, h).
Proof. intros E. unfold deref_dict. rewrite (bind_Ok _ _ _ _ _ (deref_Some _ _ _ E)). reflexivity. Qed.

Lemma deref_table_Some (h : Heap) (l : loc) (t : list (string * ComponentInfo)) :
  h !! l = Some (OTable t) → deref_table l h = (Ok t, h).
Proof. intros E. unfold deref_table. rewrite (bind_Ok _ _ _ _ _ (deref_Some _ _ _ E)). reflexivity. Qed.

Lemma store_Some (h : Heap) (l : loc) (o o' : Obj) :
  h !! l = Some o → store l o' h = (Ok tt, <[l := o']> h).
Proof. intros E. unfold store. rewrite E. reflexivity. Qed.

Lemma dict_setitem_Some (h : Heap) (l : loc) (d : gmap string Val) (k : string) (v : Val) :
  h !! l = Some (ODict d) →
  dict_setitem l k v h = (Ok tt, <[l := ODict (<[k := v]> d)]> h).
Proof.
  intros E. unfold dict_setitem.
  rewrite (bind_Ok _ _ _ _ _ (deref_dict_Some _ _ _ E)).
  apply (store_Some _ _ _ _ E).
Qed.

Lemma lookup_heap_insert (h : Heap) (l : loc) (o o' : Obj) :
  h !! l = Some o → <[l := o']> h !! l = Some o'.
Proof. intros E. apply list_lookup_insert_eq. eapply lookup_lt_Some, E. Qed.

(** Stores of the form [h ++ new], and references counted from [length h]. *)

Lemma length_app_comm (h new : Heap) : length (h ++ new) = (length new + length h)%nat.
Proof. rewrite length_app. lia. Qed.

Lemma lookup_app_plus (h new : Heap) (k : nat) : (h ++ new) !! (k + length h)%nat = new !! k.
Proof. rewrite lookup_app_r by lia. f_equal. lia. Qed.

Lemma insert_app_plus (h new : Heap) (k : nat) (o : Obj) :
  <[(k + length h)%nat := o]> (h ++ new) = h ++ <[k := o]> new.
Proof.
  rewrite insert_app_r_alt by lia. do 2 f_equal. lia.
Qed.

Lemma alloc_eq (o : Obj) (h : Heap) : alloc o h = (Ok (length h), h ++ [o]).
Proof. reflexivity. Qed.

Lemma ret_eq {A} (a : A) (h : Heap) : ret a h = (Ok a, h).
Proof. reflexivity. Qed.

Lemma lift_Ok {A} (a : A) (h : Heap) : lift (Ok a) h = (Ok a, h).
Proof. reflexivity. Qed.

Lemma lookup_app_plus_len (h new : Heap) (n k : nat) :
  length h = n → (h ++ new) !! (k + n)%nat = new !! k.
Proof. intros <-. apply lookup_app_plus. Qed.

Lemma insert_app_plus_len (h new : Heap) (n k : nat) (o : Obj) :
  length h = n → <[(k + n)%nat := o]> (h ++ new) = h ++ <[k := o]> new.
Proof. intros <-. apply insert_app_plus. Qed.

Create Rewrite HintDb heap_len.
#[local] Hint Rewrite @length_insert : heap_len.

Ltac offset i :=
  lazymatch i with
  | S ?j => let k := offset j in constr:(S k)
  | _ => constr:(O)
  end.

Ltac heap_length := autorewrite with heap_len; reflexivity.

(** Solves [H !! l = Some o] where [H] is [h ++ new]: on the left from a
    hypothesis about [h], on the right by computation. *)
Ltac heap_lookup :=
  lazymatch goal with
  | |- (?h ++ ?new) !! ?i = _ =>
      first [ apply lookup_app_l_Some; eassumption
            | let k := offset i in
              exact (eq_trans (lookup_app_plus_len h new _ k ltac:(heap_length)) eq_refl) ]
  | |- _ !! _ = _ => eassumption
  end.

Ltac heap_norm :=
  rewrite <- ?app_assoc, ?length_app_comm; cbn [app length Nat.add];
  autorewrite with heap_len;
  repeat lazymatch goal with
    | |- context [@insert _ _ _ _ ?i ?o (?h ++ ?new)] =>
        let k := offset i in
        rewrite (insert_app_plus_len h new _ k o ltac:(heap_length)
                 : <[i := o]> (h ++ new) = h ++ <[k := o]> new);
        cbn [insert list_insert]
    end.

(** Evaluation of one primitive action that succeeds. *)
Ltac eval_prim :=
  first [ apply alloc_eq | apply ret_eq | apply lift_Ok
        | apply deref_list_Some; heap_lookup
        | apply deref_dict_Some; heap_lookup
        | apply deref_table_Some; heap_lookup
        | apply deref_Some; heap_lookup
        | eapply dict_setitem_Some; heap_lookup
        | eapply store_Some; heap_lookup
        | eassumption ].

(** One step of a monadic program whose first action succeeds. *)
Ltac mstep := erewrite bind_Ok by eval_prim; heap_norm.

(** ** C5: registering placeholders *)

(** C5. [make_and_register_variable(name, shape)] raises when [name] is not
    among the component's parameter names, and raises when [name] is already
    registered; otherwise it creates a placeholder of the given shape,
    stores it in the registry under [name] and returns it.  After a
    successful registration a second call with the same name raises,
    whatever shape it is given. *)
Theorem make_and_register_variable_contract
    (c : Component.t) (h : Heap) (names : list string) (registry : gmap string Val)
    (name : string) (shape : list (option Z)) (dtype : string) :
  h !! Component.param_names c = Some (OList names) →
  h !! Component._name_to_variable c = Some (ODict registry) →
  (name ∉ names →
     ∃ msg, Component.make_and_register_variable c name shape dtype h
            = (Raise (ValueError msg), h))
  ∧ (is_Some (registry !! name) →
     ∃ msg, Component.make_and_register_variable c name shape dtype h
            = (Raise (ValueError msg), h))
  ∧ (name ∈ names → registry !! name = None →
     let placeholder := TTensor name shape dtype in
     let h' := <[Component._name_to_variable c :=
                   ODict (<[name := VVar placeholder]> registry)]> h in
     Component.make_and_register_variable c name shape dtype h = (Ok placeholder, h')
     ∧ ∀ shape' dtype', ∃ msg,
         Component.make_and_register_variable c name shape' dtype' h'
         = (Raise (ValueError msg), h')).
Proof.
  intros Hn Hr.
  assert (Hne : Component.param_names c ≠ Component._name_to_variable c)
    by (intros E; rewrite E in Hn; congruence).
  split; [|split].
  - intros Hnot. eexists. unfold Component.make_and_register_variable.
    rewrite (bind_Ok _ _ _ _ _ (deref_list_Some _ _ _ Hn)).
    destruct (decide (name ∈ names)); [contradiction | reflexivity].
  - intros [v Hv]. unfold Component.make_and_register_variable.
    rewrite (bind_Ok _ _ _ _ _ (deref_list_Some _ _ _ Hn)).
    destruct (decide (name ∈ names)).
    + rewrite (bind_Ok _ _ _ _ _ (deref_dict_Some _ _ _ Hr)), Hv. eexists. reflexivity.
    + eexists. reflexivity.
  - intros Hin Hfree placeholder h'. split.
    + unfold Component.make_and_register_variable.
      rewrite (bind_Ok _ _ _ _ _ (deref_list_Some _ _ _ Hn)).
      destruct (decide (name ∈ names)); [|contradiction].
      rewrite (bind_Ok _ _ _ _ _ (deref_dict_Some _ _ _ Hr)), Hfree.
      rewrite (bind_Ok _ _ _ _ _ (dict_setitem_Some _ _ _ _ _ Hr)). reflexivity.
    + intros shape' dtype'.
      assert (Hn' : h' !! Component.param_names c = Some (OList names))
        by (unfold h'; rewrite list_lookup_insert_ne; [exact Hn | congruence]).
      assert (Hr' : h' !! Component._name_to_variable c
                    = Some (ODict (<[name := VVar placeholder]> registry)))
        by (apply (lookup_heap_insert _ _ _ _ Hr)).
      unfold Component.make_and_register_variable.
      rewrite (bind_Ok _ _ _ _ _ (deref_list_Some _ _ _ Hn')).
      destruct (decide (name ∈ names)); [|contradiction].
      rewrite (bind_Ok _ _ _ _ _ (deref_dict_Some _ _ _ Hr')), lookup_insert_eq.
      eexists. reflexivity.
Qed.

(** ** Composition *)

Lemma combine_property_list (self other : Component.t) (prop : Component.t → loc)
    (h : Heap) (xs ys : list string) :
  h !! prop self = Some (OList xs) → h !! prop other = Some (OList ys) →
  Component._combine_property self other prop h = (Ok (length h), h ++ [OList (xs ++ ys)]).
Proof.
  intros Hs Ho. unfold Component._combine_property.
  mstep. mstep. reflexivity.
Qed.

Lemma combine_property_dict (self other : Component.t) (prop : Component.t → loc)
    (h : Heap) (d e : gmap string Val) :
  h !! prop self = Some (ODict d) → h !! prop other = Some (ODict e) →
  Component._combine_property self other prop h = (Ok (length h), h ++ [ODict (e ∪ d)]).
Proof.
  intros Hs Ho. unfold Component._combine_property.
  mstep. mstep. mstep. 
  erewrite bind_Ok.
  2:{ eapply (store_Some _ _ (ODict d)). apply (lookup_app_plus h [ODict d] 0). }
  rewrite (insert_app_plus h [ODict d] 0). reflexivity.
Qed.

(** The constructor call of [__add__] ([component_from_sum=True]): thirteen
    fresh objects, no call of the subclass methods. *)
Lemma init_from_sum (h : Heap) (name : string) (k_endog k_states k_posdef : Z)
    (r : PytensorRepresentation.t) (me cb : bool) (obs : option (list Z))
    (p g : Component.t → M Component.t) :
  let n := length h in
  Component.__init__ name k_endog k_states k_posdef None None None None None (Some r)
    me cb true obs p g h
  = (Ok (Component.mk name k_endog k_states k_posdef me
           n (1 + n) (2 + n) (3 + n) (4 + n) false
           (5 + n) (6 + n) (7 + n) (8 + n) (9 + n) r (10 + n) (11 + n) (Some (12 + n)))%nat,
     h ++ [OList []; OList []; OList []; OList []; OList [];
           ODict ∅; ODict ∅; ODict ∅; ODict ∅; ODict ∅; ODict ∅; ODict ∅;
           OTable [(name, mkComponentInfo k_states k_endog k_posdef cb obs)]]).
Proof.
  intros n. unfold Component.__init__, Component.default_list.
  do 5 mstep. mstep. do 7 mstep. mstep. mstep. reflexivity.
Qed.

Lemma table_set_fresh {V} (k : string) (v : V) (t : list (string * V)) :
  k ∉ table_keys t → table_set k v t = t ++ [(k, v)].
Proof.
  induction t as [|[k' v'] t IH]; intros Hk; [reflexivity|].
  cbn in *. apply not_elem_of_cons in Hk as [Hne Hk].
  destruct (decide (k = k')); [contradiction|]. by rewrite IH.
Qed.

Lemma kept_cons (k : string) (v : ComponentInfo) (t : list (string * ComponentInfo)) :
  kept ((k, v) :: t) = if String.prefix "StateSpace" k then kept t else (k, v) :: kept t.
Proof.
  unfold kept. cbn [List.filter fst negb]. by destruct (String.prefix _ _).
Qed.

Lemma combine_info_loop_distinct (items acc : list (string * ComponentInfo)) :
  NoDup (table_keys acc ++ table_keys (kept items)) →
  Component.combine_info_loop items acc = Ok (acc ++ kept items).
Proof.
  revert acc. induction items as [|[key value] items IH]; intros acc Hnd.
  - cbn. by rewrite app_nil_r.
  - rewrite kept_cons in *. cbn [Component.combine_info_loop].
    destruct (String.prefix "StateSpace" key) eqn:Hp.
    + by apply IH.
    + apply NoDup_app in Hnd as Hnd'. destruct Hnd' as (_ & Hdisj & _).
      destruct (decide (key ∈ table_keys acc)) as [Hin|Hout].
      * exfalso. apply (Hdisj key Hin). cbn. left.
      * rewrite table_set_fresh by done. rewrite IH.
        -- by rewrite <- app_assoc.
        -- unfold table_keys in *. rewrite fmap_app, <- app_assoc. exact Hnd.
Qed.

Lemma combine_info_loop_duplicate (items acc : list (string * ComponentInfo))
    (key : string) (value : ComponentInfo) :
  String.prefix "StateSpace" key = false → key ∈ table_keys acc →
  Component.combine_info_loop ((key, value) :: items) acc
  = Raise (ValueError ("Found duplicate component named " +:+ key)).
Proof.
  intros Hp Hin. cbn [Component.combine_info_loop]. rewrite Hp.
  destruct (decide (key ∈ table_keys acc)); [reflexivity | contradiction].
Qed.

Lemma get_combined_shapes_equal (a b : Component.t) :
  Component.k_endog a = Component.k_endog b →
  Component._get_combined_shapes a b
  = Ok (Component.k_states a + Component.k_states b,
        Component.k_posdef a + Component.k_posdef b, Component.k_endog a).
Proof.
  intros E. unfold Component._get_combined_shapes.
  destruct (decide (Component.k_endog a ≠ Component.k_endog b)); [contradiction | reflexivity].
Qed.

Lemma get_combined_shapes_differ (a b : Component.t) :
  Component.k_endog a ≠ Component.k_endog b →
  Component._get_combined_shapes a b
  = Raise (NotImplementedError
             "Merging elements with different numbers of observed states is not supported.>").
Proof.
  intros E. unfold Component._get_combined_shapes.
  destruct (decide (Component.k_endog a ≠ Component.k_endog b)); [reflexivity | contradiction].
Qed.

Lemma getitem_long_names (r : PytensorRepresentation.t) :
  Component.res_mapM (fun name => PytensorRepresentation.__getitem__ r name [])
    LONG_MATRIX_NAMES
  = Ok [PytensorRepresentation.initial_state r; PytensorRepresentation.initial_state_cov r;
        PytensorRepresentation.state_intercept r; PytensorRepresentation.obs_intercept r;
        PytensorRepresentation.transition r; PytensorRepresentation.design r;
        PytensorRepresentation.selection r; PytensorRepresentation.obs_cov r;
        PytensorRepresentation.state_cov r].
Proof. reflexivity. Qed.

Lemma combine_statespace_representations_ok (a b : Component.t) :
  Component.k_endog a = Component.k_endog b →
  ∃ r, Component._combine_statespace_representations a b = Ok r
       ∧ PytensorRepresentation.k_states r = Component.k_states a + Component.k_states b
       ∧ PytensorRepresentation.k_posdef r = Component.k_posdef a + Component.k_posdef b
       ∧ PytensorRepresentation.k_endog r = Component.k_endog a.
Proof.
  intros E. unfold Component._combine_statespace_representations.
  rewrite (get_combined_shapes_equal _ _ E). cbn [Component.res_bind].
  rewrite !getitem_long_names. cbn [Component.res_bind].
  eexists. split; [reflexivity|]. cbn. auto.
Qed.

(** What [valid] gives: every attribute refers to an object of its kind. *)
Lemma list_at_names_of (h : Heap) (l : loc) :
  is_Some (list_at h l) → h !! l = Some (OList (names_of h l)).
Proof.
  unfold names_of, list_at. intros [x Hx].
  destruct (h !! l) as [[| |]|]; simplify_eq/=; done.
Qed.

Lemma dict_at_entries_of (h : Heap) (l : loc) :
  is_Some (dict_at h l) → h !! l = Some (ODict (entries_of h l)).
Proof.
  unfold entries_of, dict_at. intros [x Hx].
  destruct (h !! l) as [[| |]|]; simplify_eq/=; done.
Qed.

Lemma table_at_info_of (h : Heap) (ol : option loc) :
  is_Some (ol ≫= table_at h) →
  ∃ l, ol = Some l ∧ h !! l = Some (OTable (info_of h ol)).
Proof.
  unfold info_of, table_at. intros [x Hx].
  destruct ol as [l|]; [|done]. exists l. split; [done|]. cbn in *.
  destruct (h !! l) as [[| |]|]; simplify_eq/=; done.
Qed.

Lemma valid_well_formed (h : Heap) (c : Component.t) :
  valid h c = true ↔ well_formed h c.
Proof.
  unfold valid, list_attributes, dict_attributes. cbn [forallb].
  rewrite !andb_true_iff, !bool_decide_eq_true. split.
  - intros [[[(?&?&?&?&?&_) (?&?&?&?&?&?&_)] ?] ?].
    split; auto using list_at_names_of, dict_at_entries_of, table_at_info_of.
  - intros [].
    assert (∀ l xs, h !! l = Some (OList xs) → is_Some (list_at h l))
      by (intros l xs E; unfold list_at; rewrite E; eauto).
    assert (∀ l xs, h !! l = Some (ODict xs) → is_Some (dict_at h l))
      by (intros l xs E; unfold dict_at; rewrite E; eauto).
    destruct wf_component_info0 as (l & El & Hl).
    repeat split; eauto.
    rewrite El. cbn. unfold table_at. rewrite Hl. eauto.
Qed.

(** [a + b] evaluated: well-formed operands with equal [k_endog] and
    distinct component names compose, the store grows by [sum_objects] and
    nothing in it is overwritten. *)
Lemma add_eval (h : Heap) (a b : Component.t) (r : PytensorRepresentation.t) :
  well_formed h a → well_formed h b →
  Component.k_endog a = Component.k_endog b →
  distinct_component_names h a b = true →
  Component._combine_statespace_representations a b = Ok r →
  Component.__add__ a b h = (Ok (sum_component h a b r), h ++ sum_objects h a b).
Proof.
  intros [] [] Hk Hd Hr.
  destruct wf_component_info0 as (la & Ea & Hla).
  destruct wf_component_info1 as (lb & Eb & Hlb).
  apply bool_decide_eq_true in Hd.
  unfold Component.__add__.
  do 4 (erewrite bind_Ok by (eapply combine_property_list; heap_lookup); heap_norm).
  do 4 (erewrite bind_Ok by (eapply combine_property_dict; heap_lookup); heap_norm).
  erewrite bind_Ok by (eapply combine_property_list; heap_lookup); heap_norm.
  do 2 (erewrite bind_Ok by (eapply combine_property_dict; heap_lookup); heap_norm).
  rewrite (get_combined_shapes_equal _ _ Hk), Hr.
  mstep. mstep.
  erewrite bind_Ok by apply init_from_sum. heap_norm.
  unfold Component._combine_component_info, Component.component_info_items.
  rewrite Ea, Eb.
  erewrite bind_Ok.
  2:{ mstep. mstep.
      rewrite (combine_info_loop_distinct _ []) by (apply NoDup_app in Hd; apply Hd).
      mstep. mstep. mstep.
      rewrite (combine_info_loop_distinct _ _ Hd).
      mstep. mstep. apply ret_eq. }
  unfold Component._make_combined_name, Component.component_info_items.
  cbn [Component.set_component_info Component._component_info].
  erewrite bind_Ok by (mstep; apply ret_eq).
  reflexivity.
Qed.

(** ** A frame logic for the store *)

Lemma frames_ret {A} (n : nat) (a : A) (Q : A → Prop) : Q a → frames n (ret a) Q.
Proof. intros HQ h Hn. cbn. repeat split; auto. intros ? [= <-]. done. Qed.

Lemma frames_raise {A} (n : nat) (e : Exn) (Q : A → Prop) : frames n (raise e) Q.
Proof. intros h Hn. cbn. repeat split; auto. intros ? [=]. Qed.

Lemma frames_lift {A} (n : nat) (r : Res A) (Q : A → Prop) :
  (∀ a, r = Ok a → Q a) → frames n (lift r) Q.
Proof. intros HQ h Hn. cbn. repeat split; auto. Qed.

Lemma frames_bind {A B} (n : nat) (m : M A) (f : A → M B) (P : A → Prop) (Q : B → Prop) :
  frames n m P → (∀ a, P a → frames n (f a) Q) → frames n (bind m f) Q.
Proof.
  intros Hm Hf h Hn. destruct (Hm h Hn) as (Ht & Hl & HP).
  unfold bind. destruct (m h) as [[a|e] h'] eqn:E; cbn in *.
  - destruct (Hf a (HP a eq_refl) h' ltac:(lia)) as (Ht' & Hl' & HQ).
    repeat split; [congruence | lia | exact HQ].
  - repeat split; auto. intros ? [=].
Qed.

Lemma frames_bind_ret {A B} (n : nat) (a : A) (f : A → M B) (Q : B → Prop) :
  frames n (f a) Q → frames n (bind (ret a) f) Q.
Proof. intros Hf h Hn. exact (Hf h Hn). Qed.

Lemma frames_weaken {A} (n : nat) (m : M A) (P Q : A → Prop) :
  frames n m P → (∀ a, P a → Q a) → frames n m Q.
Proof.
  intros Hm HPQ h Hn. destruct (Hm h Hn) as (? & ? & ?). repeat split; auto.
Qed.

Lemma frames_alloc (n : nat) (o : Obj) : frames n (alloc o) (fun l => (n ≤ l)%nat).
Proof.
  intros h Hn. cbn. rewrite length_app. repeat split.
  - by rewrite take_app_le.
  - lia.
  - intros ? [= <-]. done.
Qed.

Lemma frames_deref (n : nat) (l : loc) : frames n (deref l) (fun _ => True).
Proof.
  intros h Hn. unfold deref. destruct (h !! l); cbn; repeat split; auto.
Qed.

Lemma frames_store (n : nat) (l : loc) (o : Obj) :
  (n ≤ l)%nat → frames n (store l o) (fun _ => True).
Proof.
  intros Hl h Hn. unfold store. destruct (h !! l); cbn; repeat split; auto.
  - by rewrite take_insert_ge.
  - by rewrite length_insert.
Qed.

Lemma frames_deref_table (n : nat) (l : loc) : frames n (deref_table l) (fun _ => True).
Proof.
  unfold deref_table. eapply frames_bind; [apply frames_deref|].
  intros [| |] _; first [by apply frames_ret | apply frames_raise].
Qed.

Lemma frames_deref_list (n : nat) (l : loc) : frames n (deref_list l) (fun _ => True).
Proof.
  unfold deref_list. eapply frames_bind; [apply frames_deref|].
  intros [| |] _; first [by apply frames_ret | apply frames_raise].
Qed.

Lemma frames_combine_property (n : nat) (a b : Component.t) (prop : Component.t → loc) :
  frames n (Component._combine_property a b prop) (fun l => (n ≤ l)%nat).
Proof.
  unfold Component._combine_property.
  eapply frames_bind; [apply frames_deref|]. intros [xs|d|t] _.
  - eapply frames_bind; [apply frames_deref|].
    intros [| |] _; first [apply frames_alloc | apply frames_raise].
  - eapply frames_bind; [apply frames_alloc|]. intros l Hl. cbv beta in Hl.
    eapply frames_bind; [apply frames_deref|].
    intros [| |] _; try apply frames_raise.
    eapply frames_bind; [by apply frames_store|]. intros _ _. by apply frames_ret.
  - eapply frames_bind; [apply frames_alloc|]. intros l Hl. cbv beta in Hl.
    eapply frames_bind; [apply frames_deref|].
    intros [| |] _; try apply frames_raise.
    eapply frames_bind; [by apply frames_store|]. intros _ _. by apply frames_ret.
Qed.

Lemma frames_component_info_items (n : nat) (c : Component.t) :
  frames n (Component.component_info_items c) (fun _ => True).
Proof.
  unfold Component.component_info_items.
  destruct (Component._component_info c); [apply frames_deref_table | apply frames_raise].
Qed.

Lemma frames_combine_component_info (n : nat) (a b : Component.t) :
  frames n (Component._combine_component_info a b) (fun l => (n ≤ l)%nat).
Proof.
  unfold Component._combine_component_info.
  eapply frames_bind; [apply frames_alloc|]. intros l Hl. cbv beta in Hl.
  eapply frames_bind; [apply frames_component_info_items|]. intros mine _.
  eapply frames_bind; [by apply (frames_lift _ _ (fun _ => True))|]. intros combined _.
  eapply frames_bind; [by apply frames_store|]. intros _ _.
  eapply frames_bind; [apply frames_component_info_items|]. intros theirs _.
  eapply frames_bind; [by apply (frames_lift _ _ (fun _ => True))|]. intros combined' _.
  eapply frames_bind; [by apply frames_store|]. intros _ _.
  by apply frames_ret.
Qed.

Lemma frames_init_from_sum (n : nat) (name : string) (k_endog k_states k_posdef : Z)
    (r : PytensorRepresentation.t) (me cb : bool) (obs : option (list Z))
    (p g : Component.t → M Component.t) :
  frames n
    (Component.__init__ name k_endog k_states k_posdef None None None None None (Some r)
       me cb true obs p g)
    (fresh_from n).
Proof.
  unfold Component.__init__, Component.default_list.
  do 5 (eapply frames_bind; [apply frames_alloc|]; cbv beta; intros ? ?).
  eapply frames_bind; [apply frames_deref_list|]. intros ? _.
  do 7 (eapply frames_bind; [apply frames_alloc|]; cbv beta; intros ? ?).
  apply frames_bind_ret.
  eapply frames_bind; [apply frames_alloc|]. cbv beta. intros ? ?.
  apply frames_ret. split.
  - cbn. repeat constructor; assumption.
  - cbn. intros ? [= <-]. assumption.
Qed.

Lemma frames_add (n : nat) (a b : Component.t) :
  frames n (Component.__add__ a b) (fresh_from n).
Proof.
  unfold Component.__add__.
  do 11 (eapply frames_bind; [apply frames_combine_property|]; cbv beta; intros ? ?).
  eapply frames_bind; [by apply (frames_lift _ _ (fun _ => True))|]. intros [[ks kp] ke] _.
  eapply frames_bind; [by apply (frames_lift _ _ (fun _ => True))|]. intros ssm _.
  eapply frames_bind; [apply frames_init_from_sum|]. intros c [Hc _].
  eapply frames_bind; [apply frames_combine_component_info|]. cbv beta. intros info Hinfo.
  eapply frames_bind.
  { unfold Component._make_combined_name.
    eapply frames_bind; [apply frames_component_info_items|]. intros ? _.
    by apply (frames_ret _ _ (fun _ => True)). }
  intros nm _. apply frames_ret. split.
  - cbn. repeat constructor; assumption.
  - cbn. intros ? [= <-]. assumption.
Qed.

(** ** In-place updates of the store *)

Lemma list_iadd_Some (h : Heap) (l : loc) (xs ys : list string) :
  h !! l = Some (OList xs) → list_iadd l ys h = (Ok tt, <[l := OList (xs ++ ys)]> h).
Proof.
  intros E. unfold list_iadd. mstep. apply (store_Some _ _ _ _ E).
Qed.

Lemma dict_update_Some (h : Heap) (l : loc) (d e : gmap string Val) :
  h !! l = Some (ODict d) → dict_update l e h = (Ok tt, <[l := ODict (e ∪ d)]> h).
Proof.
  intros E. unfold dict_update. mstep. apply (store_Some _ _ _ _ E).
Qed.

Lemma copy_Some (h : Heap) (l : loc) (o : Obj) :
  h !! l = Some o → copy l h = (Ok (length h), h ++ [o]).
Proof. intros E. unfold copy. mstep. reflexivity. Qed.

Lemma names_of_insert_ne (h : Heap) (l x : loc) (o : Obj) :
  x ≠ l → names_of (<[l := o]> h) x = names_of h x.
Proof. intros Hne. unfold names_of, list_at. by rewrite list_lookup_insert_ne. Qed.

Lemma entries_of_insert_ne (h : Heap) (l x : loc) (o : Obj) :
  x ≠ l → entries_of (<[l := o]> h) x = entries_of h x.
Proof. intros Hne. unfold entries_of, dict_at. by rewrite list_lookup_insert_ne. Qed.

Lemma names_of_insert_eq (h : Heap) (l : loc) (o : Obj) (xs : list string) :
  h !! l = Some o → names_of (<[l := OList xs]> h) l = xs.
Proof. intros E. unfold names_of, list_at. by rewrite (lookup_heap_insert _ _ _ _ E). Qed.

Lemma entries_of_insert_eq (h : Heap) (l : loc) (o : Obj) (d : gmap string Val) :
  h !! l = Some o → entries_of (<[l := ODict d]> h) l = d.
Proof. intros E. unfold entries_of, dict_at. by rewrite (lookup_heap_insert _ _ _ _ E). Qed.

(** Writing a dictionary over a dictionary changes no name list, and
    writing a list over a list changes no dictionary. *)
Lemma names_of_insert_dict (h : Heap) (l x : loc) (d d' : gmap string Val) :
  h !! l = Some (ODict d) → names_of (<[l := ODict d']> h) x = names_of h x.
Proof.
  intros E. destruct (decide (x = l)) as [->|Hne]; [|by apply names_of_insert_ne].
  unfold names_of, list_at. by rewrite (lookup_heap_insert _ _ _ _ E), E.
Qed.

Lemma entries_of_insert_list (h : Heap) (l x : loc) (xs xs' : list string) :
  h !! l = Some (OList xs) → entries_of (<[l := OList xs']> h) x = entries_of h x.
Proof.
  intros E. destruct (decide (x = l)) as [->|Hne]; [|by apply entries_of_insert_ne].
  unfold entries_of, dict_at. by rewrite (lookup_heap_insert _ _ _ _ E), E.
Qed.

Lemma info_of_insert (h : Heap) (l : loc) (ol : option loc) (o o' : Obj) :
  h !! l = Some o → same_kind o o' = true → (∀ t, o ≠ OTable t) →
  info_of (<[l := o']> h) ol = info_of h ol.
Proof.
  intros E Hk Hnt. destruct ol as [x|]; [|done]. unfold info_of, table_at. cbn.
  destruct (decide (x = l)) as [->|Hne]; [|by rewrite list_lookup_insert_ne].
  rewrite (lookup_heap_insert _ _ _ _ E), E.
  destruct o, o'; try done. by destruct (Hnt t).
Qed.

(** An update that keeps the kind of the object keeps components well
    formed. *)
Lemma is_Some_insert_same_kind {A} (f : Obj → option A) (h : Heap) (l x : loc) (o o' : Obj) :
  (∀ o1 o2, same_kind o1 o2 = true → is_Some (f o1) → is_Some (f o2)) →
  h !! l = Some o → same_kind o o' = true →
  is_Some (h !! x ≫= f) → is_Some (<[l := o']> h !! x ≫= f).
Proof.
  intros Hf E Hk. destruct (decide (x = l)) as [->|Hne].
  - rewrite (lookup_heap_insert _ _ _ _ E), E. cbn. by apply Hf.
  - by rewrite list_lookup_insert_ne.
Qed.

Lemma list_at_bind (h : Heap) (l : loc) :
  list_at h l = h !! l ≫= (fun o => match o with OList xs => Some xs | _ => None end).
Proof. unfold list_at. by destruct (h !! l). Qed.

Lemma dict_at_bind (h : Heap) (l : loc) :
  dict_at h l = h !! l ≫= (fun o => match o with ODict xs => Some xs | _ => None end).
Proof. unfold dict_at. by destruct (h !! l). Qed.

Lemma table_at_bind (h : Heap) (l : loc) :
  table_at h l = h !! l ≫= (fun o => match o with OTable xs => Some xs | _ => None end).
Proof. unfold table_at. by destruct (h !! l). Qed.

Lemma valid_insert (h : Heap) (c : Component.t) (l : loc) (o o' : Obj) :
  h !! l = Some o → same_kind o o' = true →
  valid h c = true → valid (<[l := o']> h) c = true.
Proof.
  intros E Hk. unfold valid.
  rewrite !andb_true_iff, !forallb_forall, !bool_decide_eq_true.
  intros [[[Hl Hd] Ht] Hs]. repeat split; [| | |exact Hs].
  - intros x Hx. specialize (Hl x Hx). rewrite bool_decide_eq_true in *.
    rewrite list_at_bind in *. revert Hl. apply (is_Some_insert_same_kind _ _ _ _ o o'); [|done..].
    intros [] []; cbn; try done; by intros _ [? [=]].
  - intros x Hx. specialize (Hd x Hx). rewrite bool_decide_eq_true in *.
    rewrite dict_at_bind in *. revert Hd. apply (is_Some_insert_same_kind _ _ _ _ o o'); [|done..].
    intros [] []; cbn; try done; by intros _ [? [=]].
  - destruct (Component._component_info c) as [x|]; [|done]. cbn in *.
    rewrite table_at_bind in *. revert Ht. apply (is_Some_insert_same_kind _ _ _ _ o o'); [|done..].
    intros [] []; cbn; try done; by intros _ [? [=]].
Qed.

Lemma well_formed_insert (h : Heap) (c : Component.t) (l : loc) (o o' : Obj) :
  h !! l = Some o → same_kind o o' = true →
  well_formed h c → well_formed (<[l := o']> h) c.
Proof.
  intros E Hk. rewrite <- !valid_well_formed. by apply (valid_insert _ _ _ o o').
Qed.

Lemma well_formed_app (h new : Heap) (c : Component.t) :
  well_formed h c → well_formed (h ++ new) c.
Proof.
  rewrite <- !valid_well_formed. unfold valid.
  rewrite !andb_true_iff, !forallb_forall, !bool_decide_eq_true.
  assert (Hl : ∀ x, is_Some (h !! x) → (h ++ new) !! x = h !! x).
  { intros x [o Ho]. rewrite Ho. by apply lookup_app_l_Some. }
  intros [[[Hl' Hd] Ht] Hs]. repeat split; [| | |exact Hs].
  - intros x Hx. specialize (Hl' x Hx). rewrite bool_decide_eq_true in *.
    unfold list_at in *. destruct (h !! x) eqn:E; [|by destruct Hl'].
    by rewrite Hl, E.
  - intros x Hx. specialize (Hd x Hx). rewrite bool_decide_eq_true in *.
    unfold dict_at in *. destruct (h !! x) eqn:E; [|by destruct Hd].
    by rewrite Hl, E.
  - destruct (Component._component_info c) as [x|]; [|done]. cbn in *.
    unfold table_at in *. destruct (h !! x) eqn:E; [|by destruct Ht].
    by rewrite Hl, E.
Qed.

(** ** Building a model *)

Lemma list_dict_ne (h : Heap) (l l' : loc) (xs : list string) (d : gmap string Val) :
  h !! l = Some (OList xs) → h !! l' = Some (ODict d) → l ≠ l'.
Proof. intros E E' ->. congruence. Qed.

Lemma length_built_names D h c : length (built_names D h c) = length h.
Proof. apply length_insert. Qed.

Lemma length_built_dims D h c : length (built_dims D h c) = length h.
Proof. unfold built_dims. by rewrite length_insert, length_built_names. Qed.

Lemma length_built_info D h c : length (built_info D h c) = length h.
Proof. unfold built_info. by rewrite length_insert, length_built_dims. Qed.

Lemma length_built_base D h c name : length (built_base D h c name) = length h.
Proof. unfold built_base. by rewrite length_insert, length_built_info. Qed.

#[local] Hint Rewrite length_built_names length_built_dims length_built_info
  length_built_base : heap_len.

Lemma well_formed_built_names D h c :
  well_formed h c → well_formed (built_names D h c) c.
Proof.
  intros Hwf. eapply well_formed_insert; [apply (wf_param_names _ _ Hwf)|done..].
Qed.

Lemma well_formed_built_dims D h c :
  well_formed h c → well_formed (built_dims D h c) c.
Proof.
  intros Hwf. pose proof (well_formed_built_names D h c Hwf) as H1.
  eapply well_formed_insert; [apply (wf_param_dims _ _ H1)|done..].
Qed.

Lemma well_formed_built_info D h c :
  well_formed h c → well_formed (built_info D h c) c.
Proof.
  intros Hwf. pose proof (well_formed_built_dims D h c Hwf) as H1.
  eapply well_formed_insert; [apply (wf_param_info _ _ H1)|done..].
Qed.

Lemma well_formed_built_base D h c name :
  well_formed h c → well_formed (built_base D h c name) c.
Proof.
  intros Hwf. pose proof (well_formed_built_info D h c Hwf) as H1.
  eapply well_formed_insert; [apply (wf_coords _ _ H1)|done..].
Qed.

(** The dictionaries of a well-formed component are pairwise distinct. *)
Lemma separate_dicts (h : Heap) (c : Component.t) :
  well_formed h c →
  let co := Component.coords c in
  let pd := Component.param_dims c in
  let pi := Component.param_info c in
  let di := Component.data_info c in
  let nv := Component._name_to_variable c in
  let nd := Component._name_to_data c in
  co ≠ pd ∧ co ≠ pi ∧ co ≠ di ∧ co ≠ nv ∧ co ≠ nd ∧ pd ≠ pi ∧ pd ≠ di ∧ pd ≠ nv
  ∧ pd ≠ nd ∧ pi ≠ di ∧ pi ≠ nv ∧ pi ≠ nd ∧ di ≠ nv ∧ di ≠ nd ∧ nv ≠ nd.
Proof.
  intros Hwf. pose proof (wf_separate _ _ Hwf) as Hs. unfold dict_attributes in Hs.
  rewrite !NoDup_cons, !not_elem_of_cons in Hs. cbn. tauto.
Qed.

(** What the component's own objects hold after the build. *)
Lemma names_of_built_info D h c (x : loc) :
  well_formed h c → names_of (built_info D h c) x = names_of (built_names D h c) x.
Proof.
  intros Hwf. unfold built_info, built_dims.
  erewrite names_of_insert_dict
    by apply (wf_param_info _ _ (well_formed_built_dims D h c Hwf)).
  unfold built_dims.
  erewrite names_of_insert_dict
    by apply (wf_param_dims _ _ (well_formed_built_names D h c Hwf)).
  done.
Qed.

Lemma names_of_built_base D h c name (x : loc) :
  well_formed h c → names_of (built_base D h c name) x = names_of (built_names D h c) x.
Proof.
  intros Hwf. unfold built_base.
  erewrite names_of_insert_dict
    by apply (wf_coords _ _ (well_formed_built_info D h c Hwf)).
  by apply names_of_built_info.
Qed.

Lemma param_names_built_base D h c name :
  well_formed h c →
  names_of (built_base D h c name) (Component.param_names c)
  = names_of h (Component.param_names c) ++ ["P0"].
Proof.
  intros Hwf. rewrite names_of_built_base by done. unfold built_names.
  eapply names_of_insert_eq, (wf_param_names _ _ Hwf).
Qed.

Lemma entries_of_built_names D h c (x : loc) :
  well_formed h c → entries_of (built_names D h c) x = entries_of h x.
Proof.
  intros Hwf. unfold built_names.
  eapply entries_of_insert_list, (wf_param_names _ _ Hwf).
Qed.

Lemma param_dims_built_info D h c :
  well_formed h c →
  entries_of (built_info D h c) (Component.param_dims c)
  = <["P0" := VDims (P0_dims D)]> (entries_of h (Component.param_dims c)).
Proof.
  intros Hwf. destruct (separate_dicts h c Hwf) as (?&?&?&?&?&?&?&?&?&?&?&?&?&?&?).
  unfold built_info. rewrite entries_of_insert_ne by done. unfold built_dims.
  eapply entries_of_insert_eq, (wf_param_dims _ _ (well_formed_built_names D h c Hwf)).
Qed.

Lemma param_info_built_info D h c :
  well_formed h c →
  entries_of (built_info D h c) (Component.param_info c)
  = <["P0" := P0_info D (PytensorRepresentation.k_states (Component.ssm c))]>
      (entries_of h (Component.param_info c)).
Proof.
  intros Hwf. unfold built_info.
  eapply entries_of_insert_eq, (wf_param_info _ _ (well_formed_built_dims D h c Hwf)).
Qed.

Lemma entries_of_built_info_other D h c (x : loc) :
  well_formed h c → x ≠ Component.param_dims c → x ≠ Component.param_info c →
  entries_of (built_info D h c) x = entries_of h x.
Proof.
  intros Hwf H1 H2. unfold built_info, built_dims.
  rewrite !entries_of_insert_ne by done. by apply entries_of_built_names.
Qed.

Lemma entries_of_built_base_ne D h c name (x : loc) :
  x ≠ Component.coords c →
  entries_of (built_base D h c name) x = entries_of (built_info D h c) x.
Proof. intros Hne. unfold built_base. by rewrite entries_of_insert_ne. Qed.

Lemma info_of_built_base D h c name :
  well_formed h c →
  info_of (built_base D h c name) (Component._component_info c)
  = info_of h (Component._component_info c).
Proof.
  intros Hwf. unfold built_base.
  erewrite info_of_insert;
    [|apply (wf_coords _ _ (well_formed_built_info D h c Hwf))|done..].
  unfold built_info.
  erewrite info_of_insert;
    [|apply (wf_param_info _ _ (well_formed_built_dims D h c Hwf))|done..].
  unfold built_dims.
  erewrite info_of_insert;
    [|apply (wf_param_dims _ _ (well_formed_built_names D h c Hwf))|done..].
  unfold built_names.
  erewrite info_of_insert; [done|apply (wf_param_names _ _ Hwf)|done..].
Qed.

Lemma add_initial_state_cov_eval D h c :
  well_formed h c →
  StructuralTimeSeries._add_inital_state_cov_to_properties D
    (Component.param_names c) (Component.param_dims c) (Component.param_info c)
    (PytensorRepresentation.k_states (Component.ssm c)) h
  = (Ok (Component.param_names c, Component.param_dims c, Component.param_info c),
     built_info D h c).
Proof.
  intros Hwf.
  pose proof (well_formed_built_names D h c Hwf) as Hwf1.
  pose proof (well_formed_built_dims D h c Hwf) as Hwf2.
  destruct (separate_dicts h c Hwf) as (?&?&?&?&?&?&?&?&?&?&?&?&?&?&?).
  unfold StructuralTimeSeries._add_inital_state_cov_to_properties.
  erewrite bind_Ok by (apply list_iadd_Some, (wf_param_names _ _ Hwf)).
  fold (built_names D h c).
  erewrite bind_Ok by (apply dict_setitem_Some, (wf_param_dims _ _ Hwf1)).
  rewrite entries_of_built_names by done. fold (built_dims D h c).
  erewrite bind_Ok by (apply deref_dict_Some, (wf_param_dims _ _ Hwf2)).
  unfold built_dims at 1. erewrite entries_of_insert_eq by apply (wf_param_dims _ _ Hwf1).
  rewrite lookup_insert_eq. mstep.
  erewrite bind_Ok by (apply dict_setitem_Some, (wf_param_info _ _ Hwf2)).
  unfold built_dims at 1. rewrite entries_of_insert_ne by done.
  rewrite entries_of_built_names by done. reflexivity.
Qed.

Lemma setitem_matrices (r : PytensorRepresentation.t) (name : string) (idx : list Index)
    (X : Tensor) :
  name ∈ LONG_MATRIX_NAMES →
  PytensorRepresentation.__setitem__ r name idx X
  = Ok (from_Ok r (PytensorRepresentation.__setitem__ r name idx X)).
Proof.
  unfold LONG_MATRIX_NAMES. rewrite !elem_of_cons, elem_of_nil.
  intros [->|[->|[->|[->|[->|[->|[->|[->|[->|[]]]]]]]]]]; reflexivity.
Qed.

(** [build] evaluated on a well-formed component that has no placeholder
    registered under ["P0"]. *)
Lemma build_eval D h c name :
  well_formed h c →
  entries_of h (Component._name_to_variable c) !! "P0" = None →
  build D c name h
  = (Ok (built_model D h c name), built_base D h c name ++ built_objects D h c name).
Proof.
  intros Hwf Hfree.
  pose proof (well_formed_built_info D h c Hwf) as Hwf3.
  pose proof (well_formed_built_base D h c name Hwf) as Hwf4.
  destruct (separate_dicts h c Hwf) as (?&?&?&?&?&?&?&?&?&?&?&?&?&?&?).
  destruct (wf_component_info _ _ Hwf4) as (lci & Eci & Hci).
  unfold build. rewrite Eci. unfold StructuralTimeSeries.__init__.
  erewrite bind_Ok by (apply add_initial_state_cov_eval, Hwf).
  destruct Hwf3.
  do 5 (erewrite bind_Ok by (eapply copy_Some; heap_lookup); heap_norm).
  mstep. mstep.
  erewrite bind_Ok by (eapply dict_update_Some; heap_lookup).
  rewrite insert_app_l by (eapply lookup_lt_Some; eassumption).
  rewrite (entries_of_built_info_other D h c (Component.coords c)) by done.
  fold (built_base D h c name).
  destruct Hwf4.
  do 2 (erewrite bind_Ok by (eapply copy_Some; heap_lookup); heap_norm).
  assert (Hssm :
    (if decide (PytensorRepresentation.k_posdef (Component.ssm c) = 0) then
       do r <- lift (PytensorRepresentation.__setitem__
                       (PytensorRepresentation.set_shape "state_cov" [1; 1; 1]
                          (PytensorRepresentation.set_k_posdef
                             (1 `max` PytensorRepresentation.k_posdef (Component.ssm c))
                             (Component.ssm c)))
                       "state_cov" [] (TZeros [1; 1; 1]));
       lift (PytensorRepresentation.__setitem__
               (PytensorRepresentation.set_shape "selection"
                  [1; PytensorRepresentation.k_states (Component.ssm c); 1] r)
               "selection" [] (TZeros [1; PytensorRepresentation.k_states (Component.ssm c); 1]))
     else ret (Component.ssm c))
    = ret (if decide (PytensorRepresentation.k_posdef (Component.ssm c) = 0) then
             from_Ok (Component.ssm c)
               (PytensorRepresentation.__setitem__
                  (PytensorRepresentation.set_shape "selection"
                     [1; PytensorRepresentation.k_states (Component.ssm c); 1]
                     (from_Ok (Component.ssm c)
                        (PytensorRepresentation.__setitem__
                           (PytensorRepresentation.set_shape "state_cov" [1; 1; 1]
                              (PytensorRepresentation.set_k_posdef 1 (Component.ssm c)))
                           "state_cov" [] (TZeros [1; 1; 1]))))
                  "selection" [] (TZeros [1; PytensorRepresentation.k_states (Component.ssm c); 1]))
           else Component.ssm c)).
  { destruct (decide (PytensorRepresentation.k_posdef (Component.ssm c) = 0)) as [E|E];
      [|reflexivity].
    rewrite E. reflexivity. }
  rewrite Hssm. clear Hssm. mstep.
  do 4 (erewrite bind_Ok by (eapply copy_Some; heap_lookup); heap_norm).
  mstep.
  assert (Hpn : names_of (built_info D h c) (Component.param_names c)
                = names_of h (Component.param_names c) ++ ["P0"]).
  { rewrite names_of_built_info by done. unfold built_names.
    eapply names_of_insert_eq, (wf_param_names _ _ Hwf). }
  assert (Hnv : entries_of (built_base D h c name) (Component._name_to_variable c)
                = entries_of h (Component._name_to_variable c)).
  { rewrite entries_of_built_base_ne by done. by apply entries_of_built_info_other. }
  rewrite Hpn, Hnv.
  unfold StructuralTimeSeries.make_and_register_variable.
  erewrite bind_Ok.
  2:{ mstep. rewrite decide_True by (apply elem_of_app; right; left).
      mstep. rewrite Hfree. mstep. apply ret_eq. }
  rewrite setitem_matrices by compute_done.
  mstep.
  unfold built_model, built_objects, built_ssm.
  rewrite Hnv.
  rewrite !(names_of_built_base D h c name) by done.
  rewrite <- !(names_of_built_info D h c) by done.
  rewrite Hpn.
  rewrite (entries_of_built_base_ne D h c name (Component.param_dims c)) by done.
  destruct (decide (PytensorRepresentation.k_posdef (Component.ssm c) = 0)); reflexivity.
Qed.

(** ** Composition followed by build *)

Lemma list_at_app_plus (h new : Heap) (k : nat) :
  list_at (h ++ new) (k + length h) = list_at new k.
Proof. unfold list_at. by rewrite lookup_app_plus. Qed.

Lemma dict_at_app_plus (h new : Heap) (k : nat) :
  dict_at (h ++ new) (k + length h) = dict_at new k.
Proof. unfold dict_at. by rewrite lookup_app_plus. Qed.

Lemma table_at_app_plus (h new : Heap) (k : nat) :
  table_at (h ++ new) (k + length h) = table_at new k.
Proof. unfold table_at. by rewrite lookup_app_plus. Qed.

Lemma names_of_app_plus (h new : Heap) (k : nat) :
  names_of (h ++ new) (k + length h) = names_of new k.
Proof. unfold names_of. by rewrite list_at_app_plus. Qed.

Lemma entries_of_app_plus (h new : Heap) (k : nat) :
  entries_of (h ++ new) (k + length h) = entries_of new k.
Proof. unfold entries_of. by rewrite dict_at_app_plus. Qed.

Lemma names_of_app_l (h new : Heap) (l : loc) :
  is_Some (h !! l) → names_of (h ++ new) l = names_of h l.
Proof.
  intros [o Ho]. unfold names_of, list_at. by rewrite (lookup_app_l_Some _ _ _ _ Ho), Ho.
Qed.

Lemma entries_of_app_l (h new : Heap) (l : loc) :
  is_Some (h !! l) → entries_of (h ++ new) l = entries_of h l.
Proof.
  intros [o Ho]. unfold entries_of, dict_at. by rewrite (lookup_app_l_Some _ _ _ _ Ho), Ho.
Qed.

(** The sum of two well-formed components is well formed. *)
Lemma valid_sum (h : Heap) (a b : Component.t) (r : PytensorRepresentation.t) :
  valid (h ++ sum_objects h a b) (sum_component h a b r) = true.
Proof.
  unfold valid, sum_component, list_attributes, dict_attributes.
  cbn [forallb Component.state_names Component.data_names Component.shock_names
       Component.param_names Component.exog_names Component.coords Component.param_dims
       Component.param_info Component.data_info Component._name_to_variable
       Component._name_to_data Component._component_info mbind option_bind].
  rewrite (list_at_app_plus h _ 0), !list_at_app_plus, !dict_at_app_plus, table_at_app_plus.
  rewrite !andb_true_iff, !bool_decide_eq_true.
  repeat split; try (cbn; eauto; fail).
  rewrite !NoDup_cons, !not_elem_of_cons, !elem_of_nil.
  repeat split; try lia. apply NoDup_nil_2.
Qed.

Lemma sum_param_names (h : Heap) (a b : Component.t) (r : PytensorRepresentation.t) :
  names_of (h ++ sum_objects h a b) (Component.param_names (sum_component h a b r))
  = names_of h (Component.param_names a) ++ names_of h (Component.param_names b).
Proof. exact (names_of_app_plus h (sum_objects h a b) 2). Qed.

Lemma sum_state_names (h : Heap) (a b : Component.t) (r : PytensorRepresentation.t) :
  names_of (h ++ sum_objects h a b) (Component.state_names (sum_component h a b r))
  = names_of h (Component.state_names a) ++ names_of h (Component.state_names b).
Proof. exact (names_of_app_plus h (sum_objects h a b) 0). Qed.

Lemma sum_name_to_variable (h : Heap) (a b : Component.t) (r : PytensorRepresentation.t) :
  entries_of (h ++ sum_objects h a b) (Component._name_to_variable (sum_component h a b r))
  = entries_of h (Component._name_to_variable b) ∪ entries_of h (Component._name_to_variable a).
Proof. exact (entries_of_app_plus h (sum_objects h a b) 9). Qed.

(** What the built model holds. *)
Lemma built_param_names D h c name :
  well_formed h c →
  names_of (built_base D h c name ++ built_objects D h c name)
    (StructuralTimeSeries._param_names (built_model D h c name))
  = names_of h (Component.param_names c) ++ ["P0"].
Proof.
  intros Hwf. unfold built_model. cbn [StructuralTimeSeries._param_names].
  rewrite <- (length_built_base D h c name).
  rewrite (names_of_app_plus _ _ 3). cbn.
  by apply param_names_built_base.
Qed.

Lemma built_state_names D h c name :
  well_formed h c →
  names_of (built_base D h c name ++ built_objects D h c name)
    (StructuralTimeSeries._state_names (built_model D h c name))
  = names_of (built_names D h c) (Component.state_names c).
Proof.
  intros Hwf. unfold built_model. cbn [StructuralTimeSeries._state_names].
  rewrite <- (length_built_base D h c name).
  rewrite (names_of_app_plus (built_base D h c name) _ 0
           : names_of (_ ++ _) (length _) = _). cbn.
  by apply names_of_built_base.
Qed.

Lemma references_allocated (h : Heap) (c : Component.t) (l : loc) :
  well_formed h c → l ∈ references c → is_Some (h !! l).
Proof.
  intros [] Hl. destruct wf_component_info0 as (x & Ex & Hx).
  unfold references, list_attributes, dict_attributes in Hl. rewrite Ex in Hl. cbn in Hl.
  rewrite !elem_of_cons, elem_of_nil in Hl.
  repeat (destruct Hl as [->|Hl]; [eauto|]). done.
Qed.

Lemma fresh_from_references (n : nat) (c : Component.t) (l : loc) :
  fresh_from n c → l ∈ references c → (n ≤ l)%nat.
Proof.
  intros [Ha Hi]. unfold references. rewrite app_assoc, elem_of_app. intros [Hl|Hl].
  - rewrite Forall_forall in Ha. by apply Ha.
  - destruct (Component._component_info c) as [x|]; cbn in Hl.
    + apply list_elem_of_singleton in Hl as ->. by apply Hi.
    + by apply elem_of_nil in Hl.
Qed.

(** C9. Evaluating [a + b] leaves both operands unchanged: every object
    that an operand refers to (its name lists, its metadata dictionaries,
    its placeholder registries and its component-info table) holds after
    the addition what it held before, whether the addition returns or
    raises; and the objects that the composed component refers to are new:
    none of them existed before, so none is an alias of an operand's. *)
Theorem add_leaves_operands_unchanged (h : Heap) (a b : Component.t) :
  valid h a = true → valid h b = true →
  let result := Component.__add__ a b h in
  (∀ l, l ∈ references a ++ references b →
        is_Some (h !! l) ∧ result.2 !! l = h !! l)
  ∧ (∀ c, result.1 = Ok c →
        ∀ l, l ∈ references c → h !! l = None ∧ l ∉ references a ++ references b).
Proof.
  rewrite !valid_well_formed. intros Ha Hb result.
  destruct (frames_add (length h) a b h (le_n _)) as (Htake & Hlen & Hfresh).
  fold result in Htake, Hlen, Hfresh.
  assert (Hold : ∀ l, l ∈ references a ++ references b → is_Some (h !! l)).
  { intros l [Hl|Hl]%elem_of_app; eauto using references_allocated. }
  split.
  - intros l Hl. split; [by apply Hold|].
    pose proof (lookup_lt_is_Some_1 _ _ (Hold l Hl)) as Hlt.
    rewrite <- (lookup_take_lt result.2 (length h) l Hlt), Htake.
    by rewrite take_ge.
  - intros c Hc l Hl.
    pose proof (fresh_from_references _ _ _ (Hfresh c Hc) Hl) as Hge.
    split; [by apply lookup_ge_None_2|].
    intros Hin. apply Hold, lookup_lt_is_Some_1 in Hin. lia.
Qed.

(** ** C6: the dimensions of a sum *)

(** Operands whose [k_endog] differ cannot be composed. *)
Lemma add_mismatch_raises (h : Heap) (a b : Component.t) :
  valid h a = true → valid h b = true →
  Component.k_endog a ≠ Component.k_endog b →
  (Component.__add__ a b h).1
  = Raise (NotImplementedError
             "Merging elements with different numbers of observed states is not supported.>").
Proof.
  rewrite !valid_well_formed. intros [] [] Hk.
  unfold Component.__add__.
  do 4 (erewrite bind_Ok by (eapply combine_property_list; heap_lookup); heap_norm).
  do 4 (erewrite bind_Ok by (eapply combine_property_dict; heap_lookup); heap_norm).
  erewrite bind_Ok by (eapply combine_property_list; heap_lookup); heap_norm.
  do 2 (erewrite bind_Ok by (eapply combine_property_dict; heap_lookup); heap_norm).
  rewrite (get_combined_shapes_differ _ _ Hk). reflexivity.
Qed.


(** ** C10: [build] changes the component it is called on *)

Lemma built_store_param_names D h c name :
  well_formed h c →
  names_of (built_base D h c name ++ built_objects D h c name) (Component.param_names c)
  = names_of h (Component.param_names c) ++ ["P0"].
Proof.
  intros Hwf. rewrite names_of_app_l.
  - by apply param_names_built_base.
  - rewrite (wf_param_names _ _ (well_formed_built_base D h c name Hwf)). eauto.
Qed.

Lemma built_store_param_dims D h c name :
  well_formed h c →
  entries_of (built_base D h c name ++ built_objects D h c name) (Component.param_dims c)
  = <["P0" := VDims (P0_dims D)]> (entries_of h (Component.param_dims c)).
Proof.
  intros Hwf. destruct (separate_dicts h c Hwf) as (?&?&?&?&?&?&?&?&?&?&?&?&?&?&?).
  rewrite entries_of_app_l.
  - rewrite entries_of_built_base_ne by done. by apply param_dims_built_info.
  - rewrite (wf_param_dims _ _ (well_formed_built_base D h c name Hwf)). eauto.
Qed.

Lemma built_store_param_info D h c name :
  well_formed h c →
  entries_of (built_base D h c name ++ built_objects D h c name) (Component.param_info c)
  = <["P0" := P0_info D (PytensorRepresentation.k_states (Component.ssm c))]>
      (entries_of h (Component.param_info c)).
Proof.
  intros Hwf. destruct (separate_dicts h c Hwf) as (?&?&?&?&?&?&?&?&?&?&?&?&?&?&?).
  rewrite entries_of_app_l.
  - rewrite entries_of_built_base_ne by done. by apply param_info_built_info.
  - rewrite (wf_param_info _ _ (well_formed_built_base D h c name Hwf)). eauto.
Qed.

Lemma built_store_name_to_variable D h c name :
  well_formed h c →
  entries_of (built_base D h c name ++ built_objects D h c name)
    (Component._name_to_variable c)
  = entries_of h (Component._name_to_variable c).
Proof.
  intros Hwf. destruct (separate_dicts h c Hwf) as (?&?&?&?&?&?&?&?&?&?&?&?&?&?&?).
  rewrite entries_of_app_l.
  - rewrite entries_of_built_base_ne by done. by apply entries_of_built_info_other.
  - rewrite (wf_name_to_variable _ _ (well_formed_built_base D h c name Hwf)). eauto.
Qed.

(** C10 (amended). For a component without a placeholder registered under
    ["P0"], [c.build()] changes [c] itself: it appends ["P0"] to [c]'s own
    list of parameter names and enters ["P0"] in [c]'s own [param_dims] and
    [param_info]; a second [c.build()] therefore returns a model whose
    parameter names end with ["P0"] twice. *)
Theorem build_mutates_component (D : Declarations) (h : Heap) (c : Component.t)
    (name name' : option string) :
  valid h c = true →
  entries_of h (Component._name_to_variable c) !! "P0" = None →
  ∃ m1 h1 m2 h2,
    build D c name h = (Ok m1, h1)
    ∧ names_of h1 (Component.param_names c) = names_of h (Component.param_names c) ++ ["P0"]
    ∧ names_of h1 (StructuralTimeSeries._param_names m1)
      = names_of h (Component.param_names c) ++ ["P0"]
    ∧ entries_of h1 (Component.param_dims c) !! "P0" = Some (VDims (P0_dims D))
    ∧ entries_of h1 (Component.param_info c) !! "P0"
      = Some (P0_info D (PytensorRepresentation.k_states (Component.ssm c)))
    ∧ build D c name' h1 = (Ok m2, h2)
    ∧ names_of h2 (StructuralTimeSeries._param_names m2)
      = names_of h (Component.param_names c) ++ ["P0"; "P0"].
Proof.
  rewrite valid_well_formed. intros Hwf Hfree.
  set (h1 := built_base D h c name ++ built_objects D h c name).
  assert (Hwf1 : well_formed h1 c) by by apply well_formed_app, well_formed_built_base.
  assert (Hfree1 : entries_of h1 (Component._name_to_variable c) !! "P0" = None).
  { unfold h1. by rewrite built_store_name_to_variable. }
  exists (built_model D h c name), h1, (built_model D h1 c name'),
    (built_base D h1 c name' ++ built_objects D h1 c name').
  split; [by apply build_eval|].
  split; [by apply built_store_param_names|].
  split; [by apply built_param_names|].
  split; [unfold h1; rewrite built_store_param_dims by done; apply lookup_insert_eq|].
  split; [unfold h1; rewrite built_store_param_info by done; apply lookup_insert_eq|].
  split; [by apply build_eval|].
  rewrite built_param_names by done. unfold h1.
  rewrite built_store_param_names by done. by rewrite <- app_assoc.
Qed.

(** ** C1: composing, then building *)

(** C1 (amended). For two well-formed components with equal [k_endog],
    with pairwise distinct component names and without a placeholder
    registered under ["P0"], [(a + b).build()] returns a model whose state
    count is [a.k_states + b.k_states] and whose parameter names are those
    of [a], then those of [b], then ["P0"]. *)
Theorem compose_then_build (D : Declarations) (h : Heap) (a b : Component.t)
    (name : option string) :
  valid h a = true → valid h b = true →
  Component.k_endog a = Component.k_endog b →
  distinct_component_names h a b = true →
  entries_of h (Component._name_to_variable a) !! "P0" = None →
  entries_of h (Component._name_to_variable b) !! "P0" = None →
  ∃ c h1 m h2,
    Component.__add__ a b h = (Ok c, h1)
    ∧ build D c name h1 = (Ok m, h2)
    ∧ StructuralTimeSeries.k_states m = Component.k_states a + Component.k_states b
    ∧ names_of h2 (StructuralTimeSeries._param_names m)
      = names_of h (Component.param_names a) ++ names_of h (Component.param_names b)
        ++ ["P0"]
    ∧ (∀ x, x ∈ names_of h (Component.param_names a) ++ names_of h (Component.param_names b)
            → x ∈ names_of h2 (StructuralTimeSeries._param_names m))
    ∧ "P0" ∈ names_of h2 (StructuralTimeSeries._param_names m).
Proof.
  rewrite !valid_well_formed. intros Ha Hb Hk Hd Hfa Hfb.
  destruct (combine_statespace_representations_ok a b Hk) as (r & Hr & Hks & Hkp & Hke).
  set (c := sum_component h a b r). set (h1 := h ++ sum_objects h a b).
  assert (Hc : well_formed h1 c) by apply valid_well_formed, valid_sum.
  assert (Hfree : entries_of h1 (Component._name_to_variable c) !! "P0" = None).
  { unfold h1, c. rewrite sum_name_to_variable. by apply lookup_union_None_2. }
  assert (Hnames : names_of (built_base D h1 c name ++ built_objects D h1 c name)
                     (StructuralTimeSeries._param_names (built_model D h1 c name))
                   = names_of h (Component.param_names a)
                     ++ names_of h (Component.param_names b) ++ ["P0"]).
  { rewrite built_param_names by done. unfold h1, c.
    by rewrite sum_param_names, <- app_assoc. }
  exists c, h1, (built_model D h1 c name),
    (built_base D h1 c name ++ built_objects D h1 c name).
  split; [by apply add_eval|].
  split; [by apply build_eval|].
  split; [exact Hks|].
  split; [exact Hnames|].
  rewrite Hnames. split.
  - intros x Hx. rewrite app_assoc. apply elem_of_app. by left.
  - rewrite app_assoc. apply elem_of_app. right. left.
Qed.

(** ** The statements at sample inputs *)

Lemma make_and_register_variable_contract_witness :
  let c := unregistered in
  let h := unregistered_store in
  let placeholder := TTensor "sigma_obs" [] floatX in
  let h' := <[Component._name_to_variable c :=
                ODict (<["sigma_obs" := VVar placeholder]> ∅)]> h in
  Component.make_and_register_variable c "sigma_obs" [] floatX h = (Ok placeholder, h')
  ∧ ∀ shape' dtype', ∃ msg,
      Component.make_and_register_variable c "sigma_obs" shape' dtype' h'
      = (Raise (ValueError msg), h').
Proof.
  apply (make_and_register_variable_contract unregistered unregistered_store
           ["sigma_obs"] ∅ "sigma_obs" [] floatX eq_refl eq_refl).
  - left.
  - reflexivity.
Defined.

Lemma compose_then_build_witness :
  ∃ c h1 m h2,
    Component.__add__ sample_trend sample_error sample_store = (Ok c, h1)
    ∧ build sample_declarations c None h1 = (Ok m, h2)
    ∧ StructuralTimeSeries.k_states m
      = Component.k_states sample_trend + Component.k_states sample_error
    ∧ names_of h2 (StructuralTimeSeries._param_names m)
      = names_of sample_store (Component.param_names sample_trend)
        ++ names_of sample_store (Component.param_names sample_error) ++ ["P0"]
    ∧ (∀ x, x ∈ names_of sample_store (Component.param_names sample_trend)
              ++ names_of sample_store (Component.param_names sample_error)
            → x ∈ names_of h2 (StructuralTimeSeries._param_names m))
    ∧ "P0" ∈ names_of h2 (StructuralTimeSeries._param_names m).
Proof.
  apply (compose_then_build sample_declarations sample_store sample_trend sample_error None);
    vm_compute; reflexivity.
Defined.

(** C1 as stated fails: two components with equal [k_endog] that share a
    component name do not compose, so no model is built. *)
Lemma compose_then_build_counterexample :
  valid two_trends_store first_trend = true
  ∧ valid two_trends_store second_trend = true
  ∧ Component.k_endog first_trend = Component.k_endog second_trend
  ∧ (Component.__add__ first_trend second_trend two_trends_store).1
    = Raise (ValueError "Found duplicate component named LevelTrend").
Proof. vm_compute. auto. Qed.

Lemma add_leaves_operands_unchanged_witness :
  let result := Component.__add__ sample_trend sample_error sample_store in
  (∀ l, l ∈ references sample_trend ++ references sample_error →
        is_Some (sample_store !! l) ∧ result.2 !! l = sample_store !! l)
  ∧ (∀ c, result.1 = Ok c →
        ∀ l, l ∈ references c →
             sample_store !! l = None
             ∧ l ∉ references sample_trend ++ references sample_error).
Proof.
  apply (add_leaves_operands_unchanged sample_store sample_trend sample_error);
    vm_compute; reflexivity.
Defined.

Lemma build_mutates_component_witness :
  ∃ m1 h1 m2 h2,
    build sample_declarations sample_trend None sample_store = (Ok m1, h1)
    ∧ names_of h1 (Component.param_names sample_trend)
      = names_of sample_store (Component.param_names sample_trend) ++ ["P0"]
    ∧ names_of h1 (StructuralTimeSeries._param_names m1)
      = names_of sample_store (Component.param_names sample_trend) ++ ["P0"]
    ∧ entries_of h1 (Component.param_dims sample_trend) !! "P0"
      = Some (VDims (P0_dims sample_declarations))
    ∧ entries_of h1 (Component.param_info sample_trend) !! "P0"
      = Some (P0_info sample_declarations
                (PytensorRepresentation.k_states (Component.ssm sample_trend)))
    ∧ build sample_declarations sample_trend None h1 = (Ok m2, h2)
    ∧ names_of h2 (StructuralTimeSeries._param_names m2)
      = names_of sample_store (Component.param_names sample_trend) ++ ["P0"; "P0"].
Proof.
  apply (build_mutates_component sample_declarations sample_store sample_trend None None);
    vm_compute; reflexivity.
Defined.

(** C10 as stated fails for a component that has a parameter called
    ["P0"]: [FrequencySeasonality(season_length=4, name="P0")] registers a
    placeholder under that name, and [build] raises [ValueError] when the
    model registers its own.  The first [build] has extended the
    component's parameter names all the same, and the second [build]
    raises again, so that no model is produced. *)
Lemma build_mutates_component_counterexample :
  valid seasonal_P0_store seasonal_P0 = true
  ∧ names_of seasonal_P0_store (Component.param_names seasonal_P0) = ["P0"; "sigma_P0"]
  ∧ is_Some (entries_of seasonal_P0_store (Component._name_to_variable seasonal_P0) !! "P0")
  ∧ let first := build sample_declarations seasonal_P0 None seasonal_P0_store in
    let second := build sample_declarations seasonal_P0 None first.2 in
    (∃ msg, first.1 = Raise (ValueError msg))
    ∧ names_of first.2 (Component.param_names seasonal_P0) = ["P0"; "sigma_P0"; "P0"]
    ∧ (∃ msg, second.1 = Raise (ValueError msg)).
Proof.
  split; [vm_compute; reflexivity|]. split; [vm_compute; reflexivity|].
  split; [vm_compute; eauto|].
  vm_compute. split; [eauto|]. split; [reflexivity|eauto].
Qed.



(** ** C3: the seasonal transition matrix *)

Lemma shift_snoc (x : list Z) (z : Z) : shift (x ++ [z]) = z :: x.
Proof.
  unfold shift. rewrite last_snoc, length_app. cbn.
  replace (length x + 1 - 1)%nat with (length x) by lia.
  by rewrite take_app_length.
Qed.

Lemma iter_shift_app (u v : list Z) :
  Nat.iter (length v) shift (u ++ v) = v ++ u.
Proof.
  revert u. induction v as [|z v IH] using rev_ind; intros u.
  - cbn. by rewrite app_nil_r.
  - rewrite length_app. cbn [length]. rewrite Nat.add_1_r, Nat.iter_succ_r.
    rewrite app_assoc, shift_snoc.
    rewrite app_comm_cons, (IH (z :: u)). by rewrite <- app_assoc.
Qed.

Lemma iter_shift_length (y : list Z) : Nat.iter (length y) shift y = y.
Proof. rewrite <- (app_nil_l y) at 2. rewrite iter_shift_app. apply app_nil_r. Qed.

Lemma sum_list_app (x y : list Z) : sum_list (x ++ y) = sum_list x + sum_list y.
Proof.
  induction x as [|a x IH]; [reflexivity|].
  change (a + sum_list (x ++ y) = a + sum_list x + sum_list y). rewrite IH. lia.
Qed.

Lemma dot_nil_r (u : list Z) : dot u [] = 0.
Proof. by destruct u. Qed.

Lemma dot_cons (a b : Z) (u v : list Z) : dot (a :: u) (b :: v) = a * b + dot u v.
Proof. reflexivity. Qed.

Lemma dot_comm (u v : list Z) : dot u v = dot v u.
Proof.
  revert v. induction u as [|a u IH]; intros [|b v]; try reflexivity.
  rewrite !dot_cons, IH. lia.
Qed.

Lemma dot_replicate (c : Z) (x : list Z) :
  dot (replicate (length x) c) x = c * sum_list x.
Proof.
  induction x as [|a x IH]; cbn [length replicate]; [cbn; lia|].
  rewrite dot_cons, IH. change (sum_list (a :: x)) with (a + sum_list x). lia.
Qed.

(** The product with a row that has a single one. *)
Lemma dot_indicator (p a : nat) (x : list Z) :
  dot ((fun j => if decide (j = p) then 1 else 0) <$> seq a (length x)) x
  = if decide (a ≤ p < a + length x)%nat then default 0 (x !! (p - a)%nat) else 0.
Proof.
  revert a. induction x as [|b x IH]; intros a; cbn [length seq fmap list_fmap].
  - rewrite dot_nil_r. by destruct (decide _).
  - rewrite dot_cons, IH.
    destruct (decide (a = p)) as [->|Hne].
    + rewrite decide_False by lia. rewrite decide_True by (cbn; lia).
      rewrite Nat.sub_diag. cbn. lia.
    + destruct (decide (S a ≤ p < S a + length x)%nat) as [Hin|Hout].
      * rewrite decide_True by (cbn; lia).
        replace (p - a)%nat with (S (p - S a)) by lia. cbn. by rewrite Z.mul_0_l.
      * rewrite decide_False by (cbn; lia). lia.
Qed.

Lemma dot_unit_vector (p : nat) (x : list Z) :
  dot (unit_vector (length x) p) x = default 0 (x !! p).
Proof.
  unfold unit_vector. rewrite dot_indicator. rewrite Nat.sub_0_r.
  destruct (decide _) as [|Hout]; [done|].
  rewrite lookup_ge_None_2 by lia. done.
Qed.

Lemma occurrences_app (c : Ascii.ascii) (s1 s2 : string) :
  occurrences c (s1 +:+ s2) = (occurrences c s1 + occurrences c s2)%nat.
Proof.
  induction s1 as [|a s1 IH]; [reflexivity|].
  change (((if Ascii.eqb a c then 1 else 0) + occurrences c (s1 +:+ s2)
           = (if Ascii.eqb a c then 1 else 0) + occurrences c s1 + occurrences c s2)%nat).
  rewrite IH. lia.
Qed.

(** The two parameter names that a seasonal component generates from its
    name differ. *)
Lemma sigma_ne_coefs (name : string) : "sigma_" +:+ name ≠ name +:+ "_coefs".
Proof.
  intros E. apply (f_equal (occurrences "c"%char)) in E.
  rewrite !occurrences_app in E. cbn in E. lia.
Qed.

Lemma step_seasonal_full_period (x : list Z) :
  (1 ≤ length x)%nat →
  full_period ((- sum_list x) :: take (length x - 1) x) = shift (full_period x).
Proof.
  intros Hlen. unfold full_period at 2. rewrite shift_snoc.
  destruct x as [|l x _] using rev_ind; [cbn in Hlen; lia|].
  rewrite length_app. cbn [length].
  replace (length x + 1 - 1)%nat with (length x) by lia.
  rewrite take_app_length. unfold full_period. cbn [app]. f_equal. f_equal. f_equal.
  change (- sum_list x :: x) with ([- sum_list x] ++ x).
  rewrite !sum_list_app. unfold sum_list. cbn. lia.
Qed.

Lemma np_eye_nat (n : nat) (k : Z) :
  np_eye (Z.of_nat n) k
  = Ok ((fun i => (fun j => if decide (Z.of_nat j - Z.of_nat i = k) then 1 else 0)
                    <$> seq 0 n) <$> seq 0 n).
Proof. unfold np_eye. rewrite decide_False by lia. by rewrite Nat2Z.id. Qed.

Lemma subdiagonal_row (n i : nat) :
  (fun j => if decide (Z.of_nat j - Z.of_nat (S i) = -1) then 1 else 0) <$> seq 0 n
  = unit_vector n i.
Proof.
  unfold unit_vector. apply list_fmap_ext. intros _ j _.
  destruct (decide (j = i)) as [->|Hne].
  - rewrite decide_True by lia. done.
  - rewrite decide_False by lia. done.
Qed.

Lemma length_unit_vector (n p : nat) : length (unit_vector n p) = n.
Proof. unfold unit_vector. by rewrite length_fmap, length_seq. Qed.

Lemma lookups_take (m : nat) (x : list Z) :
  (m ≤ length x)%nat → (fun i => default 0 (x !! i)) <$> seq 0 m = take m x.
Proof.
  intros Hm. apply list_eq. intros i. rewrite list_lookup_fmap.
  destruct (decide (i < m)%nat) as [Hi|Hi].
  - rewrite lookup_seq_lt by done. rewrite lookup_take_lt by done. cbn.
    destruct (lookup_lt_is_Some_2 x i ltac:(lia)) as [v ->]. done.
  - rewrite lookup_seq_ge by lia. rewrite lookup_take_ge by lia. done.
Qed.

Lemma set_first_row_rows (f : nat → list Z) (m : nat) (v : Z) :
  set_first_row v (f <$> seq 0 (S m)) = Ok (replicate (length (f 0%nat)) v :: (f <$> seq 1 m)).
Proof. reflexivity. Qed.

(** The transition matrix with the first state removed: it is square, and
    one step maps the state [x] to the negated sum of [x] followed by [x]
    without its last entry. *)
Lemma seasonal_transition (n : nat) :
  (1 ≤ n)%nat →
  ∃ T, TimeSeasonality.transition_matrix (Z.of_nat n) true = Ok T
       ∧ square n T
       ∧ ∀ x, length x = n → mat_vec T x = (- sum_list x) :: take (n - 1) x.
Proof.
  intros Hn. destruct n as [|m]; [lia|].
  unfold TimeSeasonality.transition_matrix. rewrite np_eye_nat.
  cbn [Component.res_bind]. rewrite set_first_row_rows.
  rewrite length_fmap, length_seq.
  rewrite <- fmap_S_seq, <- list_fmap_compose.
  eexists. split; [reflexivity|]. split.
  - split.
    + cbn. by rewrite length_fmap, length_seq.
    + constructor; [by rewrite length_replicate|].
      apply Forall_fmap, Forall_forall. intros i _. unfold compose.
      by rewrite (subdiagonal_row (S m) i), length_unit_vector.
  - intros x Hx. unfold mat_vec. cbn [fmap list_fmap]. f_equal.
    + rewrite <- Hx, dot_replicate. lia.
    + rewrite <- list_fmap_compose. replace (S m - 1)%nat with m by lia.
      rewrite <- (lookups_take m x) by lia.
      apply list_fmap_ext. intros _ i _. unfold compose.
      rewrite (subdiagonal_row (S m) i), <- Hx. apply dot_unit_vector.
Qed.

Lemma iter_seasonal_step (T : list (list Z)) (n : nat) (x : list Z) (m : nat) :
  (1 ≤ n)%nat →
  (∀ x, length x = n → mat_vec T x = (- sum_list x) :: take (n - 1) x) →
  length x = n →
  length (Nat.iter m (mat_vec T) x) = n
  ∧ full_period (Nat.iter m (mat_vec T) x) = Nat.iter m shift (full_period x).
Proof.
  intros Hn HT Hx. induction m as [|m [IHl IHp]]; [done|].
  rewrite !Nat.iter_succ, (HT _ IHl). split.
  - cbn. rewrite length_take. lia.
  - rewrite <- IHp, <- step_seasonal_full_period by lia. by rewrite IHl.
Qed.

(** Periodicity: [n + 1] steps return every state of length [n]. *)
Lemma seasonal_period (T : list (list Z)) (n : nat) (x : list Z) :
  (1 ≤ n)%nat →
  (∀ x, length x = n → mat_vec T x = (- sum_list x) :: take (n - 1) x) →
  length x = n →
  Nat.iter (S n) (mat_vec T) x = x.
Proof.
  intros Hn HT Hx.
  destruct (iter_seasonal_step T n x (S n) Hn HT Hx) as [Hl Hp].
  pose proof (iter_shift_length (full_period x)) as Hs.
  replace (length (full_period x)) with (S n) in Hs
    by (unfold full_period; rewrite length_app; cbn; lia).
  rewrite Hs in Hp. unfold full_period in Hp.
  by apply app_inj_tail in Hp as [? _].
Qed.

(** Matrix products and powers, related to repeated steps. *)

Lemma dot_vec_add (u v x : list Z) :
  length u = length v → dot (vec_add u v) x = dot u x + dot v x.
Proof.
  revert v x. induction u as [|a u IH]; intros [|b v] [|c x] Hl; try done.
  change (dot (a + b :: vec_add u v) (c :: x) = dot (a :: u) (c :: x) + dot (b :: v) (c :: x)).
  rewrite !dot_cons, IH by (cbn in Hl; lia). lia.
Qed.

Lemma dot_vec_scale (c : Z) (v x : list Z) : dot (vec_scale c v) x = c * dot v x.
Proof.
  revert x. induction v as [|b v IH]; intros [|d x]; try (cbn; lia).
  change (dot (c * b :: vec_scale c v) (d :: x) = c * dot (b :: v) (d :: x)).
  rewrite !dot_cons, IH. lia.
Qed.

Lemma dot_zeros (n : nat) (x : list Z) : dot (replicate n 0) x = 0.
Proof.
  revert x. induction n as [|n IH]; intros [|c x]; try done.
  cbn [replicate]. rewrite dot_cons, IH. lia.
Qed.

Lemma length_vec_add (u v : list Z) (n : nat) :
  length u = n → length v = n → length (vec_add u v) = n.
Proof. intros Hu Hv. unfold vec_add. rewrite length_zip_with. lia. Qed.

Lemma length_vec_scale (c : Z) (v : list Z) : length (vec_scale c v) = length v.
Proof. apply length_fmap. Qed.

Lemma length_row_times (n : nat) (r : list Z) (B : list (list Z)) :
  Forall (fun row => length row = n) B → length (row_times n r B) = n.
Proof.
  unfold row_times. revert r. induction B as [|b B IH]; intros r HB.
  - destruct r; cbn; by rewrite length_replicate.
  - destruct r as [|c r]; [cbn; by rewrite length_replicate|].
    apply Forall_cons in HB as [Hb HB]. cbn [zip_with foldr].
    apply length_vec_add; [by rewrite length_vec_scale | by apply IH].
Qed.

Lemma dot_row_times (n : nat) (r : list Z) (B : list (list Z)) (x : list Z) :
  Forall (fun row => length row = n) B →
  dot (row_times n r B) x = dot r (mat_vec B x).
Proof.
  revert r. induction B as [|b B IH]; intros r HB.
  - destruct r; cbn [row_times zip_with foldr]; unfold row_times; cbn [zip_with foldr];
      rewrite dot_zeros; [done|by rewrite dot_nil_r].
  - destruct r as [|c r]; [unfold row_times; cbn [zip_with foldr]; by rewrite dot_zeros|].
    apply Forall_cons in HB as [Hb HB].
    change (dot (vec_add (vec_scale c b) (row_times n r B)) x
            = dot (c :: r) (dot b x :: mat_vec B x)).
    rewrite dot_vec_add, dot_vec_scale, dot_cons, IH by
      (first [done | by rewrite length_vec_scale, length_row_times]).
    done.
Qed.

Lemma mat_vec_mul (n : nat) (A B : list (list Z)) (x : list Z) :
  Forall (fun row => length row = n) B →
  mat_vec (mat_mul n A B) x = mat_vec A (mat_vec B x).
Proof.
  intros HB. unfold mat_vec at 1 2, mat_mul. rewrite <- list_fmap_compose.
  apply list_fmap_ext. intros _ row _. unfold compose. by apply dot_row_times.
Qed.

Lemma square_mat_mul (n : nat) (A B : list (list Z)) :
  square n A → square n B → square n (mat_mul n A B).
Proof.
  intros [HA _] [_ HB]. split.
  - unfold mat_mul. by rewrite length_fmap.
  - unfold mat_mul. apply Forall_fmap, Forall_forall. intros row _.
    unfold compose. by apply length_row_times.
Qed.

Lemma square_identity (n : nat) : square n (identity n).
Proof.
  split.
  - unfold identity. by rewrite length_fmap, length_seq.
  - unfold identity. apply Forall_fmap, Forall_forall. intros p _.
    unfold compose. apply length_unit_vector.
Qed.

Lemma mat_vec_identity (x : list Z) : mat_vec (identity (length x)) x = x.
Proof.
  unfold mat_vec, identity. rewrite <- list_fmap_compose.
  rewrite <- (take_ge x (length x)) at 3 by lia.
  rewrite <- lookups_take by lia.
  apply list_fmap_ext. intros _ p _. unfold compose. apply dot_unit_vector.
Qed.

Lemma mat_vec_pow (n : nat) (T : list (list Z)) (k : nat) (x : list Z) :
  square n T → length x = n →
  square n (mat_pow n T k) ∧ mat_vec (mat_pow n T k) x = Nat.iter k (mat_vec T) x.
Proof.
  intros HT Hx. induction k as [|k [IHs IHv]].
  - split; [apply square_identity|]. cbn. rewrite <- Hx. apply mat_vec_identity.
  - unfold mat_pow in *. rewrite !Nat.iter_succ. split.
    + by apply square_mat_mul.
    + rewrite mat_vec_mul by apply IHs. by rewrite IHv.
Qed.

Lemma vec_ext (n : nat) (a b : list Z) :
  length a = n → length b = n →
  (∀ x, length x = n → dot a x = dot b x) → a = b.
Proof.
  intros Ha Hb Hdot. apply list_eq. intros j.
  destruct (decide (j < n)%nat) as [Hj|Hj].
  - pose proof (Hdot (unit_vector n j) (length_unit_vector n j)) as E.
    rewrite !(dot_comm _ (unit_vector n j)) in E.
    rewrite <- Ha in E at 1. rewrite <- Hb in E at 1. rewrite !dot_unit_vector in E.
    destruct (lookup_lt_is_Some_2 a j ltac:(lia)) as [u Hu].
    destruct (lookup_lt_is_Some_2 b j ltac:(lia)) as [v Hv].
    rewrite Hu, Hv in *. cbn in E. by subst.
  - by rewrite !lookup_ge_None_2 by lia.
Qed.

Lemma rows_ext (n : nat) (A B : list (list Z)) :
  length A = length B →
  Forall (fun row => length row = n) A → Forall (fun row => length row = n) B →
  (∀ x, length x = n → mat_vec A x = mat_vec B x) → A = B.
Proof.
  revert B. induction A as [|a A IH]; intros [|b B] Hl HA HB Hx; try done.
  apply Forall_cons in HA as [Ha HA]. apply Forall_cons in HB as [Hb HB].
  f_equal.
  - apply (vec_ext n); [done..|]. intros x Hlen.
    specialize (Hx x Hlen). by injection Hx.
  - apply IH; [cbn in Hl; lia|done..|]. intros x Hlen.
    specialize (Hx x Hlen). by injection Hx.
Qed.

(** A square matrix whose [k]-fold application returns every state is a
    [k]-th root of the identity. *)
Lemma mat_pow_identity (n : nat) (T : list (list Z)) (k : nat) :
  square n T →
  (∀ x, length x = n → Nat.iter k (mat_vec T) x = x) →
  mat_pow n T k = identity n.
Proof.
  intros HT Hk.
  destruct (mat_vec_pow n T k (replicate n 0) HT (length_replicate _ _)) as [[Hl Hr] _].
  destruct (square_identity n) as [Hil Hir].
  apply (rows_ext n); [lia|done..|]. intros x Hx.
  destruct (mat_vec_pow n T k x HT Hx) as [_ ->].
  rewrite (Hk x Hx). rewrite <- Hx. by rewrite mat_vec_identity.
Qed.

(** ** Evaluating the seasonal constructors *)

Ltac eval_action :=
  first [ eval_prim
        | eapply list_iadd_Some; heap_lookup
        | eapply copy_Some; heap_lookup
        | eapply dict_update_Some; heap_lookup ].

Lemma bind_assoc {A B C} (m : M A) (f : A → M B) (g : B → M C) (h : Heap) :
  bind (bind m f) g h = bind m (fun x => bind (f x) g) h.
Proof. unfold bind. by destruct (m h) as [[a|e] h']. Qed.

Lemma bind_ret {A B} (a : A) (f : A → M B) (h : Heap) : bind (ret a) f h = f a h.
Proof. reflexivity. Qed.

Ltac mrun := rewrite ?bind_assoc; erewrite bind_Ok by eval_action; heap_norm.

Lemma set_ssm_eval (self : Component.t) (key : string) (idx : list Index) (X : Tensor)
    (h : Heap) :
  key ∈ LONG_MATRIX_NAMES →
  ∃ r, PytensorRepresentation.__setitem__ (Component.ssm self) key idx X = Ok r
       ∧ set_ssm self key idx X h = (Ok (Component.set_ssm r self), h)
       ∧ PytensorRepresentation.k_states r = PytensorRepresentation.k_states (Component.ssm self)
       ∧ PytensorRepresentation.k_posdef r = PytensorRepresentation.k_posdef (Component.ssm self)
       ∧ PytensorRepresentation.k_endog r = PytensorRepresentation.k_endog (Component.ssm self).
Proof.
  unfold LONG_MATRIX_NAMES. rewrite !elem_of_cons, elem_of_nil. unfold set_ssm.
  intros [->|[->|[->|[->|[->|[->|[->|[->|[->|[]]]]]]]]]];
    (eexists; split; [reflexivity|]; split; [reflexivity|]; cbn; auto).
Qed.

Lemma set_ssm_Ok (self : Component.t) (key : string) (idx : list Index) (X : Tensor)
    (h : Heap) :
  key ∈ LONG_MATRIX_NAMES →
  set_ssm self key idx X h
  = (Ok (Component.set_ssm
           (from_Ok (Component.ssm self)
              (PytensorRepresentation.__setitem__ (Component.ssm self) key idx X)) self), h).
Proof. intros Hk. unfold set_ssm. by rewrite setitem_matrices. Qed.

(** Projections of a component record that was built by setters. *)
Ltac comp_simpl :=
  cbn [Component.name Component.k_endog Component.k_states Component.k_posdef
       Component.measurement_error Component.state_names Component.data_names
       Component.shock_names Component.param_names Component.exog_names
       Component.needs_exog_data Component.coords Component.param_dims
       Component.param_info Component.data_info Component.param_counts Component.ssm
       Component._name_to_variable Component._name_to_data Component._component_info
       Component.set_name Component.set_state_names Component.set_data_names
       Component.set_shock_names Component.set_param_names Component.set_exog_names
       Component.set_coords Component.set_param_dims Component.set_param_info
       Component.set_data_info Component.set_ssm Component.set_name_to_variable
       Component.set_name_to_data Component.set_component_info].

Ltac mssm := erewrite bind_Ok by (apply set_ssm_Ok; compute_done).

Lemma time_seasonality_eval (n : nat) (innovations : bool) (name : option string)
    (h : Heap) (T : list (list Z)) :
  (1 ≤ n)%nat →
  TimeSeasonality.transition_matrix (Z.of_nat n) true = Ok T →
  ∃ c h',
    TimeSeasonality.__init__ (Z.of_nat (S n)) innovations name None true h = (Ok c, h')
    ∧ Component.k_states (TimeSeasonality.base c) = Z.of_nat n
    ∧ PytensorRepresentation.transition (Component.ssm (TimeSeasonality.base c))
      = TSet (TZeros [1; Z.of_nat n; Z.of_nat n]) [IAll; IAll] (TArray2 T).
Proof.
  intros Hn HT. unfold TimeSeasonality.__init__.
  set (nm := default _ name).
  mrun. rewrite Nat2Z.id.
  erewrite bind_Ok.
  2:{ mrun. cbn [seq fmap list_fmap]. eapply store_Some. heap_lookup. }
  heap_norm.
  replace (Z.of_nat (S n) - 1) with (Z.of_nat n) by lia.
  unfold r_one_zeros. rewrite decide_False by lia.
  mrun.
  unfold Component.__init__, Component.default_list.
  do 5 mrun. mrun. do 7 mrun.
  unfold TimeSeasonality.populate_component_properties. comp_simpl.
  do 3 mrun. mrun. mrun. comp_simpl.
  destruct innovations.
  - do 4 mrun.
    unfold TimeSeasonality.make_symbolic_graph. comp_simpl.
    rewrite HT. mrun. rewrite ?bind_assoc. mssm. rewrite ?bind_assoc. mssm.
    unfold Component.make_and_register_variable. comp_simpl.
    mrun. rewrite decide_True by (left).
    mrun. rewrite lookup_empty. mrun. mrun.
    rewrite ?bind_assoc. mssm. rewrite ?bind_assoc. mssm. comp_simpl.
    mrun. rewrite decide_True by (right; left).
    mrun. rewrite lookup_insert_ne by (apply not_eq_sym, sigma_ne_coefs).
    rewrite lookup_empty. mrun. mrun.
    rewrite ?bind_assoc. mssm.
    mrun. mrun.
    eexists _, _. split; [reflexivity|]. split; reflexivity.
  - rewrite ?bind_assoc, bind_ret.
    unfold TimeSeasonality.make_symbolic_graph. comp_simpl.
    rewrite HT. mrun. rewrite ?bind_assoc. mssm. rewrite ?bind_assoc. mssm.
    unfold Component.make_and_register_variable. comp_simpl.
    mrun. rewrite decide_True by (left).
    mrun. rewrite lookup_empty. mrun. mrun.
    rewrite ?bind_assoc. mssm. rewrite ?bind_assoc, bind_ret.
    mrun. mrun.
    eexists _, _. split; [reflexivity|]. split; reflexivity.
Qed.

(** C3. For every [s >= 2], [TimeSeasonality(season_length=s,
    remove_first_state=True)] has [s - 1] states, and the matrix [T] that it
    assigns to the transition satisfies [T^s = I]: applying [T] for [s]
    consecutive steps (zero shocks) returns every state vector. *)
Theorem time_seasonality_periodic (s : Z) (innovations : bool) (name : option string)
    (h : Heap) :
  (2 ≤ s)%Z →
  ∃ c h' T,
    TimeSeasonality.__init__ s innovations name None true h = (Ok c, h')
    ∧ Component.k_states (TimeSeasonality.base c) = s - 1
    ∧ PytensorRepresentation.transition (Component.ssm (TimeSeasonality.base c))
      = TSet (TZeros [1; s - 1; s - 1]) [IAll; IAll] (TArray2 T)
    ∧ TimeSeasonality.transition_matrix (s - 1) true = Ok T
    ∧ mat_pow (Z.to_nat (s - 1)) T (Z.to_nat s) = identity (Z.to_nat (s - 1))
    ∧ ∀ x, length x = Z.to_nat (s - 1) → Nat.iter (Z.to_nat s) (mat_vec T) x = x.
Proof.
  intros Hs. set (n := Z.to_nat (s - 1)).
  assert (Hn : (1 ≤ n)%nat) by lia.
  assert (Es : s = Z.of_nat (S n)) by lia.
  assert (En : s - 1 = Z.of_nat n) by lia.
  destruct (seasonal_transition n Hn) as (T & HT & Hsq & Hstep).
  destruct (time_seasonality_eval n innovations name h T Hn HT) as (c & h' & Hc & Hk & Htr).
  exists c, h', T. rewrite En. replace (Z.to_nat s) with (S n) by lia.
  split; [by rewrite Es|]. split; [done|]. split; [done|]. split; [done|].
  assert (Hper : ∀ x, length x = n → Nat.iter (S n) (mat_vec T) x = x)
    by (intros x Hx; by apply (seasonal_period T n)).
  split; [by apply mat_pow_identity | exact Hper].
Qed.

Lemma time_seasonality_periodic_witness :
  ∃ c h' T,
    TimeSeasonality.__init__ 4 true None None true [] = (Ok c, h')
    ∧ Component.k_states (TimeSeasonality.base c) = 4 - 1
    ∧ PytensorRepresentation.transition (Component.ssm (TimeSeasonality.base c))
      = TSet (TZeros [1; 4 - 1; 4 - 1]) [IAll; IAll] (TArray2 T)
    ∧ TimeSeasonality.transition_matrix (4 - 1) true = Ok T
    ∧ mat_pow (Z.to_nat (4 - 1)) T (Z.to_nat 4) = identity (Z.to_nat (4 - 1))
    ∧ ∀ x, length x = Z.to_nat (4 - 1) → Nat.iter (Z.to_nat 4) (mat_vec T) x = x.
Proof. apply (time_seasonality_periodic 4 true None []). lia. Defined.

(** ** C2: frequency-domain seasonality *)









(** ** The worked example *)

(** C8: [LevelTrendComponent(order=2, innovations_order=1)] composed with
    [MeasurementError()] and then built gives a model with two states,
    whose parameter names are [initial_trend], [sigma_trend],
    [sigma_MeasurementError] and [P0] (so it contains these four, and
    nothing else), and whose state names are [level] and [trend], whatever
    the names declared for the higher derivatives and the default
    coordinates are. *)
Theorem level_trend_plus_measurement_error (D : Declarations) :
  ∃ m h,
    trend_plus_error D [] = (Ok m, h)
    ∧ StructuralTimeSeries.k_states m = 2
    ∧ names_of h (StructuralTimeSeries._param_names m)
      = ["initial_trend"; "sigma_trend"; "sigma_MeasurementError"; "P0"]
    ∧ names_of h (StructuralTimeSeries._state_names m) = ["level"; "trend"].
Proof.
  eexists _, _. split; [vm_compute; reflexivity|].
  vm_compute. auto.
Qed.

(** ** C2: the saturated frequency seasonality *)




(** ** C7: a model without shocks *)

(** The matrices of a model without shocks, and of a model with shocks,
    field by field. *)
Lemma built_ssm_deterministic (r : PytensorRepresentation.t) :
  PytensorRepresentation.k_posdef r = 0 →
  built_ssm r
  = {| PytensorRepresentation.k_endog := PytensorRepresentation.k_endog r;
       PytensorRepresentation.k_states := PytensorRepresentation.k_states r;
       PytensorRepresentation.k_posdef := 1;
       PytensorRepresentation.shapes :=
         <["selection" := [1; PytensorRepresentation.k_states r; 1]]>
           (<["state_cov" := [1; 1; 1]]> (PytensorRepresentation.shapes r));
       PytensorRepresentation.initial_state := PytensorRepresentation.initial_state r;
       PytensorRepresentation.initial_state_cov :=
         P0_placeholder (PytensorRepresentation.k_states r);
       PytensorRepresentation.state_intercept := PytensorRepresentation.state_intercept r;
       PytensorRepresentation.obs_intercept := PytensorRepresentation.obs_intercept r;
       PytensorRepresentation.transition := PytensorRepresentation.transition r;
       PytensorRepresentation.design := PytensorRepresentation.design r;
       PytensorRepresentation.selection :=
         TZeros [1; PytensorRepresentation.k_states r; 1];
       PytensorRepresentation.obs_cov := PytensorRepresentation.obs_cov r;
       PytensorRepresentation.state_cov := TZeros [1; 1; 1] |}.
Proof.
  intros E0. unfold built_ssm. rewrite decide_True by done.
  destruct r. reflexivity.
Qed.

Lemma built_ssm_stochastic (r : PytensorRepresentation.t) :
  PytensorRepresentation.k_posdef r ≠ 0 →
  built_ssm r
  = {| PytensorRepresentation.k_endog := PytensorRepresentation.k_endog r;
       PytensorRepresentation.k_states := PytensorRepresentation.k_states r;
       PytensorRepresentation.k_posdef := PytensorRepresentation.k_posdef r;
       PytensorRepresentation.shapes := PytensorRepresentation.shapes r;
       PytensorRepresentation.initial_state := PytensorRepresentation.initial_state r;
       PytensorRepresentation.initial_state_cov :=
         P0_placeholder (PytensorRepresentation.k_states r);
       PytensorRepresentation.state_intercept := PytensorRepresentation.state_intercept r;
       PytensorRepresentation.obs_intercept := PytensorRepresentation.obs_intercept r;
       PytensorRepresentation.transition := PytensorRepresentation.transition r;
       PytensorRepresentation.design := PytensorRepresentation.design r;
       PytensorRepresentation.selection := PytensorRepresentation.selection r;
       PytensorRepresentation.obs_cov := PytensorRepresentation.obs_cov r;
       PytensorRepresentation.state_cov := PytensorRepresentation.state_cov r |}.
Proof.
  intros E0. unfold built_ssm. rewrite decide_False by done.
  destruct r. reflexivity.
Qed.

(** C7 (amended). Building a well-formed component whose matrices have
    [k_posdef = 0] gives a model with [k_posdef = 1] whose state covariance
    is [zeros((1, 1, 1))] and whose selection matrix is
    [zeros((1, k_states, 1))]: one column, but as many rows as there are
    states; the registered shapes are updated to match. With
    [k_posdef > 0] both matrices, and all registered shapes, are those of
    the component. *)
Theorem build_dummy_matrices (D : Declarations) (h : Heap) (c : Component.t)
    (name : option string) :
  valid h c = true →
  entries_of h (Component._name_to_variable c) !! "P0" = None →
  ∃ m h',
    build D c name h = (Ok m, h')
    ∧ StructuralTimeSeries.k_states m = PytensorRepresentation.k_states (Component.ssm c)
    ∧ (PytensorRepresentation.k_posdef (Component.ssm c) = 0 →
       StructuralTimeSeries.k_posdef m = 1
       ∧ PytensorRepresentation.k_posdef (StructuralTimeSeries.ssm m) = 1
       ∧ PytensorRepresentation.state_cov (StructuralTimeSeries.ssm m) = TZeros [1; 1; 1]
       ∧ PytensorRepresentation.shapes (StructuralTimeSeries.ssm m) !! "state_cov"
         = Some [1; 1; 1]
       ∧ PytensorRepresentation.selection (StructuralTimeSeries.ssm m)
         = TZeros [1; StructuralTimeSeries.k_states m; 1]
       ∧ PytensorRepresentation.shapes (StructuralTimeSeries.ssm m) !! "selection"
         = Some [1; StructuralTimeSeries.k_states m; 1])
    ∧ (0 < PytensorRepresentation.k_posdef (Component.ssm c) →
       StructuralTimeSeries.k_posdef m = PytensorRepresentation.k_posdef (Component.ssm c)
       ∧ PytensorRepresentation.k_posdef (StructuralTimeSeries.ssm m)
         = PytensorRepresentation.k_posdef (Component.ssm c)
       ∧ PytensorRepresentation.state_cov (StructuralTimeSeries.ssm m)
         = PytensorRepresentation.state_cov (Component.ssm c)
       ∧ PytensorRepresentation.selection (StructuralTimeSeries.ssm m)
         = PytensorRepresentation.selection (Component.ssm c)
       ∧ PytensorRepresentation.shapes (StructuralTimeSeries.ssm m)
         = PytensorRepresentation.shapes (Component.ssm c)).
Proof.
  rewrite valid_well_formed. intros Hwf Hfree.
  eexists _, _. split; [by apply build_eval|].
  cbn [built_model StructuralTimeSeries.k_states StructuralTimeSeries.k_posdef
       StructuralTimeSeries.ssm].
  split; [reflexivity|]. split.
  - intros E0. rewrite built_ssm_deterministic by done. rewrite E0.
    cbn [PytensorRepresentation.k_posdef PytensorRepresentation.state_cov
         PytensorRepresentation.selection PytensorRepresentation.shapes].
    repeat split; try reflexivity.
    + rewrite lookup_insert_ne by done. apply lookup_insert_eq.
    + apply lookup_insert_eq.
  - intros Hpos. rewrite built_ssm_stochastic by lia.
    cbn [PytensorRepresentation.k_posdef PytensorRepresentation.state_cov
         PytensorRepresentation.selection PytensorRepresentation.shapes].
    repeat split; try reflexivity. lia.
Qed.

Lemma build_dummy_matrices_witness :
  ∃ m h',
    build sample_declarations sample_deterministic None deterministic_store = (Ok m, h')
    ∧ StructuralTimeSeries.k_states m
      = PytensorRepresentation.k_states (Component.ssm sample_deterministic)
    ∧ (PytensorRepresentation.k_posdef (Component.ssm sample_deterministic) = 0 →
       StructuralTimeSeries.k_posdef m = 1
       ∧ PytensorRepresentation.k_posdef (StructuralTimeSeries.ssm m) = 1
       ∧ PytensorRepresentation.state_cov (StructuralTimeSeries.ssm m) = TZeros [1; 1; 1]
       ∧ PytensorRepresentation.shapes (StructuralTimeSeries.ssm m) !! "state_cov"
         = Some [1; 1; 1]
       ∧ PytensorRepresentation.selection (StructuralTimeSeries.ssm m)
         = TZeros [1; StructuralTimeSeries.k_states m; 1]
       ∧ PytensorRepresentation.shapes (StructuralTimeSeries.ssm m) !! "selection"
         = Some [1; StructuralTimeSeries.k_states m; 1])
    ∧ (0 < PytensorRepresentation.k_posdef (Component.ssm sample_deterministic) →
       StructuralTimeSeries.k_posdef m
       = PytensorRepresentation.k_posdef (Component.ssm sample_deterministic)
       ∧ PytensorRepresentation.k_posdef (StructuralTimeSeries.ssm m)
         = PytensorRepresentation.k_posdef (Component.ssm sample_deterministic)
       ∧ PytensorRepresentation.state_cov (StructuralTimeSeries.ssm m)
         = PytensorRepresentation.state_cov (Component.ssm sample_deterministic)
       ∧ PytensorRepresentation.selection (StructuralTimeSeries.ssm m)
         = PytensorRepresentation.selection (Component.ssm sample_deterministic)
       ∧ PytensorRepresentation.shapes (StructuralTimeSeries.ssm m)
         = PytensorRepresentation.shapes (Component.ssm sample_deterministic)).
Proof.
  apply (build_dummy_matrices sample_declarations deterministic_store sample_deterministic
           None); vm_compute; reflexivity.
Defined.

(** C7 as stated fails: the deterministic trend
    [LevelTrendComponent(order=2, innovations_order=0)] has two states and
    no shock, and the selection matrix of the model built from it is
    [zeros((1, 2, 1))], two rows by one column, not one by one. *)
Lemma build_dummy_matrices_counterexample :
  valid deterministic_store sample_deterministic = true
  ∧ Component.k_posdef sample_deterministic = 0
  ∧ PytensorRepresentation.k_posdef (Component.ssm sample_deterministic) = 0
  ∧ ∃ m h',
      build sample_declarations sample_deterministic None deterministic_store = (Ok m, h')
      ∧ PytensorRepresentation.selection (StructuralTimeSeries.ssm m) = TZeros [1; 2; 1]
      ∧ PytensorRepresentation.shapes (StructuralTimeSeries.ssm m) !! "selection"
        = Some [1; 2; 1]
      ∧ PytensorRepresentation.selection (StructuralTimeSeries.ssm m) ≠ TZeros [1; 1; 1].
Proof.
  split; [vm_compute; reflexivity|]. split; [reflexivity|]. split; [reflexivity|].
  eexists _, _. split; [vm_compute; reflexivity|].
  split; [vm_compute; reflexivity|]. split; [vm_compute; reflexivity|].
  vm_compute. discriminate.
Qed.

(** ** C4: extraction of the interpretable series *)

Section DecompositionFacts.

Context {V : Type} (np_sum : list V → V).

Lemma table_get_elem {A} (t : list (string * A)) (k : string) (v : A) :
  NoDup t.*1 → (k, v) ∈ t → table_get k t = Some v.
Proof.
  induction t as [|[k' v'] t IH]; intros Hnd Hin.
  - by apply elem_of_nil in Hin.
  - cbn [table_get]. apply NoDup_cons in Hnd as [Hk' Hnd].
    apply elem_of_cons in Hin as [E|Hin].
    + injection E as -> ->. by rewrite decide_True.
    + rewrite decide_False; [by apply IH|].
      intros ->. apply Hk'. apply list_elem_of_fmap. by exists (k', v).
Qed.


Lemma table_at_lookup (h : Heap) (l : loc) (t : list (string * ComponentInfo)) :
  table_at h l = Some t → h !! l = Some (OTable t).
Proof. unfold table_at. destruct (h !! l) as [[]|]; congruence. Qed.

Lemma list_at_lookup (h : Heap) (l : loc) (xs : list string) :
  list_at h l = Some xs → h !! l = Some (OList xs).
Proof. unfold list_at. destruct (h !! l) as [[]|]; congruence. Qed.

Lemma state_slices_eval (m : StructuralTimeSeries.t) (h : Heap)
    (info : list (string * ComponentInfo)) :
  table_at h (StructuralTimeSeries._component_info m) = Some info →
  _state_slices_from_info m h = (Ok (state_slices_of info), h).
Proof.
  intros Hinfo. unfold _state_slices_from_info.
  erewrite bind_Ok by (apply deref_table_Some, table_at_lookup, Hinfo). reflexivity.
Qed.

Lemma get_subcomponent_names_eval (m : StructuralTimeSeries.t) (h : Heap)
    (info : list (string * ComponentInfo)) (names : list string)
    (labels : list (list string)) :
  table_at h (StructuralTimeSeries._component_info m) = Some info →
  list_at h (StructuralTimeSeries._state_names m) = Some names →
  Component.res_mapM (subcomponent_names_step info names)
    (zip (table_keys info) (state_slices_of info)) = Ok labels →
  _get_subcomponent_names m h = (Ok (concat labels), h).
Proof.
  intros Hinfo Hnames Hlabels. unfold _get_subcomponent_names.
  erewrite bind_Ok by (by apply state_slices_eval).
  erewrite bind_Ok by (apply deref_table_Some, table_at_lookup, Hinfo).
  erewrite bind_Ok by (apply deref_list_Some, list_at_lookup, Hnames).
  rewrite Hlabels. reflexivity.
Qed.

Lemma hidden_states_from_data_eval (m : StructuralTimeSeries.t) (h : Heap)
    (info : list (string * ComponentInfo)) (names : list string)
    (columns : list Column) (data : Array) :
  table_at h (StructuralTimeSeries._component_info m) = Some info →
  list_at h (StructuralTimeSeries._state_names m) = Some names →
  hidden_states_columns info names (state_slices_of info) (last_axis data) = Ok columns →
  _hidden_states_from_data np_sum m data h
  = (Ok (mkArray (removelast (shape data) ++ [Z.of_nat (length columns)])
           ((fun row => columns ≫= apply_column np_sum row) <$> rows data)), h).
Proof.
  intros Hinfo Hnames Hcolumns. unfold _hidden_states_from_data.
  erewrite bind_Ok by (by apply state_slices_eval).
  erewrite bind_Ok by (apply deref_table_Some, table_at_lookup, Hinfo).
  erewrite bind_Ok by (apply deref_list_Some, list_at_lookup, Hnames).
  rewrite Hcolumns. reflexivity.
Qed.







End DecompositionFacts.





(** * Further properties of the module *)

(** ** Registering data placeholders *)

(** [make_and_register_data(name, shape)] checks [name] against the
    component's data names, not its parameter names, and against the data
    registry: it raises [ValueError] when [name] is not a data name (the
    message still speaks of a model parameter) or is already registered as
    data; otherwise it stores the placeholder in [_name_to_data] and
    returns it, and a second call raises.  The registry of parameter
    placeholders is never read or written, so a name registered there does
    not block the registration. *)
Theorem make_and_register_data_contract
    (c : Component.t) (h : Heap) (names : list string) (registry : gmap string Val)
    (name : string) (shape : list (option Z)) (dtype : string) :
  h !! Component.data_names c = Some (OList names) →
  h !! Component._name_to_data c = Some (ODict registry) →
  (name ∉ names →
     Component.make_and_register_data c name shape dtype h
     = (Raise (ValueError (name +:+ " is not a model parameter. All placeholder variables should correspond to model parameters.")), h))
  ∧ (name ∈ names → is_Some (registry !! name) →
     ∃ msg, Component.make_and_register_data c name shape dtype h
            = (Raise (ValueError msg), h))
  ∧ (name ∈ names → registry !! name = None →
     let placeholder := TTensor name shape dtype in
     let h' := <[Component._name_to_data c :=
                   ODict (<[name := VVar placeholder]> registry)]> h in
     Component.make_and_register_data c name shape dtype h = (Ok placeholder, h')
     ∧ (∀ l, l ≠ Component._name_to_data c → h' !! l = h !! l)
     ∧ ∀ shape' dtype', ∃ msg,
         Component.make_and_register_data c name shape' dtype' h'
         = (Raise (ValueError msg), h')).
Proof.
  intros Hn Hr.
  assert (Hne : Component.data_names c ≠ Component._name_to_data c)
    by (intros E; rewrite E in Hn; congruence).
  split; [|split].
  - intros Hnot. unfold Component.make_and_register_data.
    rewrite (bind_Ok _ _ _ _ _ (deref_list_Some _ _ _ Hn)).
    destruct (decide (name ∈ names)); [contradiction | reflexivity].
  - intros Hin [v Hv]. unfold Component.make_and_register_data.
    rewrite (bind_Ok _ _ _ _ _ (deref_list_Some _ _ _ Hn)).
    destruct (decide (name ∈ names)); [|contradiction].
    rewrite (bind_Ok _ _ _ _ _ (deref_dict_Some _ _ _ Hr)), Hv. eexists. reflexivity.
  - intros Hin Hfree placeholder h'. split; [|split].
    + unfold Component.make_and_register_data.
      rewrite (bind_Ok _ _ _ _ _ (deref_list_Some _ _ _ Hn)).
      destruct (decide (name ∈ names)); [|contradiction].
      rewrite (bind_Ok _ _ _ _ _ (deref_dict_Some _ _ _ Hr)), Hfree.
      rewrite (bind_Ok _ _ _ _ _ (dict_setitem_Some _ _ _ _ _ Hr)). reflexivity.
    + intros l Hl. unfold h'. by rewrite list_lookup_insert_ne.
    + intros shape' dtype'.
      assert (Hn' : h' !! Component.data_names c = Some (OList names))
        by (unfold h'; rewrite list_lookup_insert_ne; [exact Hn | congruence]).
      assert (Hr' : h' !! Component._name_to_data c
                    = Some (ODict (<[name := VVar placeholder]> registry)))
        by (apply (lookup_heap_insert _ _ _ _ Hr)).
      unfold Component.make_and_register_data.
      rewrite (bind_Ok _ _ _ _ _ (deref_list_Some _ _ _ Hn')).
      destruct (decide (name ∈ names)); [|contradiction].
      rewrite (bind_Ok _ _ _ _ _ (deref_dict_Some _ _ _ Hr')), lookup_insert_eq.
      eexists. reflexivity.
Qed.

Lemma make_and_register_data_contract_witness :
  ("other" ∉ ["data_exog"] →
     Component.make_and_register_data with_data "other" [None; Some 1] floatX data_store
     = (Raise (ValueError ("other" +:+ " is not a model parameter. All placeholder variables should correspond to model parameters.")), data_store))
  ∧ ("other" ∈ ["data_exog"] → is_Some ((∅ : gmap string Val) !! "other") →
     ∃ msg, Component.make_and_register_data with_data "other" [None; Some 1] floatX data_store
            = (Raise (ValueError msg), data_store))
  ∧ ("other" ∈ ["data_exog"] → (∅ : gmap string Val) !! "other" = None →
     let placeholder := TTensor "other" [None; Some 1] floatX in
     let h' := <[Component._name_to_data with_data :=
                   ODict (<["other" := VVar placeholder]> ∅)]> data_store in
     Component.make_and_register_data with_data "other" [None; Some 1] floatX data_store
     = (Ok placeholder, h')
     ∧ (∀ l, l ≠ Component._name_to_data with_data → h' !! l = data_store !! l)
     ∧ ∀ shape' dtype', ∃ msg,
         Component.make_and_register_data with_data "other" shape' dtype' h'
         = (Raise (ValueError msg), h')).
Proof.
  apply (make_and_register_data_contract with_data data_store ["data_exog"] ∅ "other"
           [None; Some 1] floatX); vm_compute; reflexivity.
Defined.

(** ** When a composition returns, and how it fails *)

Lemma combine_info_loop_Ok (items acc res : list (string * ComponentInfo)) :
  Component.combine_info_loop items acc = Ok res →
  NoDup (table_keys acc) →
  NoDup (table_keys acc ++ table_keys (kept items)) ∧ res = acc ++ kept items.
Proof.
  revert acc. induction items as [|[key value] items IH]; intros acc Hres Hnd.
  - cbn in *. injection Hres as <-. by rewrite !app_nil_r.
  - rewrite kept_cons. cbn [Component.combine_info_loop] in Hres.
    destruct (String.prefix "StateSpace" key); [by apply IH|].
    destruct (decide (key ∈ table_keys acc)) as [|Hout]; [done|].
    rewrite table_set_fresh in Hres by done.
    destruct (IH _ Hres) as [Hnd' ->].
    { unfold table_keys. rewrite fmap_app. apply NoDup_app. repeat split; [done| |].
      - intros x Hx [->|[]%elem_of_nil]%elem_of_cons. done.
      - cbn. apply NoDup_singleton. }
    split; [|by rewrite <- app_assoc].
    unfold table_keys in *. by rewrite fmap_app, <- app_assoc in Hnd'.
Qed.

Lemma combine_info_loop_raises (items acc : list (string * ComponentInfo)) :
  is_Ok (Component.combine_info_loop items acc) = false →
  ∃ key, key ∈ table_keys (kept items)
         ∧ Component.combine_info_loop items acc
           = Raise (ValueError ("Found duplicate component named " +:+ key)).
Proof.
  revert acc. induction items as [|[key value] items IH]; intros acc Hres; [done|].
  rewrite kept_cons. cbn [Component.combine_info_loop] in *.
  destruct (String.prefix "StateSpace" key); [by apply IH|].
  destruct (decide (key ∈ table_keys acc)).
  - exists key. split; [left|done].
  - destruct (IH _ Hres) as (k & Hk & E). exists k. split; [by right|done].
Qed.

(** [_combine_component_info] evaluated: the two loops decide the result. *)
Lemma combine_component_info_eval (a b : Component.t) (H : Heap) (la lb : loc)
    (ta tb : list (string * ComponentInfo)) :
  Component._component_info a = Some la → H !! la = Some (OTable ta) →
  Component._component_info b = Some lb → H !! lb = Some (OTable tb) →
  Component._combine_component_info a b H
  = match Component.combine_info_loop ta [] with
    | Raise e => (Raise e, H ++ [OTable []])
    | Ok mine =>
        match Component.combine_info_loop tb mine with
        | Raise e => (Raise e, H ++ [OTable mine])
        | Ok both => (Ok (length H), H ++ [OTable both])
        end
    end.
Proof.
  intros Ea Ha Eb Hb.
  unfold Component._combine_component_info, Component.component_info_items.
  rewrite Ea, Eb. mstep. mstep.
  destruct (Component.combine_info_loop ta []) as [mine|e]; [|reflexivity].
  mstep. mstep. mstep.
  destruct (Component.combine_info_loop tb mine) as [both|e]; [|reflexivity].
  mstep. mstep. reflexivity.
Qed.

(** The names that the two operands contribute are pairwise distinct
    exactly when both loops run through. *)
Lemma combine_loops_distinct (ta tb : list (string * ComponentInfo)) :
  NoDup (table_keys (kept ta) ++ table_keys (kept tb))
  ↔ ∃ both, Component.res_bind (Component.combine_info_loop ta [])
              (Component.combine_info_loop tb) = Ok both.
Proof.
  split.
  - intros Hnd. exists ([] ++ kept ta ++ kept tb).
    rewrite (combine_info_loop_distinct _ []) by (apply NoDup_app in Hnd; apply Hnd).
    cbn [Component.res_bind app]. by apply combine_info_loop_distinct.
  - intros [both E].
    destruct (Component.combine_info_loop ta []) as [mine|] eqn:E1; [|done].
    destruct (combine_info_loop_Ok _ _ _ E1) as [Hnd1 ->]; [apply NoDup_nil_2|].
    cbn [Component.res_bind app] in *.
    by destruct (combine_info_loop_Ok _ _ _ E Hnd1) as [Hnd2 _].
Qed.

(** [a + b] up to the point where the component-info tables are merged. *)
Lemma add_reaches_info (h : Heap) (a b : Component.t) :
  well_formed h a → well_formed h b →
  Component.k_endog a = Component.k_endog b →
  (is_Ok (Component.__add__ a b h).1
   = is_Ok (Component.res_bind
              (Component.combine_info_loop (info_of h (Component._component_info a)) [])
              (Component.combine_info_loop (info_of h (Component._component_info b)))))
  ∧ ∀ e, Component.res_bind
           (Component.combine_info_loop (info_of h (Component._component_info a)) [])
           (Component.combine_info_loop (info_of h (Component._component_info b))) = Raise e →
         (Component.__add__ a b h).1 = Raise e.
Proof.
  intros Hwa Hwb Hk.
  destruct (combine_statespace_representations_ok a b Hk) as (r & Hr & _).
  destruct (wf_component_info _ _ Hwa) as (la & Ea & Hla).
  destruct (wf_component_info _ _ Hwb) as (lb & Eb & Hlb).
  destruct Hwa, Hwb.
  unfold Component.__add__.
  do 4 (erewrite bind_Ok by (eapply combine_property_list; heap_lookup); heap_norm).
  do 4 (erewrite bind_Ok by (eapply combine_property_dict; heap_lookup); heap_norm).
  erewrite bind_Ok by (eapply combine_property_list; heap_lookup); heap_norm.
  do 2 (erewrite bind_Ok by (eapply combine_property_dict; heap_lookup); heap_norm).
  rewrite (get_combined_shapes_equal _ _ Hk), Hr.
  mstep. mstep.
  erewrite bind_Ok by apply init_from_sum. heap_norm.
  rewrite bind_eq.
  erewrite (combine_component_info_eval a b _ la lb) by (done || heap_lookup).
  destruct (Component.combine_info_loop _ []) as [mine|e1]; cbn [Component.res_bind].
  2:{ split; [done|]. by intros e [= ->]. }
  destruct (Component.combine_info_loop _ mine) as [both|e2].
  2:{ split; [done|]. by intros e [= ->]. }
  split; [|done].
  unfold Component._make_combined_name, Component.component_info_items.
  cbn [Component.set_component_info Component._component_info].
  erewrite bind_Ok by (mstep; apply ret_eq).
  reflexivity.
Qed.

(** [a + b] returns exactly when the operands agree on [k_endog] and the
    component names that they contribute (those not starting with
    [StateSpace]) are pairwise distinct. *)
Theorem add_returns_iff (h : Heap) (a b : Component.t) :
  valid h a = true → valid h b = true →
  (is_Ok (Component.__add__ a b h).1 = true
   ↔ Component.k_endog a = Component.k_endog b ∧ distinct_component_names h a b = true).
Proof.
  intros Ha Hb.
  destruct (decide (Component.k_endog a = Component.k_endog b)) as [Hk|Hk].
  2:{ rewrite (add_mismatch_raises h a b Ha Hb Hk). cbn. split; [done|]. by intros [? _]. }
  rewrite valid_well_formed in Ha, Hb.
  destruct (add_reaches_info h a b Ha Hb Hk) as [-> _].
  unfold distinct_component_names. rewrite bool_decide_eq_true, combine_loops_distinct.
  split.
  - intros Hok. split; [done|].
    destruct (Component.res_bind _ _) as [both|]; [by exists both|done].
  - by intros [_ [both ->]].
Qed.

Lemma add_returns_iff_witness :
  is_Ok (Component.__add__ sample_trend sample_error sample_store).1 = true
  ↔ Component.k_endog sample_trend = Component.k_endog sample_error
    ∧ distinct_component_names sample_store sample_trend sample_error = true.
Proof.
  apply (add_returns_iff sample_store sample_trend sample_error); vm_compute; reflexivity.
Defined.

(** The two ways in which [a + b] fails, and their order: operands that
    disagree on [k_endog] raise [NotImplementedError], whatever their
    names; operands that agree on it and share a component name raise
    [ValueError] naming a component that one of them contributes. *)
Theorem add_failures (h : Heap) (a b : Component.t) :
  valid h a = true → valid h b = true →
  (Component.k_endog a ≠ Component.k_endog b →
     (Component.__add__ a b h).1
     = Raise (NotImplementedError
                "Merging elements with different numbers of observed states is not supported.>"))
  ∧ (Component.k_endog a = Component.k_endog b →
     distinct_component_names h a b = false →
     ∃ key,
       key ∈ table_keys (kept (info_of h (Component._component_info a)))
               ++ table_keys (kept (info_of h (Component._component_info b)))
       ∧ (Component.__add__ a b h).1
         = Raise (ValueError ("Found duplicate component named " +:+ key))).
Proof.
  intros Ha Hb. split; [by apply add_mismatch_raises|].
  intros Hk Hd. rewrite valid_well_formed in Ha, Hb.
  destruct (add_reaches_info h a b Ha Hb Hk) as [_ Hraise].
  apply bool_decide_eq_false in Hd. rewrite combine_loops_distinct in Hd.
  destruct (Component.combine_info_loop (info_of h (Component._component_info a)) [])
    as [mine|e] eqn:E1; cbn [Component.res_bind] in *.
  - destruct (combine_info_loop_raises (info_of h (Component._component_info b)) mine)
      as (key & Hkey & E2).
    { destruct (Component.combine_info_loop _ mine) as [both|]; [|done].
      exfalso. apply Hd. by exists both. }
    exists key. split; [apply elem_of_app; by right|]. by apply Hraise.
  - destruct (combine_info_loop_raises (info_of h (Component._component_info a)) [])
      as (key & Hkey & E2); [by rewrite E1|].
    exists key. split; [apply elem_of_app; by left|]. apply Hraise. by rewrite <- E1.
Qed.

Lemma add_failures_witness :
  (Component.k_endog first_trend ≠ Component.k_endog second_trend →
     (Component.__add__ first_trend second_trend two_trends_store).1
     = Raise (NotImplementedError
                "Merging elements with different numbers of observed states is not supported.>"))
  ∧ (Component.k_endog first_trend = Component.k_endog second_trend →
     distinct_component_names two_trends_store first_trend second_trend = false →
     ∃ key,
       key ∈ table_keys (kept (info_of two_trends_store (Component._component_info first_trend)))
               ++ table_keys (kept (info_of two_trends_store
                                      (Component._component_info second_trend)))
       ∧ (Component.__add__ first_trend second_trend two_trends_store).1
         = Raise (ValueError ("Found duplicate component named " +:+ key))).
Proof.
  apply (add_failures two_trends_store first_trend second_trend); vm_compute; reflexivity.
Defined.

(** ** What a composition holds *)

Lemma union_updated_with (d e : gmap string Val) : updated_with d e (e ∪ d).
Proof.
  intros k. rewrite lookup_union.
  by destruct (e !! k), (d !! k).
Qed.

Lemma info_of_app_plus (h new : Heap) (k : nat) :
  info_of (h ++ new) (Some (k + length h)%nat) = default [] (table_at new k).
Proof. unfold info_of. cbn. by rewrite table_at_app_plus. Qed.

(** The component that [a + b] returns: every name list is the operand
    [a]'s followed by [b]'s; every dictionary, the two registries included,
    is [a]'s updated with [b]'s, so [b] wins on a shared key; the table of
    components lists the components of [a], then those of [b]; the name
    lists them between [StateSpace[] and []]; the measurement-error flag is
    the disjunction of the operands' flags.  [needs_exog_data] is [False]
    whatever the operands need. *)
Theorem add_contents (h : Heap) (a b : Component.t) :
  valid h a = true → valid h b = true →
  Component.k_endog a = Component.k_endog b →
  distinct_component_names h a b = true →
  ∃ c h',
    Component.__add__ a b h = (Ok c, h')
    ∧ (∀ prop, prop ∈ [Component.state_names; Component.data_names; Component.shock_names;
                       Component.param_names; Component.exog_names] →
        names_of h' (prop c) = names_of h (prop a) ++ names_of h (prop b))
    ∧ (∀ prop, prop ∈ [Component.coords; Component.param_dims; Component.param_info;
                       Component.data_info; Component._name_to_variable;
                       Component._name_to_data] →
        updated_with (entries_of h (prop a)) (entries_of h (prop b)) (entries_of h' (prop c)))
    ∧ info_of h' (Component._component_info c)
      = kept (info_of h (Component._component_info a))
        ++ kept (info_of h (Component._component_info b))
    ∧ Component.name c
      = "StateSpace[" +:+ String.concat ", " (table_keys (info_of h' (Component._component_info c)))
        +:+ "]"
    ∧ Component.measurement_error c
      = Component.measurement_error a || Component.measurement_error b
    ∧ Component.needs_exog_data c = false.
Proof.
  rewrite !valid_well_formed. intros Ha Hb Hk Hd.
  destruct (combine_statespace_representations_ok a b Hk) as (r & Hr & _).
  exists (sum_component h a b r), (h ++ sum_objects h a b).
  split; [by apply add_eval|].
  assert (Hinfo : info_of (h ++ sum_objects h a b)
                    (Component._component_info (sum_component h a b r))
                  = kept (info_of h (Component._component_info a))
                    ++ kept (info_of h (Component._component_info b)))
    by exact (info_of_app_plus h (sum_objects h a b) 24).
  split; [|split; [|split; [|split]]].
  - intros prop. rewrite !elem_of_cons, elem_of_nil.
    intros [->|[->|[->|[->|[->|[]]]]]].
    + exact (names_of_app_plus h (sum_objects h a b) 0).
    + exact (names_of_app_plus h (sum_objects h a b) 1).
    + exact (names_of_app_plus h (sum_objects h a b) 3).
    + exact (names_of_app_plus h (sum_objects h a b) 2).
    + exact (names_of_app_plus h (sum_objects h a b) 8).
  - intros prop. rewrite !elem_of_cons, elem_of_nil.
    intros [->|[->|[->|[->|[->|[->|[]]]]]]].
    + rewrite (entries_of_app_plus h (sum_objects h a b) 7
               : entries_of _ (Component.coords (sum_component h a b r)) = _).
      apply union_updated_with.
    + rewrite (entries_of_app_plus h (sum_objects h a b) 6
               : entries_of _ (Component.param_dims (sum_component h a b r)) = _).
      apply union_updated_with.
    + rewrite (entries_of_app_plus h (sum_objects h a b) 4
               : entries_of _ (Component.param_info (sum_component h a b r)) = _).
      apply union_updated_with.
    + rewrite (entries_of_app_plus h (sum_objects h a b) 5
               : entries_of _ (Component.data_info (sum_component h a b r)) = _).
      apply union_updated_with.
    + rewrite (entries_of_app_plus h (sum_objects h a b) 9
               : entries_of _ (Component._name_to_variable (sum_component h a b r)) = _).
      apply union_updated_with.
    + rewrite (entries_of_app_plus h (sum_objects h a b) 10
               : entries_of _ (Component._name_to_data (sum_component h a b r)) = _).
      apply union_updated_with.
  - exact Hinfo.
  - rewrite Hinfo. reflexivity.
  - split; reflexivity.
Qed.

Lemma add_contents_witness :
  ∃ c h',
    Component.__add__ sample_trend sample_error sample_store = (Ok c, h')
    ∧ (∀ prop, prop ∈ [Component.state_names; Component.data_names; Component.shock_names;
                       Component.param_names; Component.exog_names] →
        names_of h' (prop c)
        = names_of sample_store (prop sample_trend) ++ names_of sample_store (prop sample_error))
    ∧ (∀ prop, prop ∈ [Component.coords; Component.param_dims; Component.param_info;
                       Component.data_info; Component._name_to_variable;
                       Component._name_to_data] →
        updated_with (entries_of sample_store (prop sample_trend))
          (entries_of sample_store (prop sample_error)) (entries_of h' (prop c)))
    ∧ info_of h' (Component._component_info c)
      = kept (info_of sample_store (Component._component_info sample_trend))
        ++ kept (info_of sample_store (Component._component_info sample_error))
    ∧ Component.name c
      = "StateSpace[" +:+ String.concat ", " (table_keys (info_of h' (Component._component_info c)))
        +:+ "]"
    ∧ Component.measurement_error c
      = Component.measurement_error sample_trend || Component.measurement_error sample_error
    ∧ Component.needs_exog_data c = false.
Proof.
  apply (add_contents sample_store sample_trend sample_error); vm_compute; reflexivity.
Defined.

(** ** What [build] shares with the component, and what it copies *)

Lemma entries_of_built_store D h c name (x : loc) :
  well_formed h c → is_Some (h !! x) →
  entries_of (built_base D h c name ++ built_objects D h c name) x
  = entries_of (built_base D h c name) x.
Proof.
  intros Hwf Hx. apply entries_of_app_l.
  apply lookup_lt_is_Some. rewrite length_built_base. by apply lookup_lt_is_Some.
Qed.

Lemma names_of_built_store D h c name (x : loc) :
  well_formed h c → is_Some (h !! x) →
  names_of (built_base D h c name ++ built_objects D h c name) x
  = names_of (built_names D h c) x.
Proof.
  intros Hwf Hx. rewrite names_of_app_l.
  - by apply names_of_built_base.
  - apply lookup_lt_is_Some. rewrite length_built_base. by apply lookup_lt_is_Some.
Qed.

Lemma info_of_app_l (h new : Heap) (l : loc) :
  is_Some (h !! l) → info_of (h ++ new) (Some l) = info_of h (Some l).
Proof.
  intros [o Ho]. unfold info_of, table_at. cbn.
  by rewrite (lookup_app_l_Some _ _ _ _ Ho), Ho.
Qed.

Lemma coords_built_base D h c name :
  well_formed h c →
  entries_of (built_base D h c name) (Component.coords c)
  = make_default_coords D (names_of (built_info D h c) (Component.state_names c))
      [default "data" name] (names_of (built_info D h c) (Component.shock_names c))
    ∪ entries_of h (Component.coords c).
Proof.
  intros Hwf. unfold built_base.
  eapply entries_of_insert_eq, (wf_coords _ _ (well_formed_built_info D h c Hwf)).
Qed.

(** The model that [build] returns does not copy the coordinates: its
    [_coords] is the component's own [coords] dictionary, and the default
    coordinates of the model have been merged into that dictionary in
    place, replacing entries of the component under the same key. *)
Theorem build_shares_coords (D : Declarations) (h : Heap) (c : Component.t)
    (name : option string) :
  valid h c = true →
  entries_of h (Component._name_to_variable c) !! "P0" = None →
  ∃ m h',
    build D c name h = (Ok m, h')
    ∧ StructuralTimeSeries._coords m = Component.coords c
    ∧ is_Some (h !! Component.coords c)
    ∧ updated_with (entries_of h (Component.coords c))
        (make_default_coords D (names_of h' (StructuralTimeSeries._state_names m))
           [StructuralTimeSeries._name m] (names_of h' (StructuralTimeSeries._shock_names m)))
        (entries_of h' (Component.coords c)).
Proof.
  rewrite valid_well_formed. intros Hwf Hfree.
  pose proof (well_formed_built_info D h c Hwf) as Hwf3.
  exists (built_model D h c name), (built_base D h c name ++ built_objects D h c name).
  split; [by apply build_eval|]. split; [reflexivity|].
  split; [rewrite (wf_coords _ _ Hwf); eauto|].
  rewrite entries_of_built_store by (done || (rewrite (wf_coords _ _ Hwf); eauto)).
  rewrite coords_built_base by done.
  unfold built_model. cbn [StructuralTimeSeries._state_names StructuralTimeSeries._name
                           StructuralTimeSeries._shock_names].
  rewrite <- (length_built_base D h c name).
  rewrite (names_of_app_plus (built_base D h c name) _ 0
           : names_of (_ ++ _) (length _) = _).
  rewrite (names_of_app_plus (built_base D h c name) _ 2).
  cbn [built_objects names_of list_at lookup list_lookup default from_option id].
  rewrite !(names_of_built_base D h c name) by done.
  rewrite <- !(names_of_built_info D h c) by done.
  apply union_updated_with.
Qed.

Lemma build_shares_coords_witness :
  ∃ m h',
    build sample_declarations sample_trend None sample_store = (Ok m, h')
    ∧ StructuralTimeSeries._coords m = Component.coords sample_trend
    ∧ is_Some (sample_store !! Component.coords sample_trend)
    ∧ updated_with (entries_of sample_store (Component.coords sample_trend))
        (make_default_coords sample_declarations
           (names_of h' (StructuralTimeSeries._state_names m))
           [StructuralTimeSeries._name m] (names_of h' (StructuralTimeSeries._shock_names m)))
        (entries_of h' (Component.coords sample_trend)).
Proof.
  apply (build_shares_coords sample_declarations sample_store sample_trend None);
    vm_compute; reflexivity.
Defined.

(** Everything else the model holds is a new object: its name lists, its
    [param_dims], [param_info] and [data_info], its table of components and
    its two registries did not exist before the call, and hold what the
    component's hold after it.  The one difference is the placeholder of
    [P0]: it is registered in the model's registry only, and the
    component's two registries, its [data_info] and its table of components
    are left as they were. *)
Theorem build_copies (D : Declarations) (h : Heap) (c : Component.t) (name : option string) :
  valid h c = true →
  entries_of h (Component._name_to_variable c) !! "P0" = None →
  ∃ m h',
    build D c name h = (Ok m, h')
    ∧ Forall (fun l => h !! l = None)
        [StructuralTimeSeries._state_names m; StructuralTimeSeries._data_names m;
         StructuralTimeSeries._shock_names m; StructuralTimeSeries._param_names m;
         StructuralTimeSeries._exog_names m; StructuralTimeSeries._param_dims m;
         StructuralTimeSeries._param_info m; StructuralTimeSeries._data_info m;
         StructuralTimeSeries._component_info m; StructuralTimeSeries._name_to_variable m;
         StructuralTimeSeries._name_to_data m]
    ∧ names_of h' (StructuralTimeSeries._state_names m) = names_of h' (Component.state_names c)
    ∧ names_of h' (StructuralTimeSeries._data_names m) = names_of h' (Component.data_names c)
    ∧ names_of h' (StructuralTimeSeries._shock_names m) = names_of h' (Component.shock_names c)
    ∧ names_of h' (StructuralTimeSeries._param_names m) = names_of h' (Component.param_names c)
    ∧ names_of h' (StructuralTimeSeries._exog_names m) = names_of h' (Component.exog_names c)
    ∧ entries_of h' (StructuralTimeSeries._param_dims m) = entries_of h' (Component.param_dims c)
    ∧ entries_of h' (StructuralTimeSeries._param_info m) = entries_of h' (Component.param_info c)
    ∧ entries_of h' (StructuralTimeSeries._data_info m) = entries_of h (Component.data_info c)
    ∧ info_of h' (Some (StructuralTimeSeries._component_info m))
      = info_of h (Component._component_info c)
    ∧ entries_of h' (StructuralTimeSeries._name_to_variable m)
      = <["P0" := VVar (TTensor "P0" [Some (StructuralTimeSeries.k_states m);
                                      Some (StructuralTimeSeries.k_states m)] floatX)]>
          (entries_of h (Component._name_to_variable c))
    ∧ entries_of h' (StructuralTimeSeries._name_to_data m)
      = entries_of h (Component._name_to_data c)
    ∧ entries_of h' (Component._name_to_variable c) = entries_of h (Component._name_to_variable c)
    ∧ entries_of h' (Component._name_to_data c) = entries_of h (Component._name_to_data c)
    ∧ entries_of h' (Component.data_info c) = entries_of h (Component.data_info c)
    ∧ info_of h' (Component._component_info c) = info_of h (Component._component_info c)
    ∧ StructuralTimeSeries._needs_exog_data m
      = bool_decide (names_of h' (Component.exog_names c) ≠ []).
Proof.
  rewrite valid_well_formed. intros Hwf Hfree.
  pose proof (well_formed_built_base D h c name Hwf) as Hwf4.
  destruct (separate_dicts h c Hwf) as (?&?&?&?&?&?&?&?&?&?&?&?&?&?&?).
  destruct (wf_component_info _ _ Hwf) as (lci & Eci & Hci).
  assert (Hsome : ∀ l, l ∈ references c → is_Some (h !! l))
    by (intros l; by apply references_allocated).
  assert (Hstore : ∀ x, is_Some (h !! x) →
            entries_of (built_base D h c name ++ built_objects D h c name) x
            = entries_of (built_base D h c name) x)
    by (intros; by apply entries_of_built_store).
  assert (Hnames : ∀ x, is_Some (h !! x) →
            names_of (built_base D h c name ++ built_objects D h c name) x
            = names_of (built_base D h c name) x).
  { intros x Hx. rewrite names_of_built_store by done. by rewrite names_of_built_base. }
  assert (Hdi : entries_of (built_base D h c name) (Component.data_info c)
                = entries_of h (Component.data_info c)).
  { rewrite entries_of_built_base_ne by done. by apply entries_of_built_info_other. }
  assert (Hnv : entries_of (built_base D h c name) (Component._name_to_variable c)
                = entries_of h (Component._name_to_variable c)).
  { rewrite entries_of_built_base_ne by done. by apply entries_of_built_info_other. }
  assert (Hnd : entries_of (built_base D h c name) (Component._name_to_data c)
                = entries_of h (Component._name_to_data c)).
  { rewrite entries_of_built_base_ne by done. by apply entries_of_built_info_other. }
  assert (Hinfo : info_of (built_base D h c name ++ built_objects D h c name)
                     (Component._component_info c)
                   = info_of h (Component._component_info c)).
  { rewrite <- (info_of_built_base D h c name Hwf). rewrite Eci. apply info_of_app_l.
    apply lookup_lt_is_Some. rewrite length_built_base. apply lookup_lt_is_Some.
    rewrite Hci. eauto. }
  exists (built_model D h c name), (built_base D h c name ++ built_objects D h c name).
  split; [by apply build_eval|].
  split.
  { unfold built_model. cbn [StructuralTimeSeries._state_names StructuralTimeSeries._data_names
      StructuralTimeSeries._shock_names StructuralTimeSeries._param_names
      StructuralTimeSeries._exog_names StructuralTimeSeries._param_dims
      StructuralTimeSeries._param_info StructuralTimeSeries._data_info
      StructuralTimeSeries._component_info StructuralTimeSeries._name_to_variable
      StructuralTimeSeries._name_to_data].
    repeat (apply Forall_cons; split; [apply lookup_ge_None_2; lia|]). apply Forall_nil_2. }
  unfold built_model. cbn [StructuralTimeSeries._state_names StructuralTimeSeries._data_names
      StructuralTimeSeries._shock_names StructuralTimeSeries._param_names
      StructuralTimeSeries._exog_names StructuralTimeSeries._param_dims
      StructuralTimeSeries._param_info StructuralTimeSeries._data_info
      StructuralTimeSeries._component_info StructuralTimeSeries._name_to_variable
      StructuralTimeSeries._name_to_data StructuralTimeSeries._needs_exog_data
      StructuralTimeSeries.k_states].
  rewrite <- !(length_built_base D h c name).
  rewrite (names_of_app_plus (built_base D h c name) _ 0
           : names_of (_ ++ _) (length _) = _).
  rewrite (names_of_app_plus (built_base D h c name) _ 1),
    (names_of_app_plus (built_base D h c name) _ 2),
    (names_of_app_plus (built_base D h c name) _ 3),
    (names_of_app_plus (built_base D h c name) _ 10),
    (entries_of_app_plus (built_base D h c name) _ 4),
    (entries_of_app_plus (built_base D h c name) _ 5),
    (entries_of_app_plus (built_base D h c name) _ 6),
    (entries_of_app_plus (built_base D h c name) _ 8),
    (entries_of_app_plus (built_base D h c name) _ 9),
    (info_of_app_plus (built_base D h c name) _ 7).
  rewrite !Hnames, !Hstore, Hdi, Hnv, Hnd
    by (apply Hsome; unfold references, list_attributes, dict_attributes;
        rewrite ?Eci; cbn; rewrite !elem_of_cons; tauto).
  rewrite Hinfo.
  cbn [built_objects names_of entries_of list_at dict_at table_at lookup list_lookup
       default from_option id].
  rewrite Hdi, Hnv, Hnd, info_of_built_base by done.
  repeat (split; [reflexivity|]).
  apply bool_decide_ext. destruct (names_of _ (Component.exog_names c)); cbn; [|split; [done|lia]].
  split; [lia|done].
Qed.

Lemma build_copies_witness :
  ∃ m h',
    build sample_declarations sample_trend None sample_store = (Ok m, h')
    ∧ Forall (fun l => sample_store !! l = None)
        [StructuralTimeSeries._state_names m; StructuralTimeSeries._data_names m;
         StructuralTimeSeries._shock_names m; StructuralTimeSeries._param_names m;
         StructuralTimeSeries._exog_names m; StructuralTimeSeries._param_dims m;
         StructuralTimeSeries._param_info m; StructuralTimeSeries._data_info m;
         StructuralTimeSeries._component_info m; StructuralTimeSeries._name_to_variable m;
         StructuralTimeSeries._name_to_data m]
    ∧ names_of h' (StructuralTimeSeries._state_names m) = names_of h' (Component.state_names sample_trend)
    ∧ names_of h' (StructuralTimeSeries._data_names m) = names_of h' (Component.data_names sample_trend)
    ∧ names_of h' (StructuralTimeSeries._shock_names m) = names_of h' (Component.shock_names sample_trend)
    ∧ names_of h' (StructuralTimeSeries._param_names m) = names_of h' (Component.param_names sample_trend)
    ∧ names_of h' (StructuralTimeSeries._exog_names m) = names_of h' (Component.exog_names sample_trend)
    ∧ entries_of h' (StructuralTimeSeries._param_dims m) = entries_of h' (Component.param_dims sample_trend)
    ∧ entries_of h' (StructuralTimeSeries._param_info m) = entries_of h' (Component.param_info sample_trend)
    ∧ entries_of h' (StructuralTimeSeries._data_info m) = entries_of sample_store (Component.data_info sample_trend)
    ∧ info_of h' (Some (StructuralTimeSeries._component_info m))
      = info_of sample_store (Component._component_info sample_trend)
    ∧ entries_of h' (StructuralTimeSeries._name_to_variable m)
      = <["P0" := VVar (TTensor "P0" [Some (StructuralTimeSeries.k_states m);
                                      Some (StructuralTimeSeries.k_states m)] floatX)]>
          (entries_of sample_store (Component._name_to_variable sample_trend))
    ∧ entries_of h' (StructuralTimeSeries._name_to_data m)
      = entries_of sample_store (Component._name_to_data sample_trend)
    ∧ entries_of h' (Component._name_to_variable sample_trend) = entries_of sample_store (Component._name_to_variable sample_trend)
    ∧ entries_of h' (Component._name_to_data sample_trend) = entries_of sample_store (Component._name_to_data sample_trend)
    ∧ entries_of h' (Component.data_info sample_trend) = entries_of sample_store (Component.data_info sample_trend)
    ∧ info_of h' (Component._component_info sample_trend) = info_of sample_store (Component._component_info sample_trend)
    ∧ StructuralTimeSeries._needs_exog_data m
      = bool_decide (names_of h' (Component.exog_names sample_trend) ≠ []).
Proof.
  apply (build_copies sample_declarations sample_store sample_trend None);
    vm_compute; reflexivity.
Defined.

(** ** When [build] returns *)

(** [build] on a component whose own registry already holds a placeholder
    under ["P0"]: the registration of the model's [P0] raises, after the
    component has been changed. *)
Lemma build_registered_P0 D h c name (v : Val) :
  well_formed h c →
  entries_of h (Component._name_to_variable c) !! "P0" = Some v →
  ∃ new,
    build D c name h
    = (Raise (ValueError ("P0" +:+ " is already a registered placeholder variable with shape "
                            +:+ Component.registered_shape v)),
       built_base D h c name ++ new).
Proof.
  intros Hwf Hreg.
  pose proof (well_formed_built_info D h c Hwf) as Hwf3.
  pose proof (well_formed_built_base D h c name Hwf) as Hwf4.
  destruct (separate_dicts h c Hwf) as (?&?&?&?&?&?&?&?&?&?&?&?&?&?&?).
  destruct (wf_component_info _ _ Hwf4) as (lci & Eci & Hci).
  assert (Hpn : names_of (built_info D h c) (Component.param_names c)
                = names_of h (Component.param_names c) ++ ["P0"]).
  { rewrite names_of_built_info by done. unfold built_names.
    eapply names_of_insert_eq, (wf_param_names _ _ Hwf). }
  assert (Hnv : entries_of (built_base D h c name) (Component._name_to_variable c)
                = entries_of h (Component._name_to_variable c)).
  { rewrite entries_of_built_base_ne by done. by apply entries_of_built_info_other. }
  unfold build. rewrite Eci. unfold StructuralTimeSeries.__init__.
  erewrite bind_Ok by (apply add_initial_state_cov_eval, Hwf).
  destruct Hwf3.
  do 5 (erewrite bind_Ok by (eapply copy_Some; heap_lookup); heap_norm).
  mstep. mstep.
  erewrite bind_Ok by (eapply dict_update_Some; heap_lookup).
  rewrite insert_app_l by (eapply lookup_lt_Some; eassumption).
  rewrite (entries_of_built_info_other D h c (Component.coords c)) by done.
  fold (built_base D h c name).
  destruct Hwf4.
  do 2 (erewrite bind_Ok by (eapply copy_Some; heap_lookup); heap_norm).
  lazymatch goal with
  | |- context [bind (if decide ?P then ?m1 else ?m2) _] =>
      assert (Hssm : ∃ r, ∀ H', (if decide P then m1 else m2) H' = (Ok r, H'))
  end.
  { destruct (decide (PytensorRepresentation.k_posdef (Component.ssm c) = 0));
      eexists; intros H'; [|apply ret_eq].
    erewrite bind_Ok by (rewrite setitem_matrices by compute_done; apply lift_Ok).
    rewrite setitem_matrices by compute_done. apply lift_Ok. }
  destruct Hssm as [r Hssm]. erewrite bind_Ok by apply Hssm.
  do 4 (erewrite bind_Ok by (eapply copy_Some; heap_lookup); heap_norm).
  mstep.
  rewrite Hpn, Hnv.
  unfold StructuralTimeSeries.make_and_register_variable.
  erewrite bind_Raise.
  2:{ mstep. rewrite decide_True by (apply elem_of_app; right; left).
      mstep. rewrite Hreg. reflexivity. }
  eexists. reflexivity.
Qed.

(** For a well-formed component, [build] returns exactly when the
    component has no placeholder registered under ["P0"]; when it has one,
    [build] raises [ValueError], and ["P0"] has nevertheless been appended
    to the component's parameter names and entered in its [param_dims]. *)
Theorem build_returns_iff (D : Declarations) (h : Heap) (c : Component.t)
    (name : option string) :
  valid h c = true →
  (is_Ok (build D c name h).1 = true
   ↔ entries_of h (Component._name_to_variable c) !! "P0" = None)
  ∧ (is_Ok (build D c name h).1 = false →
     (∃ msg, (build D c name h).1 = Raise (ValueError msg))
     ∧ names_of (build D c name h).2 (Component.param_names c)
       = names_of h (Component.param_names c) ++ ["P0"]
     ∧ entries_of (build D c name h).2 (Component.param_dims c) !! "P0"
       = Some (VDims (P0_dims D))).
Proof.
  rewrite valid_well_formed. intros Hwf.
  destruct (entries_of h (Component._name_to_variable c) !! "P0") as [v|] eqn:Hreg.
  - destruct (build_registered_P0 D h c name v Hwf Hreg) as [new ->]. cbn [fst snd is_Ok].
    split; [done|]. intros _. split; [eauto|].
    pose proof (well_formed_built_base D h c name Hwf) as Hwf4.
    destruct (separate_dicts h c Hwf) as (?&?&?&?&?&?&?&?&?&?&?&?&?&?&?).
    rewrite names_of_app_l by (rewrite (wf_param_names _ _ Hwf4); eauto).
    rewrite entries_of_app_l by (rewrite (wf_param_dims _ _ Hwf4); eauto).
    split; [by apply param_names_built_base|].
    rewrite entries_of_built_base_ne by done. rewrite param_dims_built_info by done.
    apply lookup_insert_eq.
  - rewrite (build_eval D h c name Hwf Hreg). cbn [fst is_Ok]. split; [done|]. done.
Qed.

Lemma build_returns_iff_witness :
  (is_Ok (build sample_declarations with_P0 None P0_store).1 = true
   ↔ entries_of P0_store (Component._name_to_variable with_P0) !! "P0" = None)
  ∧ (is_Ok (build sample_declarations with_P0 None P0_store).1 = false →
     (∃ msg, (build sample_declarations with_P0 None P0_store).1 = Raise (ValueError msg))
     ∧ names_of (build sample_declarations with_P0 None P0_store).2
         (Component.param_names with_P0)
       = names_of P0_store (Component.param_names with_P0) ++ ["P0"]
     ∧ entries_of (build sample_declarations with_P0 None P0_store).2
         (Component.param_dims with_P0) !! "P0"
       = Some (VDims (P0_dims sample_declarations))).
Proof.
  apply (build_returns_iff sample_declarations P0_store with_P0 None).
  vm_compute. reflexivity.
Defined.

(** ** Repeated composition *)

Lemma kept_app (s t : list (string * ComponentInfo)) : kept (s ++ t) = kept s ++ kept t.
Proof. unfold kept. apply List.filter_app. Qed.

Lemma kept_kept (t : list (string * ComponentInfo)) : kept (kept t) = kept t.
Proof.
  unfold kept. induction t as [|kv t IH]; [done|].
  cbn [List.filter]. destruct (negb _) eqn:E; [|done].
  cbn [List.filter]. by rewrite E, IH.
Qed.

Lemma contents_sum (h : Heap) (a b : Component.t) (r : PytensorRepresentation.t) :
  contents (h ++ sum_objects h a b) (sum_component h a b r)
  = (combined_name (kept (info_of h (Component._component_info a))
                      ++ kept (info_of h (Component._component_info b))),
     1, Component.k_states a + Component.k_states b,
     Component.k_posdef a + Component.k_posdef b,
     Component.measurement_error a || Component.measurement_error b,
     zip_with app (names_of h <$> list_attributes a) (names_of h <$> list_attributes b),
     zip_with (fun d e => e ∪ d) (entries_of h <$> dict_attributes a)
       (entries_of h <$> dict_attributes b),
     kept (info_of h (Component._component_info a))
       ++ kept (info_of h (Component._component_info b))).
Proof.
  unfold contents, list_attributes, dict_attributes, sum_component.
  cbn [Component.name Component.k_endog Component.k_states Component.k_posdef
       Component.measurement_error Component.state_names Component.data_names
       Component.shock_names Component.param_names Component.exog_names Component.coords
       Component.param_dims Component.param_info Component.data_info
       Component._name_to_variable Component._name_to_data Component._component_info
       fmap list_fmap zip_with].
  rewrite (names_of_app_plus h _ 0 : names_of (_ ++ _) (length _) = _).
  rewrite !names_of_app_plus, !entries_of_app_plus, info_of_app_plus. reflexivity.
Qed.

Lemma contents_app (h new : Heap) (c : Component.t) :
  well_formed h c → contents (h ++ new) c = contents h c.
Proof.
  intros Hwf.
  assert (Hsome : ∀ l, l ∈ references c → is_Some (h !! l))
    by (intros l; by apply references_allocated).
  destruct (wf_component_info _ _ Hwf) as (lci & Eci & Hci).
  unfold contents, list_attributes, dict_attributes. cbn [fmap list_fmap].
  rewrite !names_of_app_l, !entries_of_app_l
    by (apply Hsome; unfold references, list_attributes, dict_attributes;
        cbn; rewrite !elem_of_cons; tauto).
  rewrite Eci, info_of_app_l by (rewrite Hci; eauto). reflexivity.
Qed.

Lemma info_sum (h : Heap) (a b : Component.t) (r : PytensorRepresentation.t) :
  info_of (h ++ sum_objects h a b) (Component._component_info (sum_component h a b r))
  = kept (info_of h (Component._component_info a))
    ++ kept (info_of h (Component._component_info b)).
Proof. exact (f_equal snd (contents_sum h a b r)). Qed.

Lemma info_app (h new : Heap) (c : Component.t) :
  well_formed h c →
  info_of (h ++ new) (Component._component_info c) = info_of h (Component._component_info c).
Proof. intros Hwf. exact (f_equal snd (contents_app h new c Hwf)). Qed.

Lemma names_sum (h : Heap) (a b : Component.t) (r : PytensorRepresentation.t)
    (prop : Component.t → loc) :
  prop ∈ [Component.state_names; Component.data_names; Component.shock_names;
          Component.param_names; Component.exog_names] →
  names_of (h ++ sum_objects h a b) (prop (sum_component h a b r))
  = names_of h (prop a) ++ names_of h (prop b).
Proof.
  rewrite !elem_of_cons, elem_of_nil. intros [->|[->|[->|[->|[->|[]]]]]].
  - exact (names_of_app_plus h (sum_objects h a b) 0).
  - exact (names_of_app_plus h (sum_objects h a b) 1).
  - exact (names_of_app_plus h (sum_objects h a b) 3).
  - exact (names_of_app_plus h (sum_objects h a b) 2).
  - exact (names_of_app_plus h (sum_objects h a b) 8).
Qed.

Lemma names_app (h new : Heap) (c : Component.t) (prop : Component.t → loc) :
  well_formed h c →
  prop ∈ [Component.state_names; Component.data_names; Component.shock_names;
          Component.param_names; Component.exog_names] →
  names_of (h ++ new) (prop c) = names_of h (prop c).
Proof.
  intros Hwf Hp. apply names_of_app_l, (references_allocated h c); [done|].
  unfold references, list_attributes. apply elem_of_app. left.
  revert Hp. rewrite !elem_of_cons, !elem_of_nil.
  intros [->|[->|[->|[->|[->|[]]]]]]; tauto.
Qed.

(** Two compositions in a row, evaluated: [(x + y) + z] when [z] has
    [k_endog = 1], the value that a sum is given. *)
Lemma add_add_eval (h : Heap) (x y z : Component.t) :
  well_formed h x → well_formed h y → well_formed h z →
  Component.k_endog x = Component.k_endog y → Component.k_endog z = 1 →
  NoDup (table_keys (kept (info_of h (Component._component_info x))
                       ++ kept (info_of h (Component._component_info y))
                       ++ kept (info_of h (Component._component_info z)))) →
  ∃ r1 r2,
    let xy := sum_component h x y r1 in
    let h1 := h ++ sum_objects h x y in
    Component.__add__ x y h = (Ok xy, h1)
    ∧ Component.__add__ xy z h1 = (Ok (sum_component h1 xy z r2), h1 ++ sum_objects h1 xy z)
    ∧ well_formed h1 xy ∧ well_formed h1 z.
Proof.
  intros Hx Hy Hz Hk Hkz Hnd.
  destruct (combine_statespace_representations_ok x y Hk) as (r1 & Hr1 & _).
  set (xy := sum_component h x y r1). set (h1 := h ++ sum_objects h x y).
  assert (Hxy : well_formed h1 xy) by apply valid_well_formed, valid_sum.
  assert (Hz1 : well_formed h1 z) by by apply well_formed_app.
  assert (Hk1 : Component.k_endog xy = Component.k_endog z) by by rewrite Hkz.
  destruct (combine_statespace_representations_ok xy z Hk1) as (r2 & Hr2 & _).
  unfold table_keys in Hnd. rewrite !fmap_app in Hnd.
  exists r1, r2. cbv zeta. fold xy h1.
  split; [|split; [|done]].
  - apply add_eval; [done..| |done]. apply bool_decide_eq_true.
    unfold table_keys. rewrite app_assoc in Hnd. by apply NoDup_app in Hnd as [? _].
  - apply add_eval; [done..| |done]. apply bool_decide_eq_true.
    unfold h1, xy. rewrite info_sum, info_app by done.
    rewrite kept_app, !kept_kept. unfold table_keys. by rewrite !fmap_app, <- app_assoc.
Qed.

(** Composition flattens: the table of components of [(a + b) + c] lists
    the components of [a], of [b] and of [c], and its name lists their
    names between one pair of brackets; states and shocks add up and the
    name lists are concatenated in this order. *)
Theorem add_flattens (h : Heap) (a b c : Component.t) :
  valid h a = true → valid h b = true → valid h c = true →
  Component.k_endog a = Component.k_endog b → Component.k_endog c = 1 →
  NoDup (table_keys (kept (info_of h (Component._component_info a))
                       ++ kept (info_of h (Component._component_info b))
                       ++ kept (info_of h (Component._component_info c)))) →
  ∃ ab h1 abc h2,
    Component.__add__ a b h = (Ok ab, h1)
    ∧ Component.__add__ ab c h1 = (Ok abc, h2)
    ∧ info_of h2 (Component._component_info abc)
      = kept (info_of h (Component._component_info a))
        ++ kept (info_of h (Component._component_info b))
        ++ kept (info_of h (Component._component_info c))
    ∧ Component.name abc = combined_name (info_of h2 (Component._component_info abc))
    ∧ Component.k_states abc
      = Component.k_states a + Component.k_states b + Component.k_states c
    ∧ Component.k_posdef abc
      = Component.k_posdef a + Component.k_posdef b + Component.k_posdef c
    ∧ ∀ prop, prop ∈ [Component.state_names; Component.data_names; Component.shock_names;
                      Component.param_names; Component.exog_names] →
        names_of h2 (prop abc)
        = names_of h (prop a) ++ names_of h (prop b) ++ names_of h (prop c).
Proof.
  rewrite !valid_well_formed. intros Ha Hb Hc Hk Hkc Hnd.
  destruct (add_add_eval h a b c Ha Hb Hc Hk Hkc Hnd) as (r1 & r2 & E1 & E2 & Hab & Hc1).
  cbv zeta in *.
  eexists _, _, _, _. split; [exact E1|]. split; [exact E2|].
  assert (Hinfo : info_of ((h ++ sum_objects h a b)
                             ++ sum_objects (h ++ sum_objects h a b) (sum_component h a b r1) c)
                    (Component._component_info
                       (sum_component (h ++ sum_objects h a b) (sum_component h a b r1) c r2))
                  = kept (info_of h (Component._component_info a))
                    ++ kept (info_of h (Component._component_info b))
                    ++ kept (info_of h (Component._component_info c))).
  { rewrite info_sum, info_sum, info_app by done.
    by rewrite kept_app, !kept_kept, <- app_assoc. }
  split; [exact Hinfo|]. split; [by rewrite info_sum|].
  split; [reflexivity|]. split; [reflexivity|].
  intros prop Hp. rewrite names_sum, names_sum, names_app by done.
  by rewrite <- app_assoc.
Qed.

Lemma add_flattens_witness :
  ∃ ab h1 abc h2,
    Component.__add__ the_trend the_season three_store = (Ok ab, h1)
    ∧ Component.__add__ ab the_error h1 = (Ok abc, h2)
    ∧ info_of h2 (Component._component_info abc)
      = kept (info_of three_store (Component._component_info the_trend))
        ++ kept (info_of three_store (Component._component_info the_season))
        ++ kept (info_of three_store (Component._component_info the_error))
    ∧ Component.name abc = combined_name (info_of h2 (Component._component_info abc))
    ∧ Component.k_states abc
      = Component.k_states the_trend + Component.k_states the_season + Component.k_states the_error
    ∧ Component.k_posdef abc
      = Component.k_posdef the_trend + Component.k_posdef the_season + Component.k_posdef the_error
    ∧ ∀ prop, prop ∈ [Component.state_names; Component.data_names; Component.shock_names;
                      Component.param_names; Component.exog_names] →
        names_of h2 (prop abc)
        = names_of three_store (prop the_trend) ++ names_of three_store (prop the_season) ++ names_of three_store (prop the_error).
Proof.
  apply (add_flattens three_store the_trend the_season the_error);
    first [vm_compute; reflexivity | apply (bool_decide_unpack _); vm_compute; exact I].
Defined.

Lemma entries_sum (h : Heap) (a b : Component.t) (r : PytensorRepresentation.t)
    (prop : Component.t → loc) :
  prop ∈ [Component.coords; Component.param_dims; Component.param_info; Component.data_info;
          Component._name_to_variable; Component._name_to_data] →
  entries_of (h ++ sum_objects h a b) (prop (sum_component h a b r))
  = entries_of h (prop b) ∪ entries_of h (prop a).
Proof.
  rewrite !elem_of_cons, elem_of_nil. intros [->|[->|[->|[->|[->|[->|[]]]]]]].
  - exact (entries_of_app_plus h (sum_objects h a b) 7).
  - exact (entries_of_app_plus h (sum_objects h a b) 6).
  - exact (entries_of_app_plus h (sum_objects h a b) 4).
  - exact (entries_of_app_plus h (sum_objects h a b) 5).
  - exact (entries_of_app_plus h (sum_objects h a b) 9).
  - exact (entries_of_app_plus h (sum_objects h a b) 10).
Qed.

Lemma entries_app (h new : Heap) (c : Component.t) (prop : Component.t → loc) :
  well_formed h c →
  prop ∈ [Component.coords; Component.param_dims; Component.param_info; Component.data_info;
          Component._name_to_variable; Component._name_to_data] →
  entries_of (h ++ new) (prop c) = entries_of h (prop c).
Proof.
  intros Hwf Hp. apply entries_of_app_l, (references_allocated h c); [done|].
  unfold references, dict_attributes. apply elem_of_app. right. apply elem_of_app. left.
  revert Hp. rewrite !elem_of_cons, !elem_of_nil.
  intros [->|[->|[->|[->|[->|[->|[]]]]]]]; tauto.
Qed.

(** [x + (y + z)] evaluated, when [x] has [k_endog = 1]. *)
Lemma add_add_eval_r (h : Heap) (x y z : Component.t) :
  well_formed h x → well_formed h y → well_formed h z →
  Component.k_endog x = 1 → Component.k_endog y = Component.k_endog z →
  NoDup (table_keys (kept (info_of h (Component._component_info x))
                       ++ kept (info_of h (Component._component_info y))
                       ++ kept (info_of h (Component._component_info z)))) →
  ∃ r1 r2,
    let yz := sum_component h y z r1 in
    let h1 := h ++ sum_objects h y z in
    Component.__add__ y z h = (Ok yz, h1)
    ∧ Component.__add__ x yz h1 = (Ok (sum_component h1 x yz r2), h1 ++ sum_objects h1 x yz)
    ∧ well_formed h1 yz ∧ well_formed h1 x.
Proof.
  intros Hx Hy Hz Hkx Hk Hnd.
  destruct (combine_statespace_representations_ok y z Hk) as (r1 & Hr1 & _).
  set (yz := sum_component h y z r1). set (h1 := h ++ sum_objects h y z).
  assert (Hyz : well_formed h1 yz) by apply valid_well_formed, valid_sum.
  assert (Hx1 : well_formed h1 x) by by apply well_formed_app.
  assert (Hk1 : Component.k_endog x = Component.k_endog yz) by by rewrite Hkx.
  destruct (combine_statespace_representations_ok x yz Hk1) as (r2 & Hr2 & _).
  unfold table_keys in Hnd. rewrite !fmap_app in Hnd.
  exists r1, r2. cbv zeta. fold yz h1.
  split; [|split; [|done]].
  - apply add_eval; [done..| |done]. apply bool_decide_eq_true.
    unfold table_keys. by apply NoDup_app in Hnd as (_ & _ & ?).
  - apply add_eval; [done..| |done]. apply bool_decide_eq_true.
    unfold h1, yz. rewrite info_sum, info_app by done.
    rewrite kept_app, !kept_kept. unfold table_keys. by rewrite !fmap_app.
Qed.

Lemma name_sum (h : Heap) (a b : Component.t) (r : PytensorRepresentation.t) :
  Component.name (sum_component h a b r)
  = combined_name (kept (info_of h (Component._component_info a))
                     ++ kept (info_of h (Component._component_info b))).
Proof. reflexivity. Qed.

Ltac in_list := repeat first [apply list_elem_of_here | apply list_elem_of_further].

(** Composition is associative in what a component holds: for components
    with [k_endog = 1] and pairwise distinct names, [(a + b) + c] and
    [a + (b + c)] have the same name, the same dimensions, the same name
    lists, the same dictionaries and the same table of components.  (Their
    matrices are nested differently.) *)
Theorem add_associative (h : Heap) (a b c : Component.t) :
  valid h a = true → valid h b = true → valid h c = true →
  Component.k_endog a = 1 → Component.k_endog b = 1 → Component.k_endog c = 1 →
  NoDup (table_keys (kept (info_of h (Component._component_info a))
                       ++ kept (info_of h (Component._component_info b))
                       ++ kept (info_of h (Component._component_info c)))) →
  ∃ ab h1 abc h2 bc h1' abc' h2',
    Component.__add__ a b h = (Ok ab, h1)
    ∧ Component.__add__ ab c h1 = (Ok abc, h2)
    ∧ Component.__add__ b c h = (Ok bc, h1')
    ∧ Component.__add__ a bc h1' = (Ok abc', h2')
    ∧ contents h2 abc = contents h2' abc'.
Proof.
  rewrite !valid_well_formed. intros Ha Hb Hc Hka Hkb Hkc Hnd.
  destruct (add_add_eval h a b c Ha Hb Hc ltac:(congruence) Hkc Hnd)
    as (r1 & r2 & E1 & E2 & _ & _).
  destruct (add_add_eval_r h a b c Ha Hb Hc Hka ltac:(congruence) Hnd)
    as (r3 & r4 & E3 & E4 & _ & _).
  cbv zeta in *.
  eexists _, _, _, _, _, _, _, _.
  split; [exact E1|]. split; [exact E2|]. split; [exact E3|]. split; [exact E4|].
  unfold contents, list_attributes, dict_attributes. cbn [fmap list_fmap].
  rewrite !info_sum, !info_app by done.
  rewrite !names_sum, !names_app by (done || in_list).
  rewrite !entries_sum, !entries_app by (done || in_list).
  rewrite !kept_app, !kept_kept.
  rewrite <- !(assoc_L (++)), !(assoc_L (∪)).
  rewrite !name_sum, !info_sum, !info_app, !kept_app, !kept_kept, <- !(assoc_L (++)) by done.
  unfold sum_component.
  cbn [Component.k_endog Component.k_states Component.k_posdef Component.measurement_error].
  rewrite !Z.add_assoc, !orb_assoc. reflexivity.
Qed.

Lemma add_associative_witness :
  ∃ ab h1 abc h2 bc h1' abc' h2',
    Component.__add__ the_trend the_season three_store = (Ok ab, h1)
    ∧ Component.__add__ ab the_error h1 = (Ok abc, h2)
    ∧ Component.__add__ the_season the_error three_store = (Ok bc, h1')
    ∧ Component.__add__ the_trend bc h1' = (Ok abc', h2')
    ∧ contents h2 abc = contents h2' abc'.
Proof.
  apply (add_associative three_store the_trend the_season the_error);
    first [vm_compute; reflexivity | apply (bool_decide_unpack _); vm_compute; exact I].
Defined.

(** ** Time-domain seasonality that keeps the first state *)

Lemma superdiagonal_row (n i : nat) :
  (fun j => if decide (Z.of_nat j - Z.of_nat i = 1) then 1 else 0) <$> seq 0 n
  = unit_vector n (S i).
Proof.
  unfold unit_vector. apply list_fmap_ext. intros _ j _.
  destruct (decide (j = S i)) as [->|Hne].
  - rewrite decide_True by lia. done.
  - rewrite decide_False by lia. done.
Qed.

Lemma unit_vector_S (m : nat) : unit_vector (S m) 0 = 1 :: replicate m 0.
Proof.
  unfold unit_vector. cbn [seq fmap list_fmap]. rewrite decide_True by done. f_equal.
  rewrite <- fmap_S_seq, <- list_fmap_compose.
  apply list_eq. intros i. rewrite list_lookup_fmap.
  destruct (decide (i < m)%nat).
  - rewrite lookup_seq_lt by done. cbn. rewrite decide_False by lia.
    symmetry. by apply lookup_replicate_2.
  - rewrite lookup_seq_ge by lia. cbn. symmetry. apply lookup_replicate_None. lia.
Qed.

Lemma unit_vector_out (n p : nat) : (n ≤ p)%nat → unit_vector n p = replicate n 0.
Proof.
  intros Hp. unfold unit_vector. apply list_eq. intros i.
  rewrite list_lookup_fmap.
  destruct (decide (i < n)%nat).
  - rewrite lookup_seq_lt by done. cbn. rewrite decide_False by lia.
    symmetry. by apply lookup_replicate_2.
  - rewrite lookup_seq_ge by lia. cbn. symmetry. apply lookup_replicate_None. lia.
Qed.

(** The transition matrix when the first state is kept: it is square, and
    one step moves the first entry of the state to the end. *)
Lemma cyclic_transition (n : nat) :
  (1 ≤ n)%nat →
  ∃ T, TimeSeasonality.transition_matrix (Z.of_nat n) false = Ok T
       ∧ square n T
       ∧ ∀ x, length x = n → mat_vec T x = cycle x.
Proof.
  intros Hn. destruct n as [|m]; [lia|].
  unfold TimeSeasonality.transition_matrix. rewrite np_eye_nat.
  cbn [Component.res_bind]. unfold set_last_row_first.
  rewrite (list_fmap_ext _ (fun i => unit_vector (S m) (S i)) (seq 0 (S m)))
    by (intros; apply superdiagonal_row).
  assert (Hlast : last ((fun i => unit_vector (S m) (S i)) <$> seq 0 (S m))
                   = Some (0 :: replicate m 0)).
  { rewrite seq_S, fmap_app. cbn [fmap list_fmap Nat.add]. rewrite last_snoc.
    by rewrite (unit_vector_out (S m) (S m)) by lia. }
  rewrite Hlast, length_fmap, length_seq. cbn [pred].
  eexists. split; [reflexivity|]. split.
  - split.
    + by rewrite length_insert, length_fmap, length_seq.
    + apply Forall_insert.
      * apply Forall_fmap, Forall_forall. intros i _. apply length_unit_vector.
      * cbn. by rewrite length_replicate.
  - intros x Hx. unfold mat_vec, cycle. rewrite list_fmap_insert, <- list_fmap_compose.
    rewrite <- (unit_vector_S m), <- Hx, dot_unit_vector.
    apply list_eq. intros i.
    destruct (decide (i = m)) as [->|Hi].
    + rewrite list_lookup_insert_eq by (rewrite length_fmap, length_seq; lia).
      rewrite lookup_app_r by (rewrite length_drop; lia).
      rewrite length_drop, Hx. replace (m - (S m - 1))%nat with 0%nat by lia.
      destruct x; [done|]. done.
    + rewrite list_lookup_insert_ne by done. rewrite list_lookup_fmap.
      destruct (decide (i < m)%nat).
      * rewrite lookup_seq_lt by lia. unfold compose.
        cbn [fmap option_fmap option_map Nat.add].
        rewrite lookup_app_l by (rewrite length_drop; lia).
        rewrite lookup_drop. rewrite dot_unit_vector.
        destruct (lookup_lt_is_Some_2 x (S i) ltac:(lia)) as [v Hv].
        cbn [Nat.add]. by rewrite Hv.
      * rewrite lookup_seq_ge by lia. cbn. symmetry. apply lookup_ge_None_2.
        rewrite length_app, length_drop, length_take. lia.
Qed.

Lemma iter_cycle (x : list Z) (k : nat) :
  (k ≤ length x)%nat → Nat.iter k cycle x = drop k x ++ take k x.
Proof.
  induction k as [|k IH]; intros Hk.
  - cbn. by rewrite drop_0, app_nil_r.
  - rewrite Nat.iter_succ, IH by lia. unfold cycle.
    destruct (drop k x) as [|v rest] eqn:E.
    { apply (f_equal length) in E. rewrite length_drop in E. cbn in E. lia. }
    assert (Hv : x !! k = Some v).
    { rewrite <- (Nat.add_0_r k), <- lookup_drop, E. done. }
    assert (Hrest : drop (S k) x = rest).
    { rewrite <- (Nat.add_1_l k), Nat.add_comm, <- drop_drop, E. done. }
    cbn [app drop take]. rewrite drop_0, Hrest, (take_S_r x k v Hv), <- app_assoc. done.
Qed.

Lemma cycle_period (x : list Z) : Nat.iter (length x) cycle x = x.
Proof. rewrite iter_cycle by done. by rewrite drop_all, take_ge. Qed.


(** The objects that a constructor has just allocated, looked up by
    position. *)
Ltac at_norm :=
  repeat match goal with
    | |- context [list_at (?h ++ ?new) ?i] =>
        let k := offset i in
        rewrite (list_at_app_plus h new k : list_at (h ++ new) i = list_at new k)
    | |- context [dict_at (?h ++ ?new) ?i] =>
        let k := offset i in
        rewrite (dict_at_app_plus h new k : dict_at (h ++ new) i = dict_at new k)
    | |- context [table_at (?h ++ ?new) ?i] =>
        let k := offset i in
        rewrite (table_at_app_plus h new k : table_at (h ++ new) i = table_at new k)
    end.

Lemma valid_at (H : Heap) (c : Component.t) (ls ds : list loc) (t : loc) :
  list_attributes c = ls → dict_attributes c = ds → Component._component_info c = Some t →
  forallb (fun l => bool_decide (is_Some (list_at H l))) ls = true →
  forallb (fun l => bool_decide (is_Some (dict_at H l))) ds = true →
  is_Some (table_at H t) → NoDup ds →
  valid H c = true.
Proof.
  intros <- <- Et Hl Hd Ht Hnd. unfold valid. rewrite Hl, Hd, Et. cbn [mbind option_bind].
  by rewrite !bool_decide_eq_true_2.
Qed.

(** A component whose attributes are the objects just allocated is well
    formed. *)
Ltac fresh_valid :=
  eapply valid_at;
  [ vm_compute; reflexivity | vm_compute; reflexivity | vm_compute; reflexivity
  | cbn [forallb]; at_norm; reflexivity
  | cbn [forallb]; at_norm; reflexivity
  | at_norm; cbn; eauto
  | rewrite !NoDup_cons, !not_elem_of_cons, !elem_of_nil;
    repeat split; try lia; apply NoDup_nil_2 ].

(** [TimeSeasonality.__init__] evaluated, for either value of
    [remove_first_state] and with or without state names from the caller.
    [all_names] are the names of all seasons: the default ones, or the
    content of the caller's list. *)
Lemma time_seasonality_run (n : nat) (innovations rfs : bool) (name : option string)
    (state_names : option loc) (all_names : list string) (h : Heap) (T : list (list Z)) :
  let s := Z.of_nat n in
  let nm := default ("Seasonal[s=" +:+ pretty s +:+ "]") name in
  let k := s - (if rfs then 1 else 0) in
  (1 ≤ k)%Z →
  match state_names with
  | None => all_names = (fun i => nm +:+ "_" +:+ pretty i) <$> seq 0 n
  | Some given => h !! given = Some (OList all_names) ∧ length all_names = n
  end →
  TimeSeasonality.transition_matrix k rfs = Ok T →
  ∃ c new,
    TimeSeasonality.__init__ s innovations name state_names rfs h = (Ok c, h ++ new)
    ∧ Component.name (TimeSeasonality.base c) = nm
    ∧ Component.k_states (TimeSeasonality.base c) = k
    ∧ Component.k_posdef (TimeSeasonality.base c) = (if innovations then 1 else 0)
    ∧ PytensorRepresentation.transition (Component.ssm (TimeSeasonality.base c))
      = TSet (TZeros [1; k; k]) [IAll; IAll] (TArray2 T)
    ∧ Component.state_names (TimeSeasonality.base c) = length h
    ∧ names_of (h ++ new) (Component.state_names (TimeSeasonality.base c))
      = (if rfs then drop 1 all_names else all_names)
    ∧ valid (h ++ new) (TimeSeasonality.base c) = true.
Proof.
  intros s nm k Hk Hgiven HT.
  assert (Hlen : length all_names = n).
  { destruct state_names; [tauto|]. subst all_names. by rewrite length_fmap, length_seq. }
  unfold TimeSeasonality.__init__. fold nm.
  assert (Hfirst : ∀ B (f : loc → M B),
    (do state_names <-
       (match state_names with
        | None =>
            alloc (OList ((fun i => nm +:+ "_" +:+ pretty i) <$> seq 0 (Z.to_nat s)))
        | Some given =>
            do names <- deref_list given;
            if decide (Z.of_nat (length names) ≠ s) then
              raise (ValueError ("state_names must be a list of length season_length, got "
                                   +:+ pretty (length names)))
            else copy given
        end); f state_names) h
    = f (length h) (h ++ [OList all_names])).
  { intros B f. destruct state_names as [given|].
    - destruct Hgiven as [Hg _]. mrun. rewrite decide_False by (unfold s; lia).
      erewrite bind_Ok by (eapply copy_Some; heap_lookup). done.
    - subst all_names. unfold s. rewrite Nat2Z.id. mrun. done. }
  rewrite Hfirst. clear Hfirst.
  lazymatch goal with
  | |- context [bind (if rfs then ?m1 else ?m2) _] =>
      assert (Hpop : (if rfs then m1 else m2) (h ++ [OList all_names])
                     = (Ok tt, h ++ [OList (if rfs then drop 1 all_names else all_names)]))
  end.
  { destruct rfs; [|apply ret_eq].
    destruct all_names as [|x rest]; [cbn in Hlen; unfold k, s in Hk; lia|].
    mrun. erewrite store_Some by heap_lookup. heap_norm. reflexivity. }
  erewrite bind_Ok by exact Hpop. clear Hpop.
  fold k. unfold r_one_zeros. rewrite decide_False by lia.
  mrun.
  unfold Component.__init__, Component.default_list.
  do 5 mrun. mrun. do 7 mrun.
  unfold TimeSeasonality.populate_component_properties. comp_simpl.
  do 3 mrun. mrun. mrun. comp_simpl.
  destruct innovations.
  - do 4 mrun.
    unfold TimeSeasonality.make_symbolic_graph. comp_simpl.
    rewrite HT. mrun. rewrite ?bind_assoc. mssm. rewrite ?bind_assoc. mssm.
    unfold Component.make_and_register_variable. comp_simpl.
    mrun. rewrite decide_True by (left).
    mrun. rewrite lookup_empty. mrun. mrun.
    rewrite ?bind_assoc. mssm. rewrite ?bind_assoc. mssm. comp_simpl.
    mrun. rewrite decide_True by (right; left).
    mrun. rewrite lookup_insert_ne by (apply not_eq_sym, sigma_ne_coefs).
    rewrite lookup_empty. mrun. mrun.
    rewrite ?bind_assoc. mssm.
    mrun. mrun.
    eexists _, _. split; [reflexivity|].
    cbn [TimeSeasonality.base]. comp_simpl.
    do 5 (split; [reflexivity|]). split.
    + exact (names_of_app_plus h _ 0).
    + fresh_valid.
  - rewrite ?bind_assoc, bind_ret.
    unfold TimeSeasonality.make_symbolic_graph. comp_simpl.
    rewrite HT. mrun. rewrite ?bind_assoc. mssm. rewrite ?bind_assoc. mssm.
    unfold Component.make_and_register_variable. comp_simpl.
    mrun. rewrite decide_True by (left).
    mrun. rewrite lookup_empty. mrun. mrun.
    rewrite ?bind_assoc. mssm. rewrite ?bind_assoc, bind_ret.
    mrun. mrun.
    eexists _, _. split; [reflexivity|].
    cbn [TimeSeasonality.base]. comp_simpl.
    do 5 (split; [reflexivity|]). split.
    + exact (names_of_app_plus h _ 0).
    + fresh_valid.
Qed.

Lemma seasonal_transition_exists (k : Z) (rfs : bool) :
  (1 ≤ k)%Z → ∃ T, TimeSeasonality.transition_matrix k rfs = Ok T.
Proof.
  intros Hk. rewrite <- (Z2Nat.id k) by lia.
  destruct rfs.
  - destruct (seasonal_transition (Z.to_nat k)) as (T & HT & _); [lia|]. eauto.
  - destruct (cyclic_transition (Z.to_nat k)) as (T & HT & _); [lia|]. eauto.
Qed.

(** With [remove_first_state=False], [TimeSeasonality(season_length=s)]
    has [s] states for every [s >= 1], and its transition matrix moves the
    first entry of the state to the end: it is a cyclic permutation, so [s]
    steps with zero shocks return every state, and [T^s = I]. *)
Theorem time_seasonality_cyclic (s : Z) (innovations : bool) (name : option string)
    (h : Heap) :
  (1 ≤ s)%Z →
  ∃ c h' T,
    TimeSeasonality.__init__ s innovations name None false h = (Ok c, h')
    ∧ Component.k_states (TimeSeasonality.base c) = s
    ∧ length (names_of h' (Component.state_names (TimeSeasonality.base c))) = Z.to_nat s
    ∧ PytensorRepresentation.transition (Component.ssm (TimeSeasonality.base c))
      = TSet (TZeros [1; s; s]) [IAll; IAll] (TArray2 T)
    ∧ (∀ x, length x = Z.to_nat s → mat_vec T x = drop 1 x ++ take 1 x)
    ∧ mat_pow (Z.to_nat s) T (Z.to_nat s) = identity (Z.to_nat s)
    ∧ ∀ x, length x = Z.to_nat s → Nat.iter (Z.to_nat s) (mat_vec T) x = x.
Proof.
  intros Hs. set (n := Z.to_nat s).
  assert (Hn : (1 ≤ n)%nat) by lia.
  assert (Es : s = Z.of_nat n) by lia.
  destruct (cyclic_transition n Hn) as (T & HT & Hsq & Hstep).
  destruct (time_seasonality_run n innovations false name None
              ((fun i => default ("Seasonal[s=" +:+ pretty (Z.of_nat n) +:+ "]") name
                           +:+ "_" +:+ pretty i) <$> seq 0 n) h T) as
    (c & new & Hc & _ & Hk & _ & Htr & _ & Hnames & _);
    [cbn; lia | reflexivity | by rewrite Z.sub_0_r |].
  rewrite Z.sub_0_r in Hk, Htr.
  exists c, (h ++ new), T. rewrite Es at 1 2 3 4.
  split; [exact Hc|]. split; [exact Hk|].
  split; [by rewrite Hnames, length_fmap, length_seq|].
  split; [exact Htr|]. split; [exact Hstep|].
  assert (Hper : ∀ x, length x = n → Nat.iter n (mat_vec T) x = x).
  { intros x Hx. rewrite <- (cycle_period x) at 2. rewrite Hx. clear -Hstep Hx.
    assert (H : ∀ k, length (Nat.iter k cycle x) = n
                     ∧ Nat.iter k (mat_vec T) x = Nat.iter k cycle x).
    { induction k as [|k [IHl IHe]]; [done|]. rewrite !Nat.iter_succ. split.
      - unfold cycle at 1. rewrite length_app, length_drop, length_take. lia.
      - rewrite IHe. by apply Hstep. }
    apply H. }
  split; [by apply mat_pow_identity | exact Hper].
Qed.

Lemma time_seasonality_cyclic_witness :
  ∃ c h' T,
    TimeSeasonality.__init__ 4 true None None false [] = (Ok c, h')
    ∧ Component.k_states (TimeSeasonality.base c) = 4
    ∧ length (names_of h' (Component.state_names (TimeSeasonality.base c))) = Z.to_nat 4
    ∧ PytensorRepresentation.transition (Component.ssm (TimeSeasonality.base c))
      = TSet (TZeros [1; 4; 4]) [IAll; IAll] (TArray2 T)
    ∧ (∀ x, length x = Z.to_nat 4 → mat_vec T x = drop 1 x ++ take 1 x)
    ∧ mat_pow (Z.to_nat 4) T (Z.to_nat 4) = identity (Z.to_nat 4)
    ∧ ∀ x, length x = Z.to_nat 4 → Nat.iter (Z.to_nat 4) (mat_vec T) x = x.
Proof. apply (time_seasonality_cyclic 4 true None []). lia. Defined.

(** State names supplied by the caller: a list whose length is not
    [season_length] is refused with [ValueError], and nothing is allocated;
    a list of the right length is copied, so the caller's list keeps all
    its names while the component's own list, a new object, has lost the
    first one when [remove_first_state] is set. *)
Theorem time_seasonality_given_names (s : Z) (innovations rfs : bool)
    (name : option string) (given : loc) (names : list string) (h : Heap) :
  h !! given = Some (OList names) →
  (Z.of_nat (length names) ≠ s →
     TimeSeasonality.__init__ s innovations name (Some given) rfs h
     = (Raise (ValueError ("state_names must be a list of length season_length, got "
                             +:+ pretty (length names))), h))
  ∧ (Z.of_nat (length names) = s → (1 ≤ s - (if rfs then 1 else 0))%Z →
     ∃ c h',
       TimeSeasonality.__init__ s innovations name (Some given) rfs h = (Ok c, h')
       ∧ h' !! given = Some (OList names)
       ∧ Component.state_names (TimeSeasonality.base c) ≠ given
       ∧ h !! Component.state_names (TimeSeasonality.base c) = None
       ∧ names_of h' (Component.state_names (TimeSeasonality.base c))
         = (if rfs then drop 1 names else names)
       ∧ Component.k_states (TimeSeasonality.base c) = s - (if rfs then 1 else 0)
       ∧ valid h' (TimeSeasonality.base c) = true).
Proof.
  intros Hg. split.
  - intros Hne. unfold TimeSeasonality.__init__.
    erewrite bind_Raise; [reflexivity|].
    mrun. by rewrite decide_True.
  - intros Hlen Hk.
    destruct (seasonal_transition_exists _ rfs Hk) as [T HT].
    destruct (time_seasonality_run (length names) innovations rfs name (Some given) names h T)
      as (c & new & Hc & _ & Hks & _ & _ & Hloc & Hnames & Hvalid);
      [cbv zeta; by rewrite Hlen | done | by rewrite Hlen |].
    rewrite Hlen in Hc, Hks.
    exists c, (h ++ new).
    split; [exact Hc|]. split; [by apply lookup_app_l_Some|].
    assert (Hfresh : h !! Component.state_names (TimeSeasonality.base c) = None)
      by (rewrite Hloc; by apply lookup_ge_None_2).
    split; [intros E; rewrite E in Hfresh; congruence|].
    split; [exact Hfresh|]. split; [exact Hnames|]. split; [exact Hks|exact Hvalid].
Qed.

(** [TimeSeasonality(season_length=s)] with default state names returns
    exactly when at least one state is left: for [s >= 2], or for [s >= 1]
    when the first state is kept.  With [remove_first_state=True] it raises
    [IndexError] for [s <= 0] (there is no first name to drop) and
    [ValueError] for [s = 1]; with [remove_first_state=False] it raises
    [ValueError] for [s <= 0]. *)
Theorem time_seasonality_length_bounds (s : Z) (innovations rfs : bool)
    (name : option string) (h : Heap) :
  let run := TimeSeasonality.__init__ s innovations name None rfs h in
  (is_Ok run.1 = true ↔ (1 ≤ s - (if rfs then 1 else 0))%Z)
  ∧ (rfs = true → (s ≤ 0)%Z → run.1 = Raise IndexError)
  ∧ (rfs = true → s = 1 → run.1 = Raise negative_dimensions)
  ∧ (rfs = false → (s ≤ 0)%Z → run.1 = Raise negative_dimensions).
Proof.
  intros run.
  assert (Hempty : rfs = true → (s ≤ 0)%Z → run.1 = Raise IndexError).
  { intros -> Hs. unfold run, TimeSeasonality.__init__.
    mrun. replace (Z.to_nat s) with 0%nat by lia. cbn [seq fmap list_fmap].
    erewrite bind_Raise; [reflexivity|]. mrun. reflexivity. }
  assert (Hone : rfs = true → s = 1 → run.1 = Raise negative_dimensions).
  { intros -> ->. unfold run, TimeSeasonality.__init__.
    mrun. change (Z.to_nat 1) with 1%nat. cbn [seq fmap list_fmap].
    erewrite bind_Ok by (mrun; erewrite store_Some by heap_lookup; heap_norm; reflexivity).
    reflexivity. }
  assert (Hkeep : rfs = false → (s ≤ 0)%Z → run.1 = Raise negative_dimensions).
  { intros -> Hs. unfold run, TimeSeasonality.__init__.
    mrun. rewrite bind_ret. unfold r_one_zeros. rewrite decide_True by lia. reflexivity. }
  split; [|done].
  split.
  - intros Hok. destruct rfs.
    + destruct (decide (s ≤ 0)%Z); [rewrite Hempty in Hok by done; done|].
      destruct (decide (s = 1)); [rewrite Hone in Hok by done; done|]. lia.
    + destruct (decide (s ≤ 0)%Z); [rewrite Hkeep in Hok by done; done|]. lia.
  - intros Hk.
    destruct (seasonal_transition_exists _ rfs Hk) as [T HT].
    assert (Es : s = Z.of_nat (Z.to_nat s)) by (destruct rfs; lia).
    destruct (time_seasonality_run (Z.to_nat s) innovations rfs name None
                ((fun i => default ("Seasonal[s=" +:+ pretty (Z.of_nat (Z.to_nat s)) +:+ "]")
                             name +:+ "_" +:+ pretty i) <$> seq 0 (Z.to_nat s)) h T)
      as (c & new & Hc & _); [cbv zeta; by rewrite <- Es | reflexivity | by rewrite <- Es |].
    unfold run. rewrite Es, Hc. done.
Qed.

Lemma time_seasonality_given_names_witness :
  (Z.of_nat (length ["winter"; "spring"; "summer"; "autumn"]) ≠ 4 →
     TimeSeasonality.__init__ 4 true None (Some 0%nat) true seasons_store
     = (Raise (ValueError ("state_names must be a list of length season_length, got "
                             +:+ pretty (length ["winter"; "spring"; "summer"; "autumn"]))),
        seasons_store))
  ∧ (Z.of_nat (length ["winter"; "spring"; "summer"; "autumn"]) = 4 →
     (1 ≤ 4 - (if true then 1 else 0))%Z →
     ∃ c h',
       TimeSeasonality.__init__ 4 true None (Some 0%nat) true seasons_store = (Ok c, h')
       ∧ h' !! 0%nat = Some (OList ["winter"; "spring"; "summer"; "autumn"])
       ∧ Component.state_names (TimeSeasonality.base c) ≠ 0%nat
       ∧ seasons_store !! Component.state_names (TimeSeasonality.base c) = None
       ∧ names_of h' (Component.state_names (TimeSeasonality.base c))
         = (if true then drop 1 ["winter"; "spring"; "summer"; "autumn"]
            else ["winter"; "spring"; "summer"; "autumn"])
       ∧ Component.k_states (TimeSeasonality.base c) = 4 - (if true then 1 else 0)
       ∧ valid h' (TimeSeasonality.base c) = true).
Proof.
  apply (time_seasonality_given_names 4 true true None 0%nat
           ["winter"; "spring"; "summer"; "autumn"] seasons_store).
  reflexivity.
Defined.

(** ** Frequency-domain seasonality: the number of harmonics *)


(** ** The measurement error *)

(** [MeasurementError(name)] evaluated. *)
Lemma measurement_error_run (name : string) (h : Heap) :
  ∃ c new,
    MeasurementError.__init__ name h = (Ok c, h ++ new)
    ∧ Component.name c = name
    ∧ Component.k_endog c = 1 ∧ Component.k_states c = 0 ∧ Component.k_posdef c = 0
    ∧ Component.measurement_error c = true
    ∧ names_of (h ++ new) (Component.state_names c) = []
    ∧ names_of (h ++ new) (Component.shock_names c) = []
    ∧ names_of (h ++ new) (Component.param_names c) = ["sigma_" +:+ name]
    ∧ entries_of (h ++ new) (Component._name_to_variable c)
      = {["sigma_" +:+ name := VVar (TTensor ("sigma_" +:+ name) [] floatX)]}
    ∧ info_of (h ++ new) (Component._component_info c)
      = [(name, mkComponentInfo 0 1 0 false None)]
    ∧ PytensorRepresentation.obs_cov (Component.ssm c)
      = TSet (TZeros [1; 1; 1]) [IArr [0]; IArr [0]]
          (TSqr (TTensor ("sigma_" +:+ name) [] floatX))
    ∧ valid (h ++ new) c = true.
Proof.
  unfold MeasurementError.__init__, Component.__init__, Component.default_list.
  do 5 mrun. mrun. do 7 mrun.
  unfold MeasurementError.populate_component_properties. comp_simpl.
  do 3 mrun. mrun.
  unfold MeasurementError.make_symbolic_graph, Component.make_and_register_variable.
  comp_simpl.
  mrun. rewrite decide_True by left.
  mrun. rewrite lookup_empty. mrun. mrun.
  rewrite ?bind_assoc. mssm. comp_simpl.
  mrun.
  eexists _, _. split; [reflexivity|]. comp_simpl.
  do 5 (split; [reflexivity|]).
  split; [exact (names_of_app_plus h _ 0)|].
  split; [exact (names_of_app_plus h _ 2)|].
  split; [exact (names_of_app_plus h _ 12)|].
  split; [exact (entries_of_app_plus h _ 10)|].
  split; [exact (info_of_app_plus h _ 15)|].
  split; [reflexivity|].
  fresh_valid.
Qed.

(** Adding a measurement error to a component changes none of its states
    and shocks: [a + MeasurementError(name)] has the states, the shocks and
    the dimensions of [a], its parameters followed by [sigma_<name>], whose
    placeholder is registered, and its measurement-error flag is set.  The
    measurement error itself is a well-formed component without states. *)
Theorem add_measurement_error (h : Heap) (a : Component.t) (name : string) :
  valid h a = true → Component.k_endog a = 1 →
  NoDup (table_keys (kept (info_of h (Component._component_info a)))) →
  name ∉ table_keys (kept (info_of h (Component._component_info a))) →
  ∃ e h1 c h2,
    MeasurementError.__init__ name h = (Ok e, h1)
    ∧ valid h1 e = true
    ∧ Component.k_states e = 0 ∧ Component.k_posdef e = 0
    ∧ Component.__add__ a e h1 = (Ok c, h2)
    ∧ Component.k_states c = Component.k_states a
    ∧ Component.k_posdef c = Component.k_posdef a
    ∧ Component.measurement_error c = true
    ∧ names_of h2 (Component.state_names c) = names_of h (Component.state_names a)
    ∧ names_of h2 (Component.shock_names c) = names_of h (Component.shock_names a)
    ∧ names_of h2 (Component.param_names c)
      = names_of h (Component.param_names a) ++ ["sigma_" +:+ name]
    ∧ entries_of h2 (Component._name_to_variable c) !! ("sigma_" +:+ name)
      = Some (VVar (TTensor ("sigma_" +:+ name) [] floatX)).
Proof.
  rewrite valid_well_formed. intros Ha Hk Hnd Hname.
  destruct (measurement_error_run name h)
    as (e & new & He & En & Eke & Eks & Ekp & Eme & Est & Esh & Epa & Ereg & Einfo & _ & Hv).
  assert (Ha1 : well_formed (h ++ new) a) by by apply well_formed_app.
  assert (He1 : well_formed (h ++ new) e) by by apply valid_well_formed.
  assert (Hke : Component.k_endog a = Component.k_endog e) by congruence.
  destruct (combine_statespace_representations_ok a e Hke) as (r & Hr & _).
  assert (Hd : distinct_component_names (h ++ new) a e = true).
  { apply bool_decide_eq_true. rewrite Einfo, info_app by done.
    rewrite kept_cons. cbn [kept List.filter].
    destruct (String.prefix "StateSpace" name); [by rewrite app_nil_r|].
    apply NoDup_app. repeat split; [done| |apply NoDup_singleton].
    intros x Hx [->|[]%elem_of_nil]%elem_of_cons. done. }
  exists e, (h ++ new), (sum_component (h ++ new) a e r),
    ((h ++ new) ++ sum_objects (h ++ new) a e).
  split; [exact He|]. split; [exact Hv|]. split; [exact Eks|]. split; [exact Ekp|].
  split; [by apply add_eval|].
  unfold sum_component at 1 2 3.
  cbn [Component.k_states Component.k_posdef Component.measurement_error].
  rewrite Eks, Ekp, Eme, !Z.add_0_r, orb_true_r.
  do 3 (split; [reflexivity|]).
  rewrite !names_sum by in_list.
  rewrite Est, Esh, Epa, !app_nil_r.
  rewrite !(names_app h new a) by (done || in_list).
  do 3 (split; [reflexivity|]).
  rewrite entries_sum by in_list. rewrite Ereg.
  apply lookup_union_Some_l, lookup_singleton_eq.
Qed.

Lemma add_measurement_error_witness :
  ∃ e h1 c h2,
    MeasurementError.__init__ "obs" sample_store = (Ok e, h1)
    ∧ valid h1 e = true
    ∧ Component.k_states e = 0 ∧ Component.k_posdef e = 0
    ∧ Component.__add__ sample_trend e h1 = (Ok c, h2)
    ∧ Component.k_states c = Component.k_states sample_trend
    ∧ Component.k_posdef c = Component.k_posdef sample_trend
    ∧ Component.measurement_error c = true
    ∧ names_of h2 (Component.state_names c)
      = names_of sample_store (Component.state_names sample_trend)
    ∧ names_of h2 (Component.shock_names c)
      = names_of sample_store (Component.shock_names sample_trend)
    ∧ names_of h2 (Component.param_names c)
      = names_of sample_store (Component.param_names sample_trend) ++ ["sigma_" +:+ "obs"]
    ∧ entries_of h2 (Component._name_to_variable c) !! ("sigma_" +:+ "obs")
      = Some (VVar (TTensor ("sigma_" +:+ "obs") [] floatX)).
Proof.
  apply (add_measurement_error sample_store sample_trend "obs");
    first [vm_compute; reflexivity | apply (bool_decide_unpack _); vm_compute; exact I].
Defined.

(** ** The order of a trend *)

Lemma flatnonzero_snoc (mask : list bool) (b : bool) :
  flatnonzero (mask ++ [b])
  = flatnonzero mask ++ (if b then [Z.of_nat (length mask)] else []).
Proof.
  unfold flatnonzero. rewrite imap_app, omap_app. f_equal.
  cbn. rewrite Nat.add_0_r. by destruct b.
Qed.

Lemma flatnonzero_bound (mask : list bool) (i : Z) :
  i ∈ flatnonzero mask → 0 ≤ i < Z.of_nat (length mask).
Proof.
  induction mask as [|b mask IH] using rev_ind; [by intros ?%elem_of_nil|].
  rewrite flatnonzero_snoc, length_app, elem_of_app. cbn [length].
  intros [Hi|Hi]; [specialize (IH Hi); lia|].
  destruct b; [|by apply elem_of_nil in Hi].
  apply list_elem_of_singleton in Hi. lia.
Qed.

Lemma flatnonzero_all_false (mask : list bool) :
  Forall (fun b => b = false) mask → flatnonzero mask = [].
Proof.
  induction mask as [|b mask IH] using rev_ind; [done|].
  intros [Hm Hb]%Forall_app. apply Forall_singleton in Hb as ->.
  rewrite flatnonzero_snoc, IH by done. done.
Qed.

Lemma flatnonzero_some_true (mask : list bool) :
  Exists (fun b => b = true) mask → flatnonzero mask ≠ [].
Proof.
  induction mask as [|b mask IH] using rev_ind; [by intros ?%Exists_nil|].
  rewrite flatnonzero_snoc. intros [Hm|Hb]%Exists_app.
  - intros E%app_eq_nil. by apply IH, E.
  - apply Exists_cons in Hb as [->|?%Exists_nil]; [|done].
    by intros [_ ?]%app_eq_nil.
Qed.

(** [LevelTrendComponent] checks its [order] before it allocates anything.
    An order without a nonzero entry (the empty list, a list of zeros, the
    integer 0) raises [IndexError], because the position of the highest
    nonzero derivative is read from an empty array; a list that has a
    nonzero entry and ends with a zero is refused with [ValueError]; a
    negative integer raises the [ValueError] of [numpy]. *)
Theorem level_trend_order_validation (D : Declarations) (innovations_order : option IntOrList)
    (name : string) (h : Heap) :
  (∀ l, Forall (fun x => x = 0) l →
        LevelTrendComponent.__init__ D (AList l) innovations_order name h
        = (Raise IndexError, h))
  ∧ (∀ l, Exists (fun x => x ≠ 0) l → last l = Some 0 →
          ∃ msg, LevelTrendComponent.__init__ D (AList l) innovations_order name h
                 = (Raise (ValueError msg), h))
  ∧ LevelTrendComponent.__init__ D (AnInt 0) innovations_order name h = (Raise IndexError, h)
  ∧ (∀ n, n < 0 →
          LevelTrendComponent.__init__ D (AnInt n) innovations_order name h
          = (Raise negative_dimensions, h)).
Proof.
  split; [|split; [|split]].
  - intros l Hl. unfold LevelTrendComponent.__init__. cbn [order_to_mask]. mrun.
    rewrite flatnonzero_all_false; [reflexivity|].
    apply Forall_fmap. eapply Forall_impl; [exact Hl|].
    intros x ->. cbn. by apply bool_decide_eq_false_2; intros [].
  - intros l Hex Hlast. unfold LevelTrendComponent.__init__. cbn [order_to_mask]. mrun.
    destruct l as [|x l _] using rev_ind; [done|].
    rewrite last_snoc in Hlast. injection Hlast as ->.
    rewrite fmap_app. cbn [fmap list_fmap].
    rewrite (bool_decide_eq_false_2 (0 ≠ 0)) by (by intros []).
    rewrite flatnonzero_snoc, app_nil_r.
    destruct (last (flatnonzero _)) as [i|] eqn:E.
    + mrun. apply last_Some_elem_of, flatnonzero_bound in E.
      rewrite decide_True by (rewrite length_app; cbn [length]; lia).
      eexists. reflexivity.
    + exfalso. apply last_None in E. revert E. apply flatnonzero_some_true.
      apply Exists_app in Hex as [Hex|Hex].
      * apply Exists_fmap. eapply Exists_impl; [exact Hex|].
        intros y Hy. by apply bool_decide_eq_true_2.
      * apply Exists_cons in Hex as [?|?%Exists_nil]; done.
  - reflexivity.
  - intros n Hn. unfold LevelTrendComponent.__init__. cbn [order_to_mask].
    rewrite decide_True by done. reflexivity.
Qed.

(** ** The slices of the state axis *)

Lemma py_slice_inner {A} (i j : Z) (l : list A) :
  (0 ≤ i ≤ j)%Z → (j ≤ Z.of_nat (length l))%Z →
  py_slice i j l = take (Z.to_nat (j - i)) (drop (Z.to_nat i) l).
Proof.
  intros Hi Hj. unfold py_slice, slice_bound.
  rewrite !decide_False by lia. by rewrite !Z.min_l by lia.
Qed.

Lemma pairwise_cons {A} (x y : A) (l : list A) :
  pairwise (x :: y :: l) = (x, y) :: pairwise (y :: l).
Proof. reflexivity. Qed.

Lemma slices_from_cons (acc k : Z) (ks : list Z) :
  pairwise (acc :: cumsum_from acc (k :: ks))
  = (acc, acc + k) :: pairwise ((acc + k) :: cumsum_from (acc + k) ks).
Proof. reflexivity. Qed.

Lemma slices_from_partition {A} (l : list A) (ks : list Z) (acc : Z) :
  (0 ≤ acc)%Z → Forall (fun k => (0 ≤ k)%Z) ks →
  (acc + sum_list ks ≤ Z.of_nat (length l))%Z →
  Forall2 (fun k s => s.2 - s.1 = k ∧ Z.of_nat (length (py_slice s.1 s.2 l)) = k)
    ks (pairwise (acc :: cumsum_from acc ks))
  ∧ concat ((fun s => py_slice s.1 s.2 l) <$> pairwise (acc :: cumsum_from acc ks))
    = take (Z.to_nat (sum_list ks)) (drop (Z.to_nat acc) l).
Proof.
  revert acc. induction ks as [|k ks IH]; intros acc Hacc Hks Hlen.
  - cbn. split; [constructor|]. by rewrite take_0.
  - apply Forall_cons in Hks as [Hk Hks].
    change (sum_list (k :: ks)) with (k + sum_list ks) in *.
    assert (Hsum : (0 ≤ sum_list ks)%Z).
    { clear -Hks. induction Hks as [|x xs Hx _ IHxs]; [done|].
      change (sum_list (x :: xs)) with (x + sum_list xs). lia. }
    destruct (IH (acc + k)) as [IH1 IH2]; [lia|done|lia|].
    rewrite slices_from_cons. split.
    + constructor; [|exact IH1]. cbn [fst snd]. split; [lia|].
      rewrite py_slice_inner by lia. rewrite length_take, length_drop. lia.
    + cbn [fmap list_fmap concat fst snd]. rewrite IH2.
      rewrite py_slice_inner by lia.
      replace (acc + k - acc) with k by lia.
      replace (Z.to_nat (k + sum_list ks)) with (Z.to_nat k + Z.to_nat (sum_list ks))%nat
        by lia.
      rewrite <- take_take_drop. f_equal. f_equal. rewrite drop_drop. f_equal. lia.
Qed.

(** [_state_slices_from_info] partitions the state axis: when no component
    has a negative state count and the axis has as many entries as the
    components have states, there is one slice per component, in the order
    of the table, each as long as the component's state count, and the
    slices put one after the other give the axis back. *)
Theorem state_slices_partition {A : Type} (info : list (string * ComponentInfo))
    (axis : list A) :
  Forall (fun e => (0 ≤ ci_k_states e.2)%Z) info →
  Z.of_nat (length axis) = sum_list (ci_k_states ∘ snd <$> info) →
  Forall2 (fun e s => s.2 - s.1 = ci_k_states e.2
                      ∧ Z.of_nat (length (py_slice s.1 s.2 axis)) = ci_k_states e.2)
    info (state_slices_of info)
  ∧ concat ((fun s => py_slice s.1 s.2 axis) <$> state_slices_of info) = axis.
Proof.
  intros Hk Hlen.
  destruct (slices_from_partition axis (ci_k_states ∘ snd <$> info) 0) as [H1 H2];
    [done | by apply Forall_fmap | lia |].
  unfold state_slices_of, np_cumsum. cbn [cumsum_from]. rewrite Z.add_0_l.
  split.
  - apply Forall2_fmap_l in H1. exact H1.
  - rewrite H2, <- Hlen, Nat2Z.id. cbn [Z.to_nat drop]. by rewrite take_ge.
Qed.

Lemma state_slices_partition_witness :
  Forall2 (fun e s => s.2 - s.1 = ci_k_states e.2
                      ∧ Z.of_nat (length (py_slice s.1 s.2 ["level"; "trend"]))
                        = ci_k_states e.2)
    [("LevelTrend", mkComponentInfo 2 1 1 false (Some [1; 0]));
     ("MeasurementError", mkComponentInfo 0 1 0 false None)]
    (state_slices_of [("LevelTrend", mkComponentInfo 2 1 1 false (Some [1; 0]));
                      ("MeasurementError", mkComponentInfo 0 1 0 false None)])
  ∧ concat ((fun s => py_slice s.1 s.2 ["level"; "trend"])
              <$> state_slices_of [("LevelTrend", mkComponentInfo 2 1 1 false (Some [1; 0]));
                                   ("MeasurementError", mkComponentInfo 0 1 0 false None)])
    = ["level"; "trend"].
Proof.
  apply (state_slices_partition
           [("LevelTrend", mkComponentInfo 2 1 1 false (Some [1; 0]));
            ("MeasurementError", mkComponentInfo 0 1 0 false None)] ["level"; "trend"]).
  - repeat constructor; cbn; lia.
  - reflexivity.
Defined.

(** ** Extraction: what it reads, and variables without axes *)

Section ReadingFacts.

Context {V : Type} (np_sum : list V → V).

Lemma reads_only_bind {A B} (m : M A) (f : A → M B) :
  reads_only m → (∀ a, reads_only (f a)) → reads_only (bind m f).
Proof.
  intros Hm Hf h. rewrite bind_eq. specialize (Hm h).
  destruct (m h) as [[a|e] h']; cbn in Hm; subst h'; [apply Hf|done].
Qed.

Lemma reads_only_ret {A} (a : A) : reads_only (ret a).
Proof. by intros h. Qed.

Lemma reads_only_raise {A} (e : Exn) : reads_only (raise e : M A).
Proof. by intros h. Qed.

Lemma reads_only_lift {A} (r : Res A) : reads_only (lift r).
Proof. by intros h. Qed.

Lemma reads_only_deref (l : loc) : reads_only (deref l).
Proof. intros h. unfold deref. by destruct (h !! l). Qed.

Lemma reads_only_deref_list (l : loc) : reads_only (deref_list l).
Proof.
  apply reads_only_bind; [apply reads_only_deref|].
  intros []; (apply reads_only_ret || apply reads_only_raise).
Qed.

Lemma reads_only_deref_table (l : loc) : reads_only (deref_table l).
Proof.
  apply reads_only_bind; [apply reads_only_deref|].
  intros []; (apply reads_only_ret || apply reads_only_raise).
Qed.

Lemma reads_only_mapM {A B} (f : A → M B) (l : list A) :
  (∀ a, reads_only (f a)) → reads_only (mapM f l).
Proof.
  intros Hf. induction l as [|a l IH]; [apply reads_only_ret|].
  cbn [mapM]. apply reads_only_bind; [apply Hf|]. intros b.
  apply reads_only_bind; [apply IH|]. intros bs. apply reads_only_ret.
Qed.

Lemma reads_only_state_slices (m : StructuralTimeSeries.t) :
  reads_only (_state_slices_from_info m).
Proof.
  apply reads_only_bind; [apply reads_only_deref_table|]. intros. apply reads_only_ret.
Qed.

Lemma reads_only_hidden_states (m : StructuralTimeSeries.t) (data : Array) :
  reads_only (_hidden_states_from_data np_sum m data).
Proof.
  apply reads_only_bind; [apply reads_only_state_slices|]. intros.
  apply reads_only_bind; [apply reads_only_deref_table|]. intros.
  apply reads_only_bind; [apply reads_only_deref_list|]. intros.
  apply reads_only_bind; [apply reads_only_lift|]. intros. apply reads_only_ret.
Qed.

Lemma reads_only_subcomponent_names (m : StructuralTimeSeries.t) :
  reads_only (_get_subcomponent_names m).
Proof.
  apply reads_only_bind; [apply reads_only_state_slices|]. intros.
  apply reads_only_bind; [apply reads_only_deref_table|]. intros.
  apply reads_only_bind; [apply reads_only_deref_list|]. intros.
  apply reads_only_bind; [apply reads_only_lift|]. intros. apply reads_only_ret.
Qed.

Lemma reads_only_transform (m : StructuralTimeSeries.t) (x : DataArray)
    (labels : list string) :
  reads_only (_extract_and_transform_variable np_sum m x labels).
Proof.
  unfold _extract_and_transform_variable.
  destruct (reverse (da_dims x)) as [|? [|? ?]]; try apply reads_only_raise.
  apply reads_only_bind; [apply reads_only_hidden_states|]. intros.
  destruct (decide _); [apply reads_only_ret | apply reads_only_raise].
Qed.

Lemma is_latent_scalar (k : Z) (d l : list (string * DataArray (V:=V))) :
  NoDup d.*1 → l ⊆ d →
  Exists (fun x => shape (da_data x.2) = []) l →
  Component.res_mapM
    (fun name =>
       match table_get name d with
       | None => Raise (KeyError name)
       | Some x =>
           match last (shape (da_data x)) with
           | None => Raise IndexError
           | Some n => Ok (bool_decide (n = k))
           end
       end) (table_keys l)
  = Raise IndexError.
Proof.
  intros Hnd Hsub Hex. induction l as [|[name x] l IH]; [by apply Exists_nil in Hex|].
  cbn [table_keys fmap list_fmap fst Component.res_mapM].
  rewrite (table_get_elem d name x Hnd) by (apply Hsub; left).
  destruct (last (shape (da_data x))) as [n|] eqn:E; [|reflexivity].
  cbn [Component.res_bind]. unfold table_keys in IH. rewrite IH; [reflexivity| |].
  - intros p Hp. apply Hsub. by right.
  - apply Exists_cons in Hex as [Hx|Hex]; [|done].
    cbn in Hx. rewrite Hx in E. done.
Qed.

End ReadingFacts.

(** [extract_components_from_idata] only reads: whatever the dataset and
    whether it returns or raises, the model, its table of components and
    every other object of the store are left as they were. *)
Theorem extract_components_reads_only {V : Type} (np_sum : list V → V)
    (m : StructuralTimeSeries.t) (d : list (string * DataArray (V:=V))) (h : Heap) :
  (extract_components_from_idata np_sum m d h).2 = h.
Proof.
  revert h. change (reads_only (extract_components_from_idata np_sum m d)).
  unfold extract_components_from_idata.
  apply reads_only_bind; [apply reads_only_lift|]. intros.
  apply reads_only_bind; [apply reads_only_subcomponent_names|]. intros.
  destruct (decide _); [apply reads_only_raise|].
  apply reads_only_bind; [|intros; apply reads_only_ret].
  apply reads_only_mapM. intros name.
  destruct (table_get name d); [|apply reads_only_raise].
  apply reads_only_bind; [apply reads_only_transform|]. intros. apply reads_only_ret.
Qed.

(** A variable without axes makes the extraction fail before anything is
    decomposed: if the dataset holds a 0-d variable, the test of the last
    dimension raises [IndexError], whatever the other variables are. *)
Theorem extract_components_scalar_variable {V : Type} (np_sum : list V → V)
    (m : StructuralTimeSeries.t) (d : list (string * DataArray (V:=V))) (h : Heap) :
  NoDup d.*1 →
  Exists (fun x => shape (da_data x.2) = []) d →
  extract_components_from_idata np_sum m d h = (Raise IndexError, h).
Proof.
  intros Hnd Hex. unfold extract_components_from_idata.
  rewrite (is_latent_scalar (StructuralTimeSeries.k_states m) d d Hnd); done.
Qed.

Lemma extract_components_scalar_variable_witness :
  extract_components_from_idata sum_Z sample_model posterior_with_scalar sample_model_store
  = (Raise IndexError, sample_model_store).
Proof.
  apply (extract_components_scalar_variable sum_Z sample_model posterior_with_scalar
           sample_model_store).
  - apply (bool_decide_unpack _). vm_compute. exact I.
  - apply Exists_cons_tl, Exists_cons_hd. reflexivity.
Defined.

(** ** The base class *)

(** The two methods that a component variant must implement raise
    [NotImplementedError] in the base class, so constructing [Component]
    itself fails unless [component_from_sum] is set; with it, the
    constructor calls neither method and returns a well-formed component
    with empty name lists, empty dictionaries and a table of components
    that holds one entry, under the component's own name. *)
Theorem component_base_constructor (name : string) (k_endog k_states k_posdef : Z)
    (representation : option PytensorRepresentation.t)
    (measurement_error combine_hidden_states : bool) (obs_state_idxs : option (list Z))
    (h : Heap) :
  (Component.__init__ name k_endog k_states k_posdef None None None None None representation
     measurement_error combine_hidden_states false obs_state_idxs
     Component.populate_component_properties Component.make_symbolic_graph h).1
  = Raise (NotImplementedError "")
  ∧ ∃ c new,
      Component.__init__ name k_endog k_states k_posdef None None None None None representation
        measurement_error combine_hidden_states true obs_state_idxs
        Component.populate_component_properties Component.make_symbolic_graph h
      = (Ok c, h ++ new)
      ∧ valid (h ++ new) c = true
      ∧ Forall (fun l => names_of (h ++ new) l = []) (list_attributes c)
      ∧ Forall (fun l => entries_of (h ++ new) l = ∅) (dict_attributes c)
      ∧ info_of (h ++ new) (Component._component_info c)
        = [(name, mkComponentInfo k_states k_endog k_posdef combine_hidden_states
                    obs_state_idxs)]
      ∧ Component.needs_exog_data c = false.
Proof.
  split.
  - unfold Component.__init__, Component.default_list.
    do 5 mstep. mstep. do 7 mstep.
    erewrite bind_Raise; [reflexivity|]. reflexivity.
  - unfold Component.__init__, Component.default_list.
    do 5 mstep. mstep. do 7 mstep. mstep. mstep.
    eexists _, _. split; [reflexivity|].
    split; [fresh_valid|].
    unfold list_attributes, dict_attributes. comp_simpl.
    split; [|split; [|split; [|reflexivity]]].
    + repeat (apply Forall_cons; split); try apply Forall_nil_2.
      * exact (names_of_app_plus h _ 0).
      * exact (names_of_app_plus h _ 1).
      * exact (names_of_app_plus h _ 2).
      * exact (names_of_app_plus h _ 3).
      * exact (names_of_app_plus h _ 4).
    + repeat (apply Forall_cons; split); try apply Forall_nil_2.
      * exact (entries_of_app_plus h _ 5).
      * exact (entries_of_app_plus h _ 6).
      * exact (entries_of_app_plus h _ 7).
      * exact (entries_of_app_plus h _ 8).
      * exact (entries_of_app_plus h _ 10).
      * exact (entries_of_app_plus h _ 11).
    + exact (info_of_app_plus h _ 12).
Qed.

(** ** The frequency-domain seasonal component *)




(** ** Columns and labels of the decomposition *)

Lemma res_mapM_total {A B} (f : A → Res B) (l : list A) :
  Forall (fun a => is_Ok (f a) = true) l →
  ∃ bs, Component.res_mapM f l = Ok bs ∧ length bs = length l.
Proof.
  induction 1 as [|a l Ha _ (bs & IH & Hlen)]; [by exists []|].
  cbn [Component.res_mapM]. destruct (f a) as [b|]; [|done].
  cbn [Component.res_bind]. rewrite IH. cbn [Component.res_bind].
  exists (b :: bs). cbn [length]. by rewrite Hlen.
Qed.

Lemma Forall2_both {A B} (P Q : A → B → Prop) (l : list A) (k : list B) :
  Forall2 P l k → Forall2 Q l k → Forall2 (fun a b => P a b ∧ Q a b) l k.
Proof.
  induction 1 as [|a b l k Hab _ IH]; intros HQ; [constructor|].
  apply Forall2_cons_1 in HQ as [Hq HQ]. constructor; [done|by apply IH].
Qed.

(** One component in the two loops: the columns that
    [_hidden_states_from_data] appends and the labels that
    [_get_subcomponent_names] appends are equally many. *)
Lemma decomposition_step (info : list (string * ComponentInfo)) (names : list string)
    (width : nat) (name : string) (entry : ComponentInfo) (i j : Z) :
  table_get name info = Some entry →
  match ci_obs_state_idx entry with
  | Some obs => ci_combine_hidden_states entry = true →
                (Z.of_nat (length obs) ≤ ci_k_states entry)%Z
  | None => ci_combine_hidden_states entry = false ∧ ci_k_states entry = 0
  end →
  Z.of_nat (length (py_slice i j names)) = ci_k_states entry →
  Z.of_nat (length (py_slice i j (seq 0 width))) = ci_k_states entry →
  ∃ cols labs,
    hidden_states_step info names width (name, (i, j)) = Ok cols
    ∧ subcomponent_names_step info names (name, (i, j)) = Ok labs
    ∧ length cols = length labs.
Proof.
  intros Hget Hentry Hnames Hwidth.
  unfold hidden_states_step, subcomponent_names_step. rewrite Hget.
  destruct (ci_obs_state_idx entry) as [obs|].
  - destruct (ci_combine_hidden_states entry).
    + destruct (res_mapM_total
                  (fun t => match py_slice i j (seq 0 width) !! Z.to_nat t with
                            | Some col => Ok col
                            | None => Raise IndexError
                            end)
                  (flatnonzero ((fun x => bool_decide (x ≠ 0)) <$> obs)))
        as (cols & Hcols & _).
      { apply Forall_forall. intros t Ht%flatnonzero_bound.
        rewrite length_fmap in Ht.
        destruct (lookup_lt_is_Some_2 (py_slice i j (seq 0 width)) (Z.to_nat t))
          as [col ->]; [|done].
        specialize (Hentry eq_refl). lia. }
      unfold fancy_index. rewrite Hcols. cbn [Component.res_bind].
      by exists [CSum cols], [name].
    + destruct (res_mapM_total
                  (fun j0 => match py_slice i j (seq 0 width) !! j0 with
                             | Some col => Ok (CCopy col)
                             | None => Raise IndexError
                             end)
                  (seq 0 (length (py_slice i j names))))
        as (cols & Hcols & Hlen).
      { apply Forall_forall. intros t Ht%elem_of_seq.
        destruct (lookup_lt_is_Some_2 (py_slice i j (seq 0 width)) t) as [col ->]; [|done].
        lia. }
      rewrite Hcols. eexists _, _. split; [reflexivity|]. split; [reflexivity|].
      by rewrite Hlen, length_seq, length_fmap.
  - destruct Hentry as [-> Hk]. eexists _, _. split; [reflexivity|].
    split; [reflexivity|]. rewrite length_fmap. cbn [length]. lia.
Qed.

Lemma decomposition_steps (info0 info : list (string * ComponentInfo)) (names : list string)
    (width : nat) (slices : list (Z * Z)) :
  Forall (fun e => table_get e.1 info0 = Some e.2) info →
  Forall (fun e => match ci_obs_state_idx e.2 with
                   | Some obs => ci_combine_hidden_states e.2 = true →
                                 (Z.of_nat (length obs) ≤ ci_k_states e.2)%Z
                   | None => ci_combine_hidden_states e.2 = false ∧ ci_k_states e.2 = 0
                   end) info →
  Forall2 (fun e s => Z.of_nat (length (py_slice s.1 s.2 names)) = ci_k_states e.2
                      ∧ Z.of_nat (length (py_slice s.1 s.2 (seq 0 width))) = ci_k_states e.2)
    info slices →
  ∃ result labels,
    Component.res_mapM (hidden_states_step info0 names width) (zip (table_keys info) slices)
    = Ok result
    ∧ Component.res_mapM (subcomponent_names_step info0 names)
        (zip (table_keys info) slices) = Ok labels
    ∧ length (concat result) = length (concat labels).
Proof.
  intros Hget Hentries Hslices. revert Hget Hentries.
  induction Hslices as [|[name entry] [i j] info slices [Hn Hw] _ IH];
    intros Hget Hentries; [by exists [], []|].
  apply Forall_cons in Hget as [Hg Hget]. apply Forall_cons in Hentries as [He Hentries].
  destruct (IH Hget Hentries) as (result & labels & Hr & Hl & Hlen).
  destruct (decomposition_step info0 names width name entry i j Hg He Hn Hw)
    as (cols & labs & Hc & Hb & Hlen').
  unfold table_keys in *. cbn [fmap list_fmap fst zip zip_with Component.res_mapM].
  rewrite Hc, Hb. cbn [Component.res_bind]. rewrite Hr, Hl. cbn [Component.res_bind].
  exists (cols :: result), (labs :: labels). split; [done|]. split; [done|].
  cbn [concat]. rewrite !length_app. lia.
Qed.

(** The two passes over the table of components agree.  Let the table have
    no negative state count, let every component that is shown as one sum
    have a mask of observed states no longer than its states, let a
    component without such a mask be one without states that is not summed
    (as the measurement error), and let there be one state name per state.
    Then [_get_subcomponent_names] returns, and for data with one entry per
    state on the last axis [_hidden_states_from_data] returns an array with
    exactly one column per label; only if there is no label at all does it
    raise, in [np.concatenate]. *)
Theorem hidden_states_match_subcomponent_names {V : Type} (np_sum : list V → V)
    (m : StructuralTimeSeries.t) (h : Heap) (info : list (string * ComponentInfo))
    (names : list string) (data : Array (V:=V)) :
  table_at h (StructuralTimeSeries._component_info m) = Some info →
  list_at h (StructuralTimeSeries._state_names m) = Some names →
  NoDup (table_keys info) →
  Forall (fun e => (0 ≤ ci_k_states e.2)%Z
                   ∧ match ci_obs_state_idx e.2 with
                     | Some obs => ci_combine_hidden_states e.2 = true →
                                   (Z.of_nat (length obs) ≤ ci_k_states e.2)%Z
                     | None => ci_combine_hidden_states e.2 = false ∧ ci_k_states e.2 = 0
                     end) info →
  Z.of_nat (length names) = sum_list (ci_k_states ∘ snd <$> info) →
  last_axis data = length names →
  ∃ labels,
    _get_subcomponent_names m h = (Ok labels, h)
    ∧ (labels = [] →
       _hidden_states_from_data np_sum m data h = (Raise empty_concatenate, h))
    ∧ (labels ≠ [] →
       ∃ out, _hidden_states_from_data np_sum m data h = (Ok out, h)
              ∧ shape out = removelast (shape data) ++ [Z.of_nat (length labels)]
              ∧ length (rows out) = length (rows data)).
Proof.
  intros Hinfo Hnames Hnd Hentries Hlen Hwidth.
  apply Forall_and in Hentries as [Hk Hentries].
  assert (Hget : Forall (fun e => table_get e.1 info = Some e.2) info).
  { apply Forall_forall. intros [name entry] Hin. by apply table_get_elem. }
  assert (Hslices :
    Forall2 (fun e s => Z.of_nat (length (py_slice s.1 s.2 names)) = ci_k_states e.2
                        ∧ Z.of_nat (length (py_slice s.1 s.2 (seq 0 (last_axis data))))
                          = ci_k_states e.2)
      info (state_slices_of info)).
  { destruct (slices_from_partition names (ci_k_states ∘ snd <$> info) 0) as [H1 _];
      [done | by apply Forall_fmap | lia |].
    destruct (slices_from_partition (seq 0 (last_axis data)) (ci_k_states ∘ snd <$> info) 0)
      as [H2 _]; [done | by apply Forall_fmap | rewrite length_seq; lia |].
    unfold state_slices_of, np_cumsum. cbn [cumsum_from]. rewrite Z.add_0_l.
    apply Forall2_fmap_l in H1, H2.
    eapply Forall2_impl; [exact (Forall2_both _ _ _ _ H1 H2)|].
    cbn. intros e s [[_ ?] [_ ?]]. done. }
  destruct (decomposition_steps info info names (last_axis data) (state_slices_of info)
              Hget Hentries Hslices) as (result & labels & Hr & Hl & Hcount).
  exists (concat labels).
  split; [by apply (get_subcomponent_names_eval m h info names)|].
  split.
  - intros E. rewrite E in Hcount. apply nil_length_inv in Hcount.
    unfold _hidden_states_from_data.
    erewrite bind_Ok by (by apply state_slices_eval).
    erewrite bind_Ok by (apply deref_table_Some, table_at_lookup, Hinfo).
    erewrite bind_Ok by (apply deref_list_Some, list_at_lookup, Hnames).
    unfold hidden_states_columns. rewrite Hr. cbn [Component.res_bind]. rewrite Hcount.
    reflexivity.
  - intros Hne.
    assert (Hcolumns : hidden_states_columns info names (state_slices_of info)
                         (last_axis data) = Ok (concat result)).
    { unfold hidden_states_columns. rewrite Hr. cbn [Component.res_bind].
      destruct (concat result); [|done].
      destruct (concat labels); [done|]. cbn in Hcount. lia. }
    eexists. split.
    + by apply (hidden_states_from_data_eval np_sum m h info names (concat result)).
    + cbn [shape rows]. rewrite Hcount, length_fmap. done.
Qed.

Lemma hidden_states_match_subcomponent_names_witness :
  ∃ labels,
    _get_subcomponent_names sample_model sample_model_store = (Ok labels, sample_model_store)
    ∧ (labels = [] →
       _hidden_states_from_data sum_Z sample_model (da_data sample_states) sample_model_store
       = (Raise empty_concatenate, sample_model_store))
    ∧ (labels ≠ [] →
       ∃ out, _hidden_states_from_data sum_Z sample_model (da_data sample_states)
                sample_model_store = (Ok out, sample_model_store)
              ∧ shape out = removelast (shape (da_data sample_states))
                              ++ [Z.of_nat (length labels)]
              ∧ length (rows out) = length (rows (da_data sample_states))).
Proof.
  apply (hidden_states_match_subcomponent_names sum_Z sample_model sample_model_store
           [("LevelTrend", mkComponentInfo 2 1 1 false (Some [1; 0]));
            ("MeasurementError", mkComponentInfo 0 1 0 false None)]
           ["level"; "trend"] (da_data sample_states)).
  - vm_compute. reflexivity.
  - vm_compute. reflexivity.
  - apply (bool_decide_unpack _). vm_compute. exact I.
  - repeat constructor; cbn; lia.
  - reflexivity.
  - reflexivity.
Defined.
